(** * hvpp: the virtual-CPU engine, the orchestrator and the device front end

    A shallow embedding of [vcpu.h] / [vcpu.cpp], [hypervisor.cpp] and
    [lib/win32/device.cpp].  Every member function becomes a state
    transformer over the pair (virtual CPU object, logical processor);
    hardware instructions leave an event in the processor's trace so that
    the order of effects can be stated. *)

From Stdlib Require Import ZArith Lia ZifyNat Bool String.
From stdpp Require Import base tactics option list.

Local Open Scope Z_scope.

(** ** Machine integers *)

Definition wrap64 (z : Z) : Z := z mod 2 ^ 64.

(** ** enum class vcpu_state (vcpu.h) *)

Inductive vcpu_state :=
| off
| initializing
| launching
| running
| terminating
| terminated.

#[global] Instance vcpu_state_eq_dec : EqDecision vcpu_state.
Proof. solve_decision. Defined.

(** The enumerators carry no initialisers, so they are numbered from 0. *)
Definition vcpu_state_to_Z (s : vcpu_state) : Z :=
  match s with
  | off => 0
  | initializing => 1
  | launching => 2
  | running => 3
  | terminating => 4
  | terminated => 5
  end.

(** [static_cast<vcpu_state>(v)]: [None] when no enumerator has the value. *)
Definition vcpu_state_of_Z (v : Z) : option vcpu_state :=
  match v with
  | 0 => Some off
  | 1 => Some initializing
  | 2 => Some launching
  | 3 => Some running
  | 4 => Some terminating
  | 5 => Some terminated
  | _ => None
  end.

Definition vcpu_state_eqb (a b : vcpu_state) : bool :=
  bool_decide (a = b).

(** ** class interrupt_t (vcpu.h) *)

Record interrupt_t := {
  int_vector : Z;
  int_type : Z;
  int_error_code_valid : bool;
  int_nmi_unblocking : bool;
  int_valid : bool;
  int_error_code : Z;
  int_rip_adjust : Z
}.

(** The private default constructor: [info_(), error_code_(), rip_adjust_()]. *)
Definition interrupt_default : interrupt_t :=
  {| int_vector := 0; int_type := 0; int_error_code_valid := false;
     int_nmi_unblocking := false; int_valid := false;
     int_error_code := 0; int_rip_adjust := 0 |}.

(** The private five-argument constructor. *)
Definition interrupt_make (type vector code : Z) (code_valid : bool)
    (rip_adjust : Z) : interrupt_t :=
  {| int_vector := vector; int_type := type;
     int_error_code_valid := code_valid;
     int_nmi_unblocking := false; int_valid := true;
     int_error_code := code; int_rip_adjust := rip_adjust |}.

Definition pending_interrupt_queue_size : nat := 16.

(** ** Registers and control-structure fields *)

(** Registers of the logical processor that the code reads and writes
    through [read<T>()] / [write<T>()], and the FX (x87/SSE) state. *)
Inductive reg :=
| CR0 | CR3 | CR4
| GDTR_BASE | GDTR_LIMIT | IDTR_BASE | IDTR_LIMIT
| CS | DS | ES | FS | GS | SS | TR
| FX.

#[global] Instance reg_eq_dec : EqDecision reg.
Proof. solve_decision. Defined.

(** Fields of the current VMCS reached by the accessors of [vcpu.h]. *)
Inductive vmcs_field :=
| f_vcpu_id | f_ept_pointer | f_vmcs_link_pointer
| f_pin_based_controls | f_processor_based_controls
| f_processor_based_controls2 | f_vm_entry_controls | f_vm_exit_controls
| f_msr_bitmap
| f_exit_instruction_error | f_exit_instruction_length
| f_guest_cr3 | f_guest_rsp | f_guest_rip | f_guest_rflags
| f_guest_gdtr_base | f_guest_gdtr_limit
| f_guest_idtr_base | f_guest_idtr_limit
| f_host_cr0 | f_host_cr3 | f_host_cr4 | f_host_rsp | f_host_rip
| f_host_gdtr_base | f_host_idtr_base
| f_host_cs | f_host_ds | f_host_es | f_host_fs | f_host_gs
| f_host_ss | f_host_tr.

#[global] Instance vmcs_field_eq_dec : EqDecision vmcs_field.
Proof. solve_decision. Defined.

Definition upd {K : Type} `{EqDecision K} (m : K -> Z) (k : K) (v : Z)
    : K -> Z :=
  fun k' => if decide (k' = k) then v else m k'.

(** Descriptor-table register value: [gdtr_t] / [idtr_t]. *)
Record desc_table := { dt_base : Z; dt_limit : Z }.

(** ** Effects, in program order *)

Inductive event :=
| ev_write (r : reg) (v : Z)
| ev_vmxon (pa : Z) (ok : bool)
| ev_vmxoff
| ev_vmclear (pa : Z) (ok : bool)
| ev_vmptrld (pa : Z) (ok : bool)
| ev_vmlaunch (ok : bool)
| ev_invvpid_all_contexts
| ev_invept_all_contexts
| ev_vmwrite (f : vmcs_field) (v : Z)
| ev_fx_save
| ev_fx_restore
| ev_int3
| ev_hvpp_error (code : Z)
| ev_allocator_guard_enter
| ev_allocator_guard_leave
| ev_new_ept (count : nat)
| ev_delete_ept
| ev_state (s : vcpu_state).

(** ** The logical processor *)

(** [msr::vmx_basic_t], the fields the code reads. *)
Record vmx_basic_t := {
  vmcs_revision_id : Z;
  vmcs_size_in_bytes : Z;
  memory_type : Z;
  true_controls : bool
}.

(** [msr::vmx_ept_vpid_cap_t], the fields the code reads. *)
Record vmx_ept_vpid_cap_t := {
  page_walk_length_4 : bool;
  memory_type_write_back : bool;
  invept : bool;
  invept_all_contexts : bool;
  execute_only_pages : bool;
  pde_2mb_pages : bool
}.

(** What the processor reports and how its VMX instructions answer.  These
    are inputs of the model: the code only observes them. *)
Record cpu_caps := {
  virtual_machine_extensions : bool;
  vmx_basic : vmx_basic_t;
  vmx_ept_vpid_cap : vmx_ept_vpid_cap_t;
  vmxon_succeeds : bool;
  vmclear_succeeds : bool;
  vmptrld_succeeds : bool;
  vmlaunch_succeeds : bool
}.

Record cpu_t := {
  regs : reg -> Z;
  vmcs : vmcs_field -> Z;
  caps : cpu_caps;
  trace : list event
}.

Definition cpu_set_regs (c : cpu_t) (r : reg -> Z) : cpu_t :=
  {| regs := r; vmcs := vmcs c; caps := caps c; trace := trace c |}.

Definition cpu_set_vmcs (c : cpu_t) (m : vmcs_field -> Z) : cpu_t :=
  {| regs := regs c; vmcs := m; caps := caps c; trace := trace c |}.

Definition cpu_log (c : cpu_t) (e : event) : cpu_t :=
  {| regs := regs c; vmcs := vmcs c; caps := caps c;
     trace := trace c ++ [e] |}.

(** ** class vcpu_t (vcpu.h) *)

(** [context_t]: of the captured registers the code touches these four. *)
Record context_t := { rax : Z; rsp : Z; rip : Z; rflags : Z }.

(** [context_t::clear()] *)
Definition context_clear : context_t :=
  {| rax := 0; rsp := 0; rip := 0; rflags := 0 |}.

Definition ctx_set_rax (c : context_t) (x : Z) : context_t :=
  {| rax := x; rsp := rsp c; rip := rip c; rflags := rflags c |}.
Definition ctx_set_rsp (c : context_t) (x : Z) : context_t :=
  {| rax := rax c; rsp := x; rip := rip c; rflags := rflags c |}.
Definition ctx_set_rip (c : context_t) (x : Z) : context_t :=
  {| rax := rax c; rsp := rsp c; rip := x; rflags := rflags c |}.
Definition ctx_set_rflags (c : context_t) (x : Z) : context_t :=
  {| rax := rax c; rsp := rsp c; rip := rip c; rflags := x |}.

(** [vcpu_stack_t::machine_frame_t], the two slots [entry_host] fills. *)
Record machine_frame_t := { mf_rip : Z; mf_rsp : Z }.

(** [ept_t] is opaque to the virtual CPU apart from [ept_pointer()]. *)
Record ept_t := { ept_pointer_of : Z }.

(** The data members.  [this_va] is the address of the object; [vmxon_]
    and [vmcs_] hold the revision identifier of their region; [handler_]
    is the reference to the exit handler; the [uint16_t] and [uint8_t]
    members are only compared, copied and stepped by one below 17, so
    they are kept as [nat]. *)
Record vcpu_t := {
  this_va : Z;
  stack_ : machine_frame_t;
  guest_context_ : context_t;
  exit_context_ : context_t;
  vmxon_ : Z;
  vmcs_ : Z;
  msr_bitmap_ : Z;
  fxsave_area_ : Z;
  handler_ : Z;
  state_ : vcpu_state;
  ept_ : option (list ept_t);
  ept_count_ : nat;
  ept_index_ : nat;
  pending_interrupt_ : list interrupt_t;
  pending_interrupt_first_ : nat;
  pending_interrupt_count_ : nat;
  suppress_rip_adjust_ : bool
}.

Definition set_stack_ (v : vcpu_t) (x : machine_frame_t) : vcpu_t :=
  {| this_va := this_va v; stack_ := x; guest_context_ := guest_context_ v;
     exit_context_ := exit_context_ v; vmxon_ := vmxon_ v; vmcs_ := vmcs_ v;
     msr_bitmap_ := msr_bitmap_ v; fxsave_area_ := fxsave_area_ v;
     handler_ := handler_ v; state_ := state_ v; ept_ := ept_ v;
     ept_count_ := ept_count_ v; ept_index_ := ept_index_ v;
     pending_interrupt_ := pending_interrupt_ v;
     pending_interrupt_first_ := pending_interrupt_first_ v;
     pending_interrupt_count_ := pending_interrupt_count_ v;
     suppress_rip_adjust_ := suppress_rip_adjust_ v |}.

Definition set_guest_context_ (v : vcpu_t) (x : context_t) : vcpu_t :=
  {| this_va := this_va v; stack_ := stack_ v; guest_context_ := x;
     exit_context_ := exit_context_ v; vmxon_ := vmxon_ v; vmcs_ := vmcs_ v;
     msr_bitmap_ := msr_bitmap_ v; fxsave_area_ := fxsave_area_ v;
     handler_ := handler_ v; state_ := state_ v; ept_ := ept_ v;
     ept_count_ := ept_count_ v; ept_index_ := ept_index_ v;
     pending_interrupt_ := pending_interrupt_ v;
     pending_interrupt_first_ := pending_interrupt_first_ v;
     pending_interrupt_count_ := pending_interrupt_count_ v;
     suppress_rip_adjust_ := suppress_rip_adjust_ v |}.

Definition set_exit_context_ (v : vcpu_t) (x : context_t) : vcpu_t :=
  {| this_va := this_va v; stack_ := stack_ v;
     guest_context_ := guest_context_ v; exit_context_ := x;
     vmxon_ := vmxon_ v; vmcs_ := vmcs_ v; msr_bitmap_ := msr_bitmap_ v;
     fxsave_area_ := fxsave_area_ v; handler_ := handler_ v;
     state_ := state_ v; ept_ := ept_ v; ept_count_ := ept_count_ v;
     ept_index_ := ept_index_ v; pending_interrupt_ := pending_interrupt_ v;
     pending_interrupt_first_ := pending_interrupt_first_ v;
     pending_interrupt_count_ := pending_interrupt_count_ v;
     suppress_rip_adjust_ := suppress_rip_adjust_ v |}.

Definition set_vmxon_ (v : vcpu_t) (x : Z) : vcpu_t :=
  {| this_va := this_va v; stack_ := stack_ v;
     guest_context_ := guest_context_ v; exit_context_ := exit_context_ v;
     vmxon_ := x; vmcs_ := vmcs_ v; msr_bitmap_ := msr_bitmap_ v;
     fxsave_area_ := fxsave_area_ v; handler_ := handler_ v;
     state_ := state_ v; ept_ := ept_ v; ept_count_ := ept_count_ v;
     ept_index_ := ept_index_ v; pending_interrupt_ := pending_interrupt_ v;
     pending_interrupt_first_ := pending_interrupt_first_ v;
     pending_interrupt_count_ := pending_interrupt_count_ v;
     suppress_rip_adjust_ := suppress_rip_adjust_ v |}.

Definition set_vmcs_ (v : vcpu_t) (x : Z) : vcpu_t :=
  {| this_va := this_va v; stack_ := stack_ v;
     guest_context_ := guest_context_ v; exit_context_ := exit_context_ v;
     vmxon_ := vmxon_ v; vmcs_ := x; msr_bitmap_ := msr_bitmap_ v;
     fxsave_area_ := fxsave_area_ v; handler_ := handler_ v;
     state_ := state_ v; ept_ := ept_ v; ept_count_ := ept_count_ v;
     ept_index_ := ept_index_ v; pending_interrupt_ := pending_interrupt_ v;
     pending_interrupt_first_ := pending_interrupt_first_ v;
     pending_interrupt_count_ := pending_interrupt_count_ v;
     suppress_rip_adjust_ := suppress_rip_adjust_ v |}.

Definition set_msr_bitmap_ (v : vcpu_t) (x : Z) : vcpu_t :=
  {| this_va := this_va v; stack_ := stack_ v;
     guest_context_ := guest_context_ v; exit_context_ := exit_context_ v;
     vmxon_ := vmxon_ v; vmcs_ := vmcs_ v; msr_bitmap_ := x;
     fxsave_area_ := fxsave_area_ v; handler_ := handler_ v;
     state_ := state_ v; ept_ := ept_ v; ept_count_ := ept_count_ v;
     ept_index_ := ept_index_ v; pending_interrupt_ := pending_interrupt_ v;
     pending_interrupt_first_ := pending_interrupt_first_ v;
     pending_interrupt_count_ := pending_interrupt_count_ v;
     suppress_rip_adjust_ := suppress_rip_adjust_ v |}.

Definition set_fxsave_area_ (v : vcpu_t) (x : Z) : vcpu_t :=
  {| this_va := this_va v; stack_ := stack_ v;
     guest_context_ := guest_context_ v; exit_context_ := exit_context_ v;
     vmxon_ := vmxon_ v; vmcs_ := vmcs_ v; msr_bitmap_ := msr_bitmap_ v;
     fxsave_area_ := x; handler_ := handler_ v; state_ := state_ v;
     ept_ := ept_ v; ept_count_ := ept_count_ v; ept_index_ := ept_index_ v;
     pending_interrupt_ := pending_interrupt_ v;
     pending_interrupt_first_ := pending_interrupt_first_ v;
     pending_interrupt_count_ := pending_interrupt_count_ v;
     suppress_rip_adjust_ := suppress_rip_adjust_ v |}.

Definition set_state_ (v : vcpu_t) (x : vcpu_state) : vcpu_t :=
  {| this_va := this_va v; stack_ := stack_ v;
     guest_context_ := guest_context_ v; exit_context_ := exit_context_ v;
     vmxon_ := vmxon_ v; vmcs_ := vmcs_ v; msr_bitmap_ := msr_bitmap_ v;
     fxsave_area_ := fxsave_area_ v; handler_ := handler_ v; state_ := x;
     ept_ := ept_ v; ept_count_ := ept_count_ v; ept_index_ := ept_index_ v;
     pending_interrupt_ := pending_interrupt_ v;
     pending_interrupt_first_ := pending_interrupt_first_ v;
     pending_interrupt_count_ := pending_interrupt_count_ v;
     suppress_rip_adjust_ := suppress_rip_adjust_ v |}.

Definition set_ept_ (v : vcpu_t) (x : option (list ept_t)) : vcpu_t :=
  {| this_va := this_va v; stack_ := stack_ v;
     guest_context_ := guest_context_ v; exit_context_ := exit_context_ v;
     vmxon_ := vmxon_ v; vmcs_ := vmcs_ v; msr_bitmap_ := msr_bitmap_ v;
     fxsave_area_ := fxsave_area_ v; handler_ := handler_ v;
     state_ := state_ v; ept_ := x; ept_count_ := ept_count_ v;
     ept_index_ := ept_index_ v; pending_interrupt_ := pending_interrupt_ v;
     pending_interrupt_first_ := pending_interrupt_first_ v;
     pending_interrupt_count_ := pending_interrupt_count_ v;
     suppress_rip_adjust_ := suppress_rip_adjust_ v |}.

Definition set_ept_count_ (v : vcpu_t) (x : nat) : vcpu_t :=
  {| this_va := this_va v; stack_ := stack_ v;
     guest_context_ := guest_context_ v; exit_context_ := exit_context_ v;
     vmxon_ := vmxon_ v; vmcs_ := vmcs_ v; msr_bitmap_ := msr_bitmap_ v;
     fxsave_area_ := fxsave_area_ v; handler_ := handler_ v;
     state_ := state_ v; ept_ := ept_ v; ept_count_ := x;
     ept_index_ := ept_index_ v; pending_interrupt_ := pending_interrupt_ v;
     pending_interrupt_first_ := pending_interrupt_first_ v;
     pending_interrupt_count_ := pending_interrupt_count_ v;
     suppress_rip_adjust_ := suppress_rip_adjust_ v |}.

Definition set_ept_index_ (v : vcpu_t) (x : nat) : vcpu_t :=
  {| this_va := this_va v; stack_ := stack_ v;
     guest_context_ := guest_context_ v; exit_context_ := exit_context_ v;
     vmxon_ := vmxon_ v; vmcs_ := vmcs_ v; msr_bitmap_ := msr_bitmap_ v;
     fxsave_area_ := fxsave_area_ v; handler_ := handler_ v;
     state_ := state_ v; ept_ := ept_ v; ept_count_ := ept_count_ v;
     ept_index_ := x; pending_interrupt_ := pending_interrupt_ v;
     pending_interrupt_first_ := pending_interrupt_first_ v;
     pending_interrupt_count_ := pending_interrupt_count_ v;
     suppress_rip_adjust_ := suppress_rip_adjust_ v |}.

Definition set_pending_interrupt_ (v : vcpu_t) (x : list interrupt_t) : vcpu_t :=
  {| this_va := this_va v; stack_ := stack_ v;
     guest_context_ := guest_context_ v; exit_context_ := exit_context_ v;
     vmxon_ := vmxon_ v; vmcs_ := vmcs_ v; msr_bitmap_ := msr_bitmap_ v;
     fxsave_area_ := fxsave_area_ v; handler_ := handler_ v;
     state_ := state_ v; ept_ := ept_ v; ept_count_ := ept_count_ v;
     ept_index_ := ept_index_ v; pending_interrupt_ := x;
     pending_interrupt_first_ := pending_interrupt_first_ v;
     pending_interrupt_count_ := pending_interrupt_count_ v;
     suppress_rip_adjust_ := suppress_rip_adjust_ v |}.

Definition set_pending_interrupt_first_ (v : vcpu_t) (x : nat) : vcpu_t :=
  {| this_va := this_va v; stack_ := stack_ v;
     guest_context_ := guest_context_ v; exit_context_ := exit_context_ v;
     vmxon_ := vmxon_ v; vmcs_ := vmcs_ v; msr_bitmap_ := msr_bitmap_ v;
     fxsave_area_ := fxsave_area_ v; handler_ := handler_ v;
     state_ := state_ v; ept_ := ept_ v; ept_count_ := ept_count_ v;
     ept_index_ := ept_index_ v; pending_interrupt_ := pending_interrupt_ v;
     pending_interrupt_first_ := x;
     pending_interrupt_count_ := pending_interrupt_count_ v;
     suppress_rip_adjust_ := suppress_rip_adjust_ v |}.

Definition set_pending_interrupt_count_ (v : vcpu_t) (x : nat) : vcpu_t :=
  {| this_va := this_va v; stack_ := stack_ v;
     guest_context_ := guest_context_ v; exit_context_ := exit_context_ v;
     vmxon_ := vmxon_ v; vmcs_ := vmcs_ v; msr_bitmap_ := msr_bitmap_ v;
     fxsave_area_ := fxsave_area_ v; handler_ := handler_ v;
     state_ := state_ v; ept_ := ept_ v; ept_count_ := ept_count_ v;
     ept_index_ := ept_index_ v; pending_interrupt_ := pending_interrupt_ v;
     pending_interrupt_first_ := pending_interrupt_first_ v;
     pending_interrupt_count_ := x;
     suppress_rip_adjust_ := suppress_rip_adjust_ v |}.

Definition set_suppress_rip_adjust_ (v : vcpu_t) (x : bool) : vcpu_t :=
  {| this_va := this_va v; stack_ := stack_ v;
     guest_context_ := guest_context_ v; exit_context_ := exit_context_ v;
     vmxon_ := vmxon_ v; vmcs_ := vmcs_ v; msr_bitmap_ := msr_bitmap_ v;
     fxsave_area_ := fxsave_area_ v; handler_ := handler_ v;
     state_ := state_ v; ept_ := ept_ v; ept_count_ := ept_count_ v;
     ept_index_ := ept_index_ v; pending_interrupt_ := pending_interrupt_ v;
     pending_interrupt_first_ := pending_interrupt_first_ v;
     pending_interrupt_count_ := pending_interrupt_count_ v;
     suppress_rip_adjust_ := x |}.

(** [vcpu_stack_size] *)
Definition vcpu_stack_size : Z := 0x8000.

(** [std::end(stack_.data)]: [stack_] is the first member. *)
Definition stack_end (v : vcpu_t) : Z := this_va v + vcpu_stack_size.

(** ** Calls as state transformers *)

(** One virtual CPU runs pinned to one logical processor. *)
Record world := { self : vcpu_t; cpu : cpu_t }.

Inductive outcome (A : Type) :=
| Ret (a : A) (w : world)   (* the call returned [a] *)
| Fault (w : world)         (* a failed [hvpp_assert] stopped the processor *)
| Undef (w : world)         (* null or out-of-bounds access *)
| Guest (w : world).        (* VMLAUNCH succeeded: control is in the guest *)

Arguments Ret {A} a w.
Arguments Fault {A} w.
Arguments Undef {A} w.
Arguments Guest {A} w.

Definition M (A : Type) : Type := world -> outcome A.

Definition ret {A} (a : A) : M A := fun w => Ret a w.

Definition bind {A B} (m : M A) (k : A -> M B) : M B :=
  fun w =>
    match m w with
    | Ret a w' => k a w'
    | Fault w' => Fault w'
    | Undef w' => Undef w'
    | Guest w' => Guest w'
    end.

Notation "'let*' x := m 'in' k" := (bind m (fun x => k))
  (at level 10, x name, m at level 100, k at level 200).
Notation "m >> k" := (bind m (fun _ => k))
  (at level 90, right associativity).

Definition get {A} (f : world -> A) : M A := fun w => Ret (f w) w.

Definition modify_self (f : vcpu_t -> vcpu_t) : M unit :=
  fun w => Ret tt {| self := f (self w); cpu := cpu w |}.

Definition modify_cpu (f : cpu_t -> cpu_t) : M unit :=
  fun w => Ret tt {| self := self w; cpu := f (cpu w) |}.

Definition log (e : event) : M unit := modify_cpu (fun c => cpu_log c e).

Definition undefined {A} : M A := fun w => Undef w.

(** The final world of an outcome, whatever its kind. *)
Definition world_of {A} (o : outcome A) : world :=
  match o with
  | Ret _ w | Fault w | Undef w | Guest w => w
  end.

(** The exit handler: [vmexit_handler] is an abstract class whose three
    virtual members receive the virtual CPU. *)
Record vmexit_handler := {
  h_setup : M unit;
  h_handle : M unit;
  h_invoke_termination : M unit
}.

(** What the build and the rest of the image fix: constants and helpers
    of absent headers ([lib/assert.h], [ia32/vmx.h], [ia32/memory.h],
    [ept.h]) and the layout the compiler chooses.  They are parameters
    of everything below. *)
Record platform := {
  (* lib/assert.h: does a failed hvpp_assert stop, or is it compiled out *)
  assertions_fatal : bool;
  page_size : Z;
  (* vmx::adjust for CR0 and CR4 *)
  vmx_adjust_cr0 : Z -> Z;
  vmx_adjust_cr4 : Z -> Z;
  (* pa_t::from_va *)
  pa_from_va : Z -> Z;
  (* addresses of code and of members *)
  va_entry_host_ : Z;
  va_entry_guest_ : Z;
  va_vmresume : Z;
  offsetof_vmxon_ : Z;
  offsetof_vmcs_ : Z;
  offsetof_msr_bitmap_ : Z;
  sizeof_vcpu_t : Z;
  (* ept_pointer() of the i-th element of a fresh ept_t array *)
  new_ept_pointer : nat -> Z;
  (* the object a vmexit_handler reference designates *)
  handler_at : Z -> vmexit_handler
}.

(** ** Processor primitives

    Modelled from the spec: [ia32/arch.h], [ia32/asm.h] and [ia32/vmx.h]
    are absent.  Each primitive does what the spec and the comments of
    [vcpu.cpp] say of its instruction, and leaves its event in the
    trace; whether a VMX instruction succeeds is the processor's answer. *)

(** [read<T>()] *)
Definition read (r : reg) : M Z := get (fun w => regs (cpu w) r).

(** [write<T>(v)] *)
Definition write (r : reg) (v : Z) : M unit :=
  modify_cpu (fun c => cpu_log (cpu_set_regs c (upd (regs c) r v))
                               (ev_write r v)).

Definition vmread (f : vmcs_field) : M Z := get (fun w => vmcs (cpu w) f).

Definition vmwrite (f : vmcs_field) (v : Z) : M unit :=
  modify_cpu (fun c => cpu_log (cpu_set_vmcs c (upd (vmcs c) f v))
                               (ev_vmwrite f v)).

(** [vmx::on], [vmx::vmclear], [vmx::vmptrld]: [true] is
    [vmx::error_code::success]. *)
Definition vmx_on (pa : Z) : M bool :=
  let* ok := get (fun w => vmxon_succeeds (caps (cpu w))) in
  log (ev_vmxon pa ok) >> ret ok.

Definition vmx_vmclear (pa : Z) : M bool :=
  let* ok := get (fun w => vmclear_succeeds (caps (cpu w))) in
  log (ev_vmclear pa ok) >> ret ok.

Definition vmx_vmptrld (pa : Z) : M bool :=
  let* ok := get (fun w => vmptrld_succeeds (caps (cpu w))) in
  log (ev_vmptrld pa ok) >> ret ok.

(** [vmx::vmlaunch]: on success the next instruction executed is the
    guest's, so the call does not return. *)
Definition vmx_vmlaunch : M unit :=
  fun w =>
    if vmlaunch_succeeds (caps (cpu w))
    then Guest {| self := self w; cpu := cpu_log (cpu w) (ev_vmlaunch true) |}
    else Ret tt {| self := self w; cpu := cpu_log (cpu w) (ev_vmlaunch false) |}.

Definition vmx_off : M unit := log ev_vmxoff.
Definition vmx_invvpid_all_contexts : M unit := log ev_invvpid_all_contexts.
Definition vmx_invept_all_contexts : M unit := log ev_invept_all_contexts.

(** [ia32_asm_fx_save(&fxsave_area_)] / [ia32_asm_fx_restore(&fxsave_area_)] *)
Definition ia32_asm_fx_save : M unit :=
  let* fx := read FX in
  modify_self (fun v => set_fxsave_area_ v fx) >> log ev_fx_save.

Definition ia32_asm_fx_restore : M unit :=
  let* area := get (fun w => fxsave_area_ (self w)) in
  modify_cpu (fun c => cpu_log (cpu_set_regs c (upd (regs c) FX area))
                               ev_fx_restore).

Definition ia32_asm_int3 : M unit := log ev_int3.

(** Bit positions of the control bits the code sets, as the IA-32
    architecture numbers them. *)
Definition cr4_vmx_enable_bit : Z := 13.
Definition procbased_activate_secondary_controls_bit : Z := 31.
Definition procbased_use_msr_bitmaps_bit : Z := 28.
Definition procbased2_enable_ept_bit : Z := 1.
Definition procbased2_enable_rdtscp_bit : Z := 3.
Definition procbased2_enable_vpid_bit : Z := 5.
Definition procbased2_enable_invpcid_bit : Z := 12.
Definition procbased2_enable_xsaves_bit : Z := 20.
Definition entry_ia32e_mode_guest_bit : Z := 9.
Definition exit_ia32e_mode_host_bit : Z := 9.

(** [memory_type::write_back] *)
Definition memory_type_write_back_value : Z := 6.

Section Vcpu.

Variable P : platform.

(** Modelled from the spec: [lib/assert.h] is absent.  A violated
    assertion is fatal where assertions are compiled in and has no effect
    where they are compiled out. *)
Definition hvpp_assert (b : bool) : M unit :=
  fun w => if b then Ret tt w
           else if assertions_fatal P then Fault w else Ret tt w.

(** Modelled from the spec: [lib/mm.h] is absent.  [mm::allocator_guard]
    is a scoped suppression of memory allocation, entered where the
    guard is constructed and left where its scope ends. *)
Definition allocator_guard_enter : M unit := log ev_allocator_guard_enter.
Definition allocator_guard_leave : M unit := log ev_allocator_guard_leave.

(** Every [state_ = s] of the source. *)
Definition assign_state (s : vcpu_state) : M unit :=
  modify_self (fun v => set_state_ v s) >> log (ev_state s).

(** *** The constructor *)

(** [vcpu_t::vcpu_t(handler)] for the object at address [this].  The
    members the constructor leaves uninitialised ([fxsave_area_],
    [msr_bitmap_]) hold whatever the raw storage held. *)
Definition vcpu_t_ctor (this handler raw_fx raw_msr_bitmap : Z) : vcpu_t :=
  {| this_va := this;
     stack_ := {| mf_rip := 0xcccccccccccccccc; mf_rsp := 0xcccccccccccccccc |};
     guest_context_ := context_clear;
     exit_context_ := context_clear;
     vmxon_ := 0;
     vmcs_ := 0;
     msr_bitmap_ := raw_msr_bitmap;
     fxsave_area_ := raw_fx;
     handler_ := handler;
     state_ := off;
     ept_ := None;
     ept_count_ := 0%nat;
     ept_index_ := 0%nat;
     pending_interrupt_ := replicate pending_interrupt_queue_size interrupt_default;
     pending_interrupt_first_ := 0%nat;
     pending_interrupt_count_ := 0%nat;
     suppress_rip_adjust_ := false |}.

(** *** Accessors of [vcpu.inl] used by [vcpu.cpp]

    Modelled from the spec: [vcpu.inl] is absent.  Each accessor reads
    or writes the field of the current VMCS that carries its name. *)

Definition exit_instruction_length : M Z := vmread f_exit_instruction_length.
Definition exit_instruction_error : M Z := vmread f_exit_instruction_error.
Definition guest_cr3 : M Z := vmread f_guest_cr3.
Definition guest_rsp : M Z := vmread f_guest_rsp.
Definition guest_rip : M Z := vmread f_guest_rip.
Definition guest_rflags : M Z := vmread f_guest_rflags.

Definition guest_gdtr : M desc_table :=
  let* b := vmread f_guest_gdtr_base in
  let* l := vmread f_guest_gdtr_limit in
  ret {| dt_base := b; dt_limit := l |}.

Definition guest_idtr : M desc_table :=
  let* b := vmread f_guest_idtr_base in
  let* l := vmread f_guest_idtr_limit in
  ret {| dt_base := b; dt_limit := l |}.

Definition read_gdtr : M desc_table :=
  let* b := read GDTR_BASE in
  let* l := read GDTR_LIMIT in
  ret {| dt_base := b; dt_limit := l |}.

Definition read_idtr : M desc_table :=
  let* b := read IDTR_BASE in
  let* l := read IDTR_LIMIT in
  ret {| dt_base := b; dt_limit := l |}.

Definition write_gdtr (d : desc_table) : M unit :=
  write GDTR_BASE (dt_base d) >> write GDTR_LIMIT (dt_limit d).

Definition write_idtr (d : desc_table) : M unit :=
  write IDTR_BASE (dt_base d) >> write IDTR_LIMIT (dt_limit d).

(** Exit-context updates. *)
Definition set_exit_rsp (x : Z) : M unit :=
  modify_self (fun v => set_exit_context_ v (ctx_set_rsp (exit_context_ v) x)).
Definition set_exit_rip (x : Z) : M unit :=
  modify_self (fun v => set_exit_context_ v (ctx_set_rip (exit_context_ v) x)).
Definition set_exit_rflags (x : Z) : M unit :=
  modify_self (fun v => set_exit_context_ v (ctx_set_rflags (exit_context_ v) x)).

(** [exit_context_.rip += exit_instruction_length()] on [uint64_t] *)
Definition advance_exit_rip : M unit :=
  let* len := exit_instruction_length in
  let* old := get (fun w => rip (exit_context_ (self w))) in
  set_exit_rip (wrap64 (old + len)).

(** *** terminate *)

Definition terminate : M unit :=
  let* st := get (fun w => state_ (self w)) in
  hvpp_assert (negb (vcpu_state_eqb st off) && negb (vcpu_state_eqb st terminated)) >>
  advance_exit_rip >>
  (let* g := guest_gdtr in write_gdtr g) >>
  (let* i := guest_idtr in write_idtr i) >>
  (let* c := guest_cr3 in write CR3 c) >>
  vmx_invvpid_all_contexts >>
  vmx_invept_all_contexts >>
  vmx_off >>
  (let* cr4 := read CR4 in write CR4 (Z.clearbit cr4 cr4_vmx_enable_bit)) >>
  assign_state terminated.

(** *** The translation contexts *)

(** [new ept_t[count]] *)
Definition new_ept_array (count : nat) : list ept_t :=
  map (fun i => {| ept_pointer_of := new_ept_pointer P i |}) (seq 0 count).

(** [ept_index(index)] *)
Definition ept_index (index : nat) : M unit :=
  let* count := get (fun w => ept_count_ (self w)) in
  hvpp_assert (bool_decide (index < count)%nat) >>
  let* arr := get (fun w => ept_ (self w)) in
  match arr with
  | None => undefined
  | Some l =>
      match l !! index with
      | None => undefined
      | Some e =>
          vmwrite f_ept_pointer (ept_pointer_of e) >>
          modify_self (fun v => set_ept_index_ v index)
      end
  end.

(** [ept(index)]: the reference is rendered as the element. *)
Definition ept (index : nat) : M ept_t :=
  let* count := get (fun w => ept_count_ (self w)) in
  hvpp_assert (bool_decide (index < count)%nat) >>
  let* arr := get (fun w => ept_ (self w)) in
  match arr with
  | None => undefined
  | Some l =>
      match l !! index with
      | None => undefined
      | Some e => ret e
      end
  end.

(** A [uint16_t] parameter: the caller's value arrives modulo 2^16. *)
Definition uint16 (n : nat) : nat := Z.to_nat (Z.of_nat n mod 2 ^ 16).

(** [ept_enable(count)].  [allocated] is the answer of
    [new ept_t[count]]: the allocation functions of this image report
    failure by a null pointer, and the result is not checked, so on
    failure the null pointer and the count are stored all the same and
    [ept_index(0)] reads through the null pointer. *)
Definition ept_enable (count : nat) (allocated : bool) : M unit :=
  let count := uint16 count in
  let* arr := get (fun w => ept_ (self w)) in
  hvpp_assert (bool_decide (arr = None) && bool_decide (0 < count)%nat) >>
  (if allocated then
     log (ev_new_ept count) >>
     modify_self (fun v => set_ept_ v (Some (new_ept_array count)))
   else
     modify_self (fun v => set_ept_ v None)) >>
  modify_self (fun v => set_ept_count_ v count) >>
  (let* ctls2 := vmread f_processor_based_controls2 in
   vmwrite f_processor_based_controls2
           (Z.setbit ctls2 procbased2_enable_ept_bit)) >>
  ept_index 0.

Definition ept_disable : M unit :=
  let* arr := get (fun w => ept_ (self w)) in
  match arr with
  | None => ret tt
  | Some _ =>
      log ev_delete_ept >>
      modify_self (fun v => set_ept_ v None)
  end.

Definition suppress_rip_adjust : M unit :=
  modify_self (fun v => set_suppress_rip_adjust_ v true).

(** *** Bring-up *)

(** [error()] *)
Definition error : M unit :=
  let* e := exit_instruction_error in
  log (ev_hvpp_error e) >>
  ia32_asm_int3 >>
  terminate.

Definition load_vmxon : M unit :=
  (let* cr0 := read CR0 in write CR0 (vmx_adjust_cr0 P cr0)) >>
  (let* cr4 := read CR4 in write CR4 (vmx_adjust_cr4 P cr4)) >>
  let* basic := get (fun w => vmx_basic (caps (cpu w))) in
  modify_self (fun v => set_vmxon_ v (vmcs_revision_id basic)) >>
  let* this := get (fun w => this_va (self w)) in
  let* ok := vmx_on (pa_from_va P (this + offsetof_vmxon_ P)) in
  if ok then
    assign_state initializing >>
    vmx_invvpid_all_contexts >>
    vmx_invept_all_contexts
  else
    assign_state terminated >>
    error.

Definition load_vmcs : M unit :=
  let* st := get (fun w => state_ (self w)) in
  hvpp_assert (vcpu_state_eqb st initializing) >>
  let* basic := get (fun w => vmx_basic (caps (cpu w))) in
  modify_self (fun v => set_vmcs_ v (vmcs_revision_id basic)) >>
  let* this := get (fun w => this_va (self w)) in
  let pa := pa_from_va P (this + offsetof_vmcs_ P) in
  let* cleared := vmx_vmclear pa in
  if cleared then
    let* loaded := vmx_vmptrld pa in
    if loaded then ret tt else error
  else error.

(** [setup_host()].  The host segment setters of [vcpu.inl] are rendered
    as the write of the selector, which is what the comment in the source
    says they set. *)
Definition setup_host : M unit :=
  let* gdtr := read_gdtr in
  vmwrite f_host_gdtr_base (dt_base gdtr) >>
  (let* idtr := read_idtr in vmwrite f_host_idtr_base (dt_base idtr)) >>
  (let* s := read CS in vmwrite f_host_cs s) >>
  (let* s := read DS in vmwrite f_host_ds s) >>
  (let* s := read ES in vmwrite f_host_es s) >>
  (let* s := read FS in vmwrite f_host_fs s) >>
  (let* s := read GS in vmwrite f_host_gs s) >>
  (let* s := read SS in vmwrite f_host_ss s) >>
  (let* s := read TR in vmwrite f_host_tr s) >>
  (let* c := read CR0 in vmwrite f_host_cr0 c) >>
  (let* c := read CR3 in vmwrite f_host_cr3 c) >>
  (let* c := read CR4 in vmwrite f_host_cr4 c) >>
  (let* top := get (fun w => stack_end (self w)) in vmwrite f_host_rsp top) >>
  vmwrite f_host_rip (va_entry_host_ P).

Definition setup_guest : M unit :=
  vmwrite f_vcpu_id 1 >>
  vmwrite f_vmcs_link_pointer (2 ^ 64 - 1) >>
  vmwrite f_pin_based_controls 0 >>
  vmwrite f_processor_based_controls
    (Z.setbit (Z.setbit 0 procbased_activate_secondary_controls_bit)
              procbased_use_msr_bitmaps_bit) >>
  vmwrite f_processor_based_controls2
    (Z.setbit (Z.setbit (Z.setbit (Z.setbit 0 procbased2_enable_vpid_bit)
                                  procbased2_enable_rdtscp_bit)
                        procbased2_enable_xsaves_bit)
              procbased2_enable_invpcid_bit) >>
  vmwrite f_vm_entry_controls (Z.setbit 0 entry_ia32e_mode_guest_bit) >>
  vmwrite f_vm_exit_controls (Z.setbit 0 exit_ia32e_mode_host_bit) >>
  modify_self (fun v => set_msr_bitmap_ v 0) >>
  (let* this := get (fun w => this_va (self w)) in
   vmwrite f_msr_bitmap (pa_from_va P (this + offsetof_msr_bitmap_ P))) >>
  (let* top := get (fun w => stack_end (self w)) in vmwrite f_guest_rsp top) >>
  vmwrite f_guest_rip (va_entry_guest_ P).

(** A virtual call on [handler_] with this virtual CPU as argument. *)
Definition call_handler (f : vmexit_handler -> M unit) : M unit :=
  fun w => f (handler_at P (handler_ (self w))) w.

Definition setup : M unit :=
  load_vmxon >>
  load_vmcs >>
  setup_host >>
  setup_guest >>
  call_handler h_setup >>
  vmx_vmlaunch >>
  error.

(** [entry_guest()] *)
Definition entry_guest : M unit :=
  modify_self (fun v =>
    set_guest_context_ v
      (ctx_set_rax (guest_context_ v) (vcpu_state_to_Z launching))).

(** [launch()] from the point where [guest_context_.capture()] has
    returned [captured]. *)
Definition launch_from (captured : Z) : M unit :=
  match vcpu_state_of_Z captured with
  | Some off => setup
  | Some launching => assign_state running
  | _ => hvpp_assert false
  end.

(** [launch()].  The call of [capture()] returns 0.  When VMLAUNCH
    succeeds the guest starts at [entry_guest_] (vcpu.asm), which calls
    [entry_guest()] and restores [guest_context_]: execution continues in
    [launch()] as if [capture()] had returned the saved [rax]. *)
Definition launch : M unit :=
  fun w =>
    match launch_from 0 w with
    | Guest w1 =>
        match entry_guest w1 with
        | Ret _ w2 => launch_from (rax (guest_context_ (self w2))) w2
        | o => o
        end
    | o => o
    end.

(** *** The exit dispatch *)

Definition entry_host : M unit :=
  modify_self (fun v => set_suppress_rip_adjust_ v false) >>
  ia32_asm_fx_save >>
  allocator_guard_enter >>
  let* captured_rsp := get (fun w => rsp (exit_context_ (self w))) in
  let* captured_rflags := get (fun w => rflags (exit_context_ (self w))) in
  (let* x := guest_rsp in set_exit_rsp x) >>
  (let* x := guest_rip in set_exit_rip x) >>
  (let* x := guest_rflags in set_exit_rflags x) >>
  (let* len := exit_instruction_length in
   modify_self (fun v =>
     set_stack_ v {| mf_rip := wrap64 (rip (exit_context_ v) + len);
                     mf_rsp := mf_rsp (stack_ v) |})) >>
  modify_self (fun v =>
    set_stack_ v {| mf_rip := mf_rip (stack_ v);
                    mf_rsp := rsp (exit_context_ v) |}) >>
  call_handler h_handle >>
  let* st := get (fun w => state_ (self w)) in
  if vcpu_state_eqb st terminated then
    allocator_guard_leave >>
    ia32_asm_fx_restore
  else
    (let* suppress := get (fun w => suppress_rip_adjust_ (self w)) in
     if suppress then ret tt else advance_exit_rip) >>
    (let* x := get (fun w => rsp (exit_context_ (self w))) in
     vmwrite f_guest_rsp x) >>
    (let* x := get (fun w => rip (exit_context_ (self w))) in
     vmwrite f_guest_rip x) >>
    (let* x := get (fun w => rflags (exit_context_ (self w))) in
     vmwrite f_guest_rflags x) >>
    set_exit_rflags captured_rflags >>
    set_exit_rsp captured_rsp >>
    set_exit_rip (va_vmresume P) >>
    allocator_guard_leave >>
    ia32_asm_fx_restore.

(** *** The destructor *)

Definition vcpu_t_dtor : M unit :=
  assign_state terminating >>
  call_handler h_invoke_termination >>
  ept_disable.

End Vcpu.

(** ** The pending-interrupt queue *)

(** Modelled from the spec: [interrupt_inject] is declared in [vcpu.h]
    and defined in [vcpu.inl], which is absent.  The queue is the array
    [pending_interrupt_] of 16 descriptors with the head index
    [pending_interrupt_first_] and the count [pending_interrupt_count_]
    that [vcpu.h] declares.  The call fails (returns false) if the queue
    is full; otherwise it enqueues at the tail, or at the head if [first]
    is true, and never overwrites an existing entry. *)
Definition interrupt_inject (interrupt : interrupt_t) (first : bool)
    (v : vcpu_t) : bool * vcpu_t :=
  if bool_decide (pending_interrupt_queue_size <= pending_interrupt_count_ v)%nat
  then (false, v)
  else if first then
    let head := ((pending_interrupt_first_ v + pending_interrupt_queue_size - 1)
                   mod pending_interrupt_queue_size)%nat in
    let v1 := set_pending_interrupt_ v (<[head := interrupt]> (pending_interrupt_ v)) in
    let v2 := set_pending_interrupt_first_ v1 head in
    (true, set_pending_interrupt_count_ v2 (S (pending_interrupt_count_ v)))
  else
    let index := ((pending_interrupt_first_ v + pending_interrupt_count_ v)
                    mod pending_interrupt_queue_size)%nat in
    let v1 := set_pending_interrupt_ v (<[index := interrupt]> (pending_interrupt_ v)) in
    (true, set_pending_interrupt_count_ v1 (S (pending_interrupt_count_ v))).

(** Modelled from the spec: the dequeue step of [interrupt_inject_pending]
    (also in [vcpu.inl]): when the queue is non-empty the head descriptor
    is taken out. *)
Definition interrupt_dequeue (v : vcpu_t) : option (interrupt_t * vcpu_t) :=
  match pending_interrupt_count_ v with
  | O => None
  | S n =>
      match pending_interrupt_ v !! pending_interrupt_first_ v with
      | None => None
      | Some x =>
          let v1 := set_pending_interrupt_first_ v
                      ((pending_interrupt_first_ v + 1)
                         mod pending_interrupt_queue_size)%nat in
          Some (x, set_pending_interrupt_count_ v1 n)
      end
  end.

(** The queued descriptors in the order in which they will be dequeued. *)
Definition queue_slot (v : vcpu_t) (k : nat) : interrupt_t :=
  nth ((pending_interrupt_first_ v + k) mod pending_interrupt_queue_size)%nat
      (pending_interrupt_ v) interrupt_default.

Definition queue_contents (v : vcpu_t) : list interrupt_t :=
  map (queue_slot v) (seq 0 (pending_interrupt_count_ v)).

Definition queue_wf (v : vcpu_t) : Prop :=
  length (pending_interrupt_ v) = pending_interrupt_queue_size /\
  (pending_interrupt_first_ v < pending_interrupt_queue_size)%nat /\
  (pending_interrupt_count_ v <= pending_interrupt_queue_size)%nat.

(** Enqueue a list at the tail, one call after the other; [None] as soon
    as a call returns false. *)
Fixpoint inject_all (xs : list interrupt_t) (v : vcpu_t) : option vcpu_t :=
  match xs with
  | [] => Some v
  | x :: xs' =>
      match interrupt_inject x false v with
      | (true, v') => inject_all xs' v'
      | (false, _) => None
      end
  end.

(** Dequeue until the queue is empty; [fuel] bounds the number of steps. *)
Fixpoint drain (fuel : nat) (v : vcpu_t) : list interrupt_t * vcpu_t :=
  match fuel with
  | O => ([], v)
  | S fuel' =>
      match interrupt_dequeue v with
      | None => ([], v)
      | Some (x, v') => let (xs, v'') := drain fuel' v' in (x :: xs, v'')
      end
  end.

(** Queue operations a handler can issue, for runs of arbitrary length. *)
Inductive queue_op :=
| op_inject (interrupt : interrupt_t) (first : bool)
| op_dequeue.

Definition queue_step (o : queue_op) (v : vcpu_t) : vcpu_t :=
  match o with
  | op_inject x first => snd (interrupt_inject x first v)
  | op_dequeue =>
      match interrupt_dequeue v with
      | Some (_, v') => v'
      | None => v
      end
  end.

Definition queue_run (ops : list queue_op) (v : vcpu_t) : vcpu_t :=
  foldl (fun acc o => queue_step o acc) v ops.

(** ** The orchestrator (hypervisor.cpp) *)

(** The [std::errc] values the code returns; [errc_success] is
    [error_code_t{}]. *)
Inductive errc :=
| errc_success
| operation_not_permitted
| not_enough_memory
| not_supported
| invalid_argument
| bad_address.

#[global] Instance errc_eq_dec : EqDecision errc.
Proof. solve_decision. Defined.

(** [detail::check_cpu_features()] on the processor that executes it. *)
Definition check_cpu_features (P : platform) (c : cpu_t) : bool :=
  if negb (virtual_machine_extensions (caps c)) then false
  else if Z.testbit (regs c CR4) cr4_vmx_enable_bit then false
  else if (page_size P <? vmcs_size_in_bytes (vmx_basic (caps c)))
          || negb (memory_type (vmx_basic (caps c)) =? memory_type_write_back_value)
          || negb (true_controls (vmx_basic (caps c)))
  then false
  else if negb (page_walk_length_4 (vmx_ept_vpid_cap (caps c)))
          || negb (memory_type_write_back (vmx_ept_vpid_cap (caps c)))
          || negb (invept (vmx_ept_vpid_cap (caps c)))
          || negb (invept_all_contexts (vmx_ept_vpid_cap (caps c)))
          || negb (execute_only_pages (vmx_ept_vpid_cap (caps c)))
          || negb (pde_2mb_pages (vmx_ept_vpid_cap (caps c)))
  then false
  else true.

(** [global_t]: [vcpu_list] is null or points to the array. *)
Record global_t := {
  vcpu_list : option (list vcpu_t);
  started : bool
}.

(** The orchestrator's state and the logical processors of the machine;
    [mp::cpu_count()] is the number of processors. *)
Record system := {
  global : global_t;
  cpus : list cpu_t
}.

Definition set_global (s : system) (g : global_t) : system :=
  {| global := g; cpus := cpus s |}.

Inductive sys_outcome (A : Type) :=
| SRet (a : A) (s : system)
| SFault (s : system)
| SUndef (s : system).

Arguments SRet {A} a s.
Arguments SFault {A} s.
Arguments SUndef {A} s.

Definition system_of {A} (o : sys_outcome A) : system :=
  match o with
  | SRet _ s | SFault s | SUndef s => s
  end.

(** What [operator new[]] hands back: the address of the storage and what
    the raw storage holds where the constructor leaves members alone. *)
Record allocation := {
  alloc_base : Z;
  alloc_raw_fx : nat -> Z;
  alloc_raw_msr_bitmap : nat -> Z
}.

Section Hypervisor.

Variable P : platform.

(** Run [f] for the virtual CPU [vcpu_list[idx]] on processor [onto] and
    store both back. *)
Definition run_vcpu_on (idx onto : nat) (f : M unit) (s : system)
    : sys_outcome unit :=
  match vcpu_list (global s) with
  | None => SUndef s
  | Some l =>
      match l !! idx, cpus s !! onto with
      | Some v, Some c =>
          let back w :=
            {| global := {| vcpu_list := Some (<[idx := self w]> l);
                            started := started (global s) |};
               cpus := <[onto := cpu w]> (cpus s) |} in
          match f {| self := v; cpu := c |} with
          | Ret _ w => SRet tt (back w)
          | Fault w => SFault (back w)
          | Undef w => SUndef (back w)
          | Guest w => SUndef (back w)
          end
      | _, _ => SUndef s
      end
  end.

(** Modelled from the spec: [lib/mp.h] is absent.  [mp::ipi_call(f)] is
    a synchronous broadcast: [f] runs on every logical processor and the
    call returns once all have completed.  The closure of the source
    looks up [global.vcpu_list[mp::cpu_index()]] itself. *)
Fixpoint ipi_call_from (f : M unit) (idx n : nat) (s : system)
    : sys_outcome unit :=
  match n with
  | O => SRet tt s
  | S n' =>
      match run_vcpu_on idx idx f s with
      | SRet _ s' => ipi_call_from f (S idx) n' s'
      | o => o
      end
  end.

Definition ipi_call (f : M unit) (s : system) : sys_outcome unit :=
  ipi_call_from f 0 (length (cpus s)) s.

(** The two closures, with their [mm::allocator_guard]. *)
Definition launch_closure : M unit :=
  allocator_guard_enter >> launch P >> allocator_guard_leave.

Definition terminate_closure : M unit :=
  allocator_guard_enter >> terminate P >> allocator_guard_leave.

(** Placement-construction of [vcpu_t(handler)] in each element. *)
Definition construct_vcpus (a : allocation) (handler : Z) (count : nat)
    : list vcpu_t :=
  map (fun i =>
         vcpu_t_ctor (alloc_base a + Z.of_nat i * sizeof_vcpu_t P) handler
                     (alloc_raw_fx a i) (alloc_raw_msr_bitmap a i))
      (seq 0 count).

(** An assertion of the orchestrator. *)
Definition assert_passes (b : bool) : bool :=
  b || negb (assertions_fatal P).

(** [start(handler)], called on processor [cur]; [alloc] is the answer of
    [operator new[]], [None] for a null pointer. *)
Definition start (handler : Z) (cur : nat) (alloc : option allocation)
    (s : system) : sys_outcome errc :=
  if negb (assert_passes (negb (started (global s)))) then SFault s
  else if started (global s) then SRet operation_not_permitted s
  else if negb (assert_passes (bool_decide (vcpu_list (global s) = None)))
  then SFault s
  else
    match alloc with
    | None =>
        SRet not_enough_memory
             (set_global s {| vcpu_list := None; started := started (global s) |})
    | Some a =>
        let s1 := set_global s
                    {| vcpu_list :=
                         Some (construct_vcpus a handler (length (cpus s)));
                       started := started (global s) |} in
        match cpus s1 !! cur with
        | None => SUndef s1
        | Some c =>
            if negb (check_cpu_features P c) then SRet not_supported s1
            else
              match ipi_call launch_closure s1 with
              | SRet _ s2 =>
                  SRet errc_success
                       (set_global s2 {| vcpu_list := vcpu_list (global s2);
                                         started := true |})
              | SFault s2 => SFault s2
              | SUndef s2 => SUndef s2
              end
        end
    end.

(** [delete[] global.vcpu_list].  The storage comes from a plain call of
    [operator new[]] and the elements from placement new, so no
    new-expression has made an array of which the delete-expression
    could know the element count: on a non-null pointer its behaviour is
    undefined.  On a null pointer it does nothing. *)
Definition delete_vcpu_list (s : system) : sys_outcome unit :=
  match vcpu_list (global s) with
  | None => SRet tt s
  | Some _ => SUndef s
  end.

(** [stop()], called on processor [cur]. *)
Definition stop (cur : nat) (s : system) : sys_outcome unit :=
  if negb (assert_passes (started (global s))) then SFault s
  else if negb (started (global s)) then SRet tt s
  else
    match ipi_call terminate_closure s with
    | SRet _ s1 =>
        match delete_vcpu_list s1 with
        | SRet _ s2 =>
            let s3 := set_global s2 {| vcpu_list := None;
                                       started := started (global s2) |} in
            SRet tt (set_global s3 {| vcpu_list := vcpu_list (global s3);
                                      started := false |})
        | o => o
        end
    | o => o
    end.

Definition is_started (s : system) : bool := started (global s).

(** Calls on the orchestrator, for runs of arbitrary length. *)
Inductive hv_call :=
| call_start (handler : Z) (cur : nat) (alloc : option allocation)
| call_stop (cur : nat).

(** The value a call hands back when it returns. *)
Inductive hv_result :=
| start_returned (e : errc)
| stop_returned
| did_not_return.

Definition hv_step (c : hv_call) (s : system) : hv_result * system :=
  match c with
  | call_start handler cur alloc =>
      match start handler cur alloc s with
      | SRet e s' => (start_returned e, s')
      | o => (did_not_return, system_of o)
      end
  | call_stop cur =>
      match stop cur s with
      | SRet _ s' => (stop_returned, s')
      | o => (did_not_return, system_of o)
      end
  end.

End Hypervisor.

(** ** The device front end (lib/win32/device.cpp) *)

Definition MAX_BUFFER_SIZE : nat := 64.

(** [DEVICE_IMPL]: the device object pointer (0 is null) and the link
    name held in [DeviceLinkBuffer]. *)
Record DEVICE_IMPL := {
  DeviceObject : Z;
  DeviceLink : string
}.

(** [class device]: the name [name()] returns and the private [impl_]. *)
Record device := {
  name : string;
  impl_ : option DEVICE_IMPL
}.

(** What the kernel holds on behalf of the driver: live pool blocks,
    device objects with their names, symbolic links. *)
Record kernel := {
  pool : list Z;
  device_objects : list (Z * string);
  symbolic_links : list (string * string)
}.

(** How the kernel answers the calls of one [create()]:
    [ExAllocatePoolWithTag] (the block's address and the raw content of
    its [DeviceObject] member, or null), [IoCreateDevice] (the new device
    object, or a failure status) and [IoCreateSymbolicLink]. *)
Record kernel_answers := {
  answer_alloc : option (Z * Z);
  answer_create_device : option Z;
  answer_create_link : bool
}.

Inductive create_outcome :=
| Created (e : errc) (k : kernel) (d : device)
| Crashed (k : kernel) (d : device).

(** [RtlAppendUnicodeToString] / [RtlAppendUnicodeStringToString] into
    a buffer of [capacity] characters: nothing is appended when the
    result would not fit. *)
Definition rtl_append (capacity : nat) (dst src : string) : string :=
  if (String.length dst + String.length src <=? capacity)%nat
  then (dst ++ src)%string else dst.

(** [RtlAnsiStringToUnicodeString] into [UnicodeNameBuffer]: the
    converted string and its terminator must fit. *)
Definition rtl_ansi_to_unicode (capacity : nat) (src : string) : string :=
  if (String.length src + 1 <=? capacity)%nat then src else EmptyString.

(** [sizeof(L"\\Device\\")] and [sizeof(L"\\DosDevices\\")] in bytes:
    8 and 12 wide characters and the terminator. *)
Definition sizeof_device_prefix : nat := 18.
Definition sizeof_dosdevices_prefix : nat := 26.

Definition remove_block (p : Z) (l : list Z) : list Z :=
  filter (fun q => q <> p) l.

Definition remove_device (p : Z) (l : list (Z * string)) : list (Z * string) :=
  filter (fun e => fst e <> p) l.

Definition kernel_alloc (p : Z) (k : kernel) : kernel :=
  {| pool := p :: pool k; device_objects := device_objects k;
     symbolic_links := symbolic_links k |}.

Definition kernel_free (p : Z) (k : kernel) : kernel :=
  {| pool := remove_block p (pool k); device_objects := device_objects k;
     symbolic_links := symbolic_links k |}.

Definition kernel_add_device (p : Z) (n : string) (k : kernel) : kernel :=
  {| pool := pool k; device_objects := (p, n) :: device_objects k;
     symbolic_links := symbolic_links k |}.

Definition kernel_delete_device (p : Z) (k : kernel) : kernel :=
  {| pool := pool k; device_objects := remove_device p (device_objects k);
     symbolic_links := symbolic_links k |}.

Definition kernel_add_link (link target : string) (k : kernel) : kernel :=
  {| pool := pool k; device_objects := device_objects k;
     symbolic_links := (link, target) :: symbolic_links k |}.

(** The [Error:] label of [create()] for a non-null [DeviceImpl] at
    [block] whose [DeviceObject] member holds [obj]. *)
Definition create_error_path (e : errc) (block obj : Z) (k : kernel)
    (d : device) : create_outcome :=
  let k1 := if bool_decide (obj = 0) then k else kernel_delete_device obj k in
  Created e (kernel_free block k1) d.

(** [device::create()] *)
Definition create (a : kernel_answers) (k : kernel) (d : device)
    : create_outcome :=
  let name_length := String.length (name d) in
  if (MAX_BUFFER_SIZE <=? name_length)%nat then Created invalid_argument k d
  else
    match answer_alloc a with
    | None =>
        (* [goto Error] reads [DeviceImpl->DeviceObject] through null *)
        Crashed k d
    | Some (block, raw_object) =>
        let k1 := kernel_alloc block k in
        let UnicodeName := rtl_ansi_to_unicode MAX_BUFFER_SIZE (name d) in
        let DeviceName :=
          rtl_append (MAX_BUFFER_SIZE + sizeof_device_prefix)
            (rtl_append (MAX_BUFFER_SIZE + sizeof_device_prefix)
                        EmptyString "\Device\")
            UnicodeName in
        let Link :=
          rtl_append (MAX_BUFFER_SIZE + sizeof_dosdevices_prefix - 1)
            (rtl_append (MAX_BUFFER_SIZE + sizeof_dosdevices_prefix - 1)
                        EmptyString "\DosDevices\")
            UnicodeName in
        match answer_create_device a with
        | None => create_error_path not_enough_memory block raw_object k1 d
        | Some obj =>
            let k2 := kernel_add_device obj DeviceName k1 in
            if answer_create_link a then
              Created errc_success (kernel_add_link Link DeviceName k2)
                {| name := name d;
                   impl_ := Some {| DeviceObject := obj; DeviceLink := Link |} |}
            else create_error_path not_enough_memory block obj k2 d
        end
    end.

(** ** A concrete machine, used to run the definitions *)

Definition all_caps (vmxon_ok vmclear_ok vmptrld_ok vmlaunch_ok : bool)
    : cpu_caps :=
  {| virtual_machine_extensions := true;
     vmx_basic := {| vmcs_revision_id := 4; vmcs_size_in_bytes := 1024;
                     memory_type := 6; true_controls := true |};
     vmx_ept_vpid_cap :=
       {| page_walk_length_4 := true; memory_type_write_back := true;
          invept := true; invept_all_contexts := true;
          execute_only_pages := true; pde_2mb_pages := true |};
     vmxon_succeeds := vmxon_ok;
     vmclear_succeeds := vmclear_ok;
     vmptrld_succeeds := vmptrld_ok;
     vmlaunch_succeeds := vmlaunch_ok |}.

(** A processor whose current VMCS reports an exit instruction of 3
    bytes at guest RIP 0x1000. *)
Definition sample_vmcs (f : vmcs_field) : Z :=
  match f with
  | f_exit_instruction_length => 3
  | f_guest_rip => 0x1000
  | f_guest_rsp => 0x7000
  | f_guest_rflags => 0x202
  | f_guest_cr3 => 0x1aa000
  | f_guest_gdtr_base => 0x5000
  | f_guest_gdtr_limit => 0x7f
  | f_guest_idtr_base => 0x6000
  | f_guest_idtr_limit => 0xfff
  | _ => 0
  end.

Definition sample_regs (r : reg) : Z :=
  match r with
  | CR4 => 0x20
  | GDTR_LIMIT | IDTR_LIMIT => 0xffff
  | FX => 0x1234
  | _ => 0
  end.

Definition sample_cpu (c : cpu_caps) : cpu_t :=
  {| regs := sample_regs; vmcs := sample_vmcs; caps := c; trace := [] |}.

Definition good_cpu : cpu_t := sample_cpu (all_caps true true true true).

(** A processor on which the capability check fails: no VMX support. *)
Definition no_vmx_cpu : cpu_t :=
  {| regs := fun _ => 0; vmcs := fun _ => 0;
     caps :=
       {| virtual_machine_extensions := false;
          vmx_basic := vmx_basic (all_caps true true true true);
          vmx_ept_vpid_cap := vmx_ept_vpid_cap (all_caps true true true true);
          vmxon_succeeds := true; vmclear_succeeds := true;
          vmptrld_succeeds := true; vmlaunch_succeeds := true |};
     trace := [] |}.

Definition sample_platform (fatal : bool) (h : Z -> vmexit_handler)
    : platform :=
  {| assertions_fatal := fatal;
     page_size := 4096;
     vmx_adjust_cr0 := fun v => v;
     vmx_adjust_cr4 := fun v => Z.setbit v cr4_vmx_enable_bit;
     pa_from_va := fun v => v;
     va_entry_host_ := 0x401000;
     va_entry_guest_ := 0x402000;
     va_vmresume := 0x403000;
     offsetof_vmxon_ := 0x9000;
     offsetof_vmcs_ := 0xa000;
     offsetof_msr_bitmap_ := 0xb000;
     sizeof_vcpu_t := 0x10000;
     new_ept_pointer := fun i => 0x100000 + Z.of_nat i * 0x1000;
     handler_at := h |}.

(** A handler that does nothing in its three callbacks. *)
Definition idle_handler : vmexit_handler :=
  {| h_setup := ret tt; h_handle := ret tt; h_invoke_termination := ret tt |}.

(** A handler that follows the contract of the destructor: its
    termination notice raises an exit, and its exit callback calls
    [terminate()]. *)
Definition vmcall_handler (fatal : bool) : vmexit_handler :=
  let P0 := sample_platform fatal (fun _ => idle_handler) in
  let on_exit :=
    {| h_setup := ret tt; h_handle := terminate P0;
       h_invoke_termination := ret tt |} in
  {| h_setup := ret tt;
     h_handle := terminate P0;
     h_invoke_termination :=
       entry_host (sample_platform fatal (fun _ => on_exit)) |}.

(** A handler whose exit callback asks to keep the instruction pointer. *)
Definition suppressing_handler : vmexit_handler :=
  {| h_setup := ret tt; h_handle := suppress_rip_adjust;
     h_invoke_termination := ret tt |}.

(** Builds whose handler does nothing, and whose handler suppresses the
    advance of the instruction pointer. *)
Definition idle_platform : platform :=
  sample_platform true (fun _ => idle_handler).

Definition suppressing_platform : platform :=
  sample_platform true (fun _ => suppressing_handler).

Definition debug_platform : platform :=
  sample_platform true (fun _ => vmcall_handler true).

Definition release_platform : platform :=
  sample_platform false (fun _ => vmcall_handler false).

Definition fresh_vcpu : vcpu_t := vcpu_t_ctor 0x800000 0 0 0.

Definition fresh_world (c : cpu_t) : world := {| self := fresh_vcpu; cpu := c |}.

(** The values [state_] has held: the initial one and every assignment. *)
Definition assigned_states (t : list event) : list vcpu_state :=
  omap (fun e => match e with ev_state s => Some s | _ => None end) t.

(** A virtual CPU with two translation contexts enabled. *)
Definition enabled_world : world :=
  world_of (ept_enable debug_platform 2 true (fresh_world good_cpu)).

(** The same after [ept_disable()]. *)
Definition disabled_world : world := world_of (ept_disable enabled_world).

(** A running virtual CPU: the fresh one after [launch()]. *)
Definition running_world : world :=
  world_of (launch debug_platform (fresh_world good_cpu)).

(** A device whose name has 64 characters. *)
Definition long_name : string :=
  "0123456789abcdef0123456789abcdef0123456789abcdef0123456789abcdef".

Definition long_named_device : device := {| name := long_name; impl_ := None |}.

Definition empty_kernel : kernel :=
  {| pool := []; device_objects := []; symbolic_links := [] |}.

Definition willing_kernel : kernel_answers :=
  {| answer_alloc := Some (0x9000, 0); answer_create_device := Some 0xa000;
     answer_create_link := true |}.

(** The world in which [entry_host()] calls [handler_.handle]: the flag
    reset, the FX state saved, the guard entered, the exit context and
    the machine frame filled from the guest state. *)
Definition entry_host_at_handler (w : world) : world :=
  let v := self w in
  let c := cpu w in
  let ctx := {| rax := rax (exit_context_ v);
                rsp := vmcs c f_guest_rsp;
                rip := vmcs c f_guest_rip;
                rflags := vmcs c f_guest_rflags |} in
  let v1 := set_suppress_rip_adjust_ v false in
  let v2 := set_fxsave_area_ v1 (regs c FX) in
  let v3 := set_exit_context_ v2 ctx in
  let v4 := set_stack_ v3
              {| mf_rip := wrap64 (vmcs c f_guest_rip
                                   + vmcs c f_exit_instruction_length);
                 mf_rsp := vmcs c f_guest_rsp |} in
  {| self := v4;
     cpu := cpu_log (cpu_log c ev_fx_save) ev_allocator_guard_enter |}.

(** The instruction pointer [entry_host()] writes back when the handler
    has left the world [wh] and the state is not [terminated]. *)
Definition resume_rip (wh : world) : Z :=
  if suppress_rip_adjust_ (self wh)
  then rip (exit_context_ (self wh))
  else wrap64 (rip (exit_context_ (self wh))
               + vmcs (cpu wh) f_exit_instruction_length).

(** The part of [setup()] that precedes the handler's callback. *)
Definition setup_before_handler (P : platform) : M unit :=
  load_vmxon P >> load_vmcs P >> setup_host P >> setup_guest P.

(** A running virtual CPU after a handler that calls [terminate()] has
    been given the exit. *)
Definition handled_world : world :=
  world_of (h_handle (handler_at debug_platform (handler_ (self running_world)))
                     (entry_host_at_handler running_world)).

(** A stopped orchestrator on a machine of four processors like [c]. *)
Definition idle_system (c : cpu_t) : system :=
  {| global := {| vcpu_list := None; started := false |};
     cpus := replicate 4 c |}.

Definition sample_allocation : allocation :=
  {| alloc_base := 0x800000;
     alloc_raw_fx := fun _ => 0;
     alloc_raw_msr_bitmap := fun _ => 0 |}.

(** The same machine after a successful [start()]. *)
Definition started_system (P : platform) : system :=
  system_of (start P 0 0 (Some sample_allocation) (idle_system good_cpu)).

(** A sequence of calls on the orchestrator, one after the other. *)
Definition hv_run (P : platform) (calls : list hv_call) (s : system) : system :=
  foldl (fun acc c => snd (hv_step P c acc)) s calls.

(** The chain of the lifecycle, one step at a time. *)
Definition next_state (a b : vcpu_state) : bool :=
  match a, b with
  | off, initializing
  | initializing, launching
  | launching, running
  | running, terminating
  | terminating, terminated => true
  | _, _ => false
  end.

(** Every value of a history is the successor of the one before it. *)
Fixpoint follows_chain (l : list vcpu_state) : bool :=
  match l with
  | a :: tl =>
      match tl with
      | b :: _ => next_state a b && follows_chain tl
      | [] => true
      end
  | [] => true
  end.

(** The events [new] assign every state but [launching]. *)
Definition never_launching (new : list event) : Prop :=
  Forall (fun e => e <> ev_state launching) new.

(** A call keeps [launching] out of the state: what it appends to the
    trace never assigns it, and a state field that does not hold it
    before the call does not hold it after. *)
Definition avoids_launching {A} (m : M A) : Prop :=
  forall w,
    (exists new,
       trace (cpu (world_of (m w))) = trace (cpu w) ++ new /\
       never_launching new) /\
    (state_ (self w) <> launching ->
     state_ (self (world_of (m w))) <> launching).

Definition handler_avoids_launching (h : vmexit_handler) : Prop :=
  avoids_launching (h_setup h) /\ avoids_launching (h_handle h) /\
  avoids_launching (h_invoke_termination h).

(** The call returned. *)
Definition returned {A} (o : outcome A) : bool :=
  match o with
  | Ret _ _ => true
  | _ => false
  end.

(** [start()] returned success. *)
Definition start_succeeded (o : sys_outcome errc) : bool :=
  match o with
  | SRet e _ => bool_decide (e = errc_success)
  | _ => false
  end.

(** The world in which the destructor calls
    [handler_.invoke_termination]: the state set to [terminating]. *)
Definition vcpu_t_dtor_at_handler (w : world) : world :=
  {| self := set_state_ (self w) terminating;
     cpu := cpu_log (cpu w) (ev_state terminating) |}.

(** The build in which the exit raised by the termination notice of
    [vmcall_handler] is dispatched: its exit callback calls
    [terminate()]. *)
Definition vmcall_exit_platform (fatal : bool) : platform :=
  sample_platform fatal
    (fun _ =>
       {| h_setup := ret tt;
          h_handle := terminate (sample_platform fatal (fun _ => idle_handler));
          h_invoke_termination := ret tt |}).

(** ** Assumptions on the callbacks, and further machines *)

(** The setup callback of the handler [id] returns, and touches neither
    the answers of the processor nor the lifecycle state, which is a
    private member of the virtual CPU. *)
Definition setup_callback_returns (P : platform) (id : Z) : Prop :=
  forall w, exists w',
    h_setup (handler_at P id) w = Ret tt w' /\
    caps (cpu w') = caps (cpu w) /\
    state_ (self w') = state_ (self w).

(** VMXON, VMCLEAR and VMPTRLD succeed on the processor. *)
Definition vmx_entry_succeeds (c : cpu_t) : bool :=
  vmxon_succeeds (caps c) && vmclear_succeeds (caps c)
  && vmptrld_succeeds (caps c).

(** Processors on which one of the VMX instructions of the bring-up
    fails. *)
Definition vmxon_failing_cpu : cpu_t := sample_cpu (all_caps false true true true).
Definition vmclear_failing_cpu : cpu_t := sample_cpu (all_caps true false true true).
Definition vmptrld_failing_cpu : cpu_t := sample_cpu (all_caps true true false true).
Definition vmlaunch_failing_cpu : cpu_t := sample_cpu (all_caps true true true false).

(** What [terminate()] appends to the trace of a processor in the state
    [c]. *)
Definition terminate_events (c : cpu_t) : list event :=
  [ev_write GDTR_BASE (vmcs c f_guest_gdtr_base);
   ev_write GDTR_LIMIT (vmcs c f_guest_gdtr_limit);
   ev_write IDTR_BASE (vmcs c f_guest_idtr_base);
   ev_write IDTR_LIMIT (vmcs c f_guest_idtr_limit);
   ev_write CR3 (vmcs c f_guest_cr3);
   ev_invvpid_all_contexts;
   ev_invept_all_contexts;
   ev_vmxoff;
   ev_write CR4 (Z.clearbit (regs c CR4) cr4_vmx_enable_bit);
   ev_state terminated].

(** What [error()] appends: the report, the breakpoint, and what
    [terminate()] appends. *)
Definition error_events (c : cpu_t) : list event :=
  ev_hvpp_error (vmcs c f_exit_instruction_error) :: ev_int3
  :: terminate_events c.

(** A device with a short name, and kernels that refuse the symbolic
    link, or have no pool left. *)
Definition short_named_device : device := {| name := "hvpp"; impl_ := None |}.

Definition link_refusing_kernel : kernel_answers :=
  {| answer_alloc := Some (0x9000, 0); answer_create_device := Some 0xa000;
     answer_create_link := false |}.

Definition exhausted_kernel : kernel_answers :=
  {| answer_alloc := None; answer_create_device := Some 0xa000;
     answer_create_link := true |}.

(** A stopped orchestrator on a machine of two processors, on the second
    of which VMLAUNCH fails. *)
Definition uneven_system : system :=
  {| global := {| vcpu_list := None; started := false |};
     cpus := [good_cpu; vmlaunch_failing_cpu] |}.

(** * Properties *)

(** ** Machine integers and stores *)

Lemma wrap64_range z : 0 <= wrap64 z < 2 ^ 64.
Proof. unfold wrap64. apply Z.mod_pos_bound. lia. Qed.

Lemma wrap64_small z : 0 <= z < 2 ^ 64 -> wrap64 z = z.
Proof. intros. unfold wrap64. apply Z.mod_small. assumption. Qed.

Lemma upd_same {K : Type} `{EqDecision K} (m : K -> Z) k v :
  upd m k v k = v.
Proof. unfold upd. destruct (decide (k = k)); congruence. Qed.

Lemma upd_other {K : Type} `{EqDecision K} (m : K -> Z) k k' v :
  k' <> k -> upd m k v k' = m k'.
Proof. unfold upd. intros. destruct (decide (k' = k)); congruence. Qed.

(** ** Evaluation of the transformers *)

Ltac run_step :=
  unfold bind, get, ret, modify_self, modify_cpu, log, undefined; simpl.

(** Symbolic execution without unfolding arithmetic or the stores.  The
    records are taken apart first so that every projection meets a
    constructor. *)
Ltac fields :=
  cbn [self cpu regs vmcs caps trace dt_base dt_limit
       virtual_machine_extensions vmx_basic vmx_ept_vpid_cap vmxon_succeeds
       vmclear_succeeds vmptrld_succeeds vmlaunch_succeeds
       this_va stack_ guest_context_ exit_context_ vmxon_ vmcs_ msr_bitmap_
       fxsave_area_ handler_ state_ ept_ ept_count_ ept_index_
       pending_interrupt_ pending_interrupt_first_ pending_interrupt_count_
       suppress_rip_adjust_ rax rsp rip rflags mf_rip mf_rsp
       set_stack_ set_guest_context_ set_exit_context_ set_vmxon_ set_vmcs_
       set_msr_bitmap_ set_fxsave_area_ set_state_ set_ept_ set_ept_count_
       set_ept_index_ set_pending_interrupt_ set_pending_interrupt_first_
       set_pending_interrupt_count_ set_suppress_rip_adjust_
       ctx_set_rax ctx_set_rsp ctx_set_rip ctx_set_rflags
       cpu_log cpu_set_regs cpu_set_vmcs] in *.

Ltac open_world w :=
  let v := fresh "v" in
  let c := fresh "c" in
  destruct w as [v c]; destruct v, c; fields.

Ltac exec :=
  lazy [bind get ret modify_self modify_cpu log undefined
        cpu_log cpu_set_regs cpu_set_vmcs
        self cpu regs vmcs caps trace dt_base dt_limit
        virtual_machine_extensions vmx_basic vmx_ept_vpid_cap vmxon_succeeds
        vmclear_succeeds vmptrld_succeeds vmlaunch_succeeds
        vmx_on vmx_vmclear vmx_vmptrld
        this_va stack_ guest_context_ exit_context_ vmxon_ vmcs_ msr_bitmap_
        fxsave_area_ handler_ state_ ept_ ept_count_ ept_index_
        pending_interrupt_ pending_interrupt_first_ pending_interrupt_count_
        suppress_rip_adjust_ rax rsp rip rflags mf_rip mf_rsp
        set_stack_ set_guest_context_ set_exit_context_ set_vmxon_ set_vmcs_
        set_msr_bitmap_ set_fxsave_area_ set_state_ set_ept_ set_ept_count_
        set_ept_index_ set_pending_interrupt_ set_pending_interrupt_first_
        set_pending_interrupt_count_ set_suppress_rip_adjust_
        ctx_set_rax ctx_set_rsp ctx_set_rip ctx_set_rflags stack_end
        read write vmread vmwrite read_gdtr read_idtr write_gdtr write_idtr
        exit_instruction_length exit_instruction_error guest_cr3 guest_rsp
        guest_rip guest_rflags guest_gdtr guest_idtr
        set_exit_rsp set_exit_rip set_exit_rflags advance_exit_rip
        vmx_off vmx_invvpid_all_contexts vmx_invept_all_contexts
        ia32_asm_fx_save ia32_asm_fx_restore ia32_asm_int3
        allocator_guard_enter allocator_guard_leave assign_state].

Ltac upd_simpl :=
  repeat first [rewrite upd_same | rewrite upd_other by discriminate].

Lemma bind_get {A B} (f : world -> A) (k : A -> M B) w :
  bind (get f) k w = k (f w) w.
Proof. reflexivity. Qed.

Lemma bind_Ret_inv {A B} (m : M A) (k : A -> M B) w b w' :
  bind m k w = Ret b w' ->
  exists a w1, m w = Ret a w1 /\ k a w1 = Ret b w'.
Proof.
  unfold bind. destruct (m w) as [a w1|w1|w1|w1]; try discriminate.
  intros H. exists a, w1. split; [reflexivity|exact H].
Qed.

Lemma bind_Ret {A B} (m : M A) (k : A -> M B) w a w1 :
  m w = Ret a w1 -> bind m k w = k a w1.
Proof. intros H. unfold bind. rewrite H. reflexivity. Qed.

Lemma returned_world_of (o : outcome unit) :
  returned o = true -> o = Ret tt (world_of o).
Proof. destruct o as [[] w|w|w|w]; try discriminate. reflexivity. Qed.

Lemma start_succeeded_system_of (o : sys_outcome errc) :
  start_succeeded o = true -> o = SRet errc_success (system_of o).
Proof.
  destruct o as [e s|s|s]; try discriminate. cbn.
  intros H. apply bool_decide_eq_true in H. subst e. reflexivity.
Qed.

Lemma hvpp_assert_true P w : hvpp_assert P true w = Ret tt w.
Proof. reflexivity. Qed.

Lemma hvpp_assert_false_fatal P w :
  assertions_fatal P = true -> hvpp_assert P false w = Fault w.
Proof. intros H. unfold hvpp_assert. rewrite H. reflexivity. Qed.

Lemma vcpu_state_eqb_neq a b : vcpu_state_eqb a b = false <-> a <> b.
Proof. unfold vcpu_state_eqb. apply bool_decide_eq_false. Qed.

(** ** ept_disable *)

Lemma ept_disable_not_enabled w :
  ept_ (self w) = None -> ept_disable w = Ret tt w.
Proof.
  intros H. unfold ept_disable. rewrite bind_get, H. reflexivity.
Qed.

Lemma ept_disable_returns w :
  exists w1, ept_disable w = Ret tt w1 /\ ept_ (self w1) = None.
Proof.
  unfold ept_disable. rewrite bind_get.
  destruct (ept_ (self w)) as [l|] eqn:E.
  - eexists. split; [reflexivity|]. reflexivity.
  - exists w. split; [reflexivity|assumption].
Qed.

Lemma ept_disable_releases w l :
  ept_ (self w) = Some l ->
  ept_disable w =
    Ret tt {| self := set_ept_ (self w) None;
              cpu := cpu_log (cpu w) ev_delete_ept |}.
Proof.
  intros H. unfold ept_disable. rewrite bind_get, H. reflexivity.
Qed.

(** C9: [ept_disable()] does nothing when no translation context is
    enabled.  When the array exists, the call releases it, once, and
    sets the pointer to null, and changes nothing else.  In both cases
    the call returns with the pointer null, so a second call right after
    the first takes the early return: it releases nothing and returns the
    world it was given, and two calls in a row do what one call does. *)
Theorem ept_disable_idempotent (w : world) :
  (ept_ (self w) = None -> ept_disable w = Ret tt w) /\
  (forall l,
     ept_ (self w) = Some l ->
     ept_disable w =
       Ret tt {| self := set_ept_ (self w) None;
                 cpu := cpu_log (cpu w) ev_delete_ept |}) /\
  (exists w1,
     ept_disable w = Ret tt w1 /\
     ept_ (self w1) = None /\
     trace (cpu w1) =
       trace (cpu w)
       ++ match ept_ (self w) with Some _ => [ev_delete_ept] | None => [] end /\
     ept_disable w1 = Ret tt w1 /\
     (ept_disable >> ept_disable) w = Ret tt w1).
Proof.
  split; [apply ept_disable_not_enabled|].
  split; [apply ept_disable_releases|].
  destruct (ept_ (self w)) as [l|] eqn:E.
  - pose proof (ept_disable_releases w l E) as Hrun.
    eexists. split; [exact Hrun|].
    assert (Hnull : ept_ (self {| self := set_ept_ (self w) None;
                                  cpu := cpu_log (cpu w) ev_delete_ept |}) = None)
      by reflexivity.
    split; [exact Hnull|]. split; [reflexivity|].
    pose proof (ept_disable_not_enabled _ Hnull) as Hagain.
    split; [exact Hagain|].
    rewrite (bind_Ret _ _ _ _ _ Hrun). exact Hagain.
  - pose proof (ept_disable_not_enabled w E) as Hrun.
    exists w. split; [exact Hrun|]. split; [exact E|].
    split; [rewrite app_nil_r; reflexivity|].
    split; [exact Hrun|].
    rewrite (bind_Ret _ _ _ _ _ Hrun). exact Hrun.
Qed.

Lemma ept_disable_idempotent_witness :
  exists w1,
    ept_disable enabled_world = Ret tt w1 /\
    ept_ (self w1) = None /\
    trace (cpu w1) = trace (cpu enabled_world) ++ [ev_delete_ept] /\
    ept_disable w1 = Ret tt w1.
Proof.
  destruct (ept_disable_idempotent enabled_world)
    as (_ & Hrel & w1 & Hrun & Hnull & _ & Hagain & _).
  exists w1. split; [exact Hrun|]. split; [exact Hnull|].
  split; [|exact Hagain].
  rewrite (Hrel (new_ept_array debug_platform 2)) in Hrun
    by (vm_compute; reflexivity).
  injection Hrun as <-. reflexivity.
Defined.

(** ** device::create *)

(** C10: a name of 64 characters or more makes [create()] return
    [invalid_argument] at once: whatever the kernel would have answered,
    no pool block is taken, no device object or link is created, and the
    device (with its [impl_]) is the one passed in. *)
Theorem create_rejects_long_name (a : kernel_answers) (k : kernel) (d : device) :
  (MAX_BUFFER_SIZE <= String.length (name d))%nat ->
  create a k d = Created invalid_argument k d.
Proof.
  intros Hlen. unfold create.
  destruct (MAX_BUFFER_SIZE <=? String.length (name d))%nat eqn:E.
  - reflexivity.
  - apply Nat.leb_gt in E. lia.
Qed.

Lemma create_rejects_long_name_witness :
  (MAX_BUFFER_SIZE <= String.length (name long_named_device))%nat /\
  create willing_kernel empty_kernel long_named_device
    = Created invalid_argument empty_kernel long_named_device.
Proof.
  assert (H : (MAX_BUFFER_SIZE <= String.length (name long_named_device))%nat)
    by (vm_compute; lia).
  split; [exact H|].
  exact (create_rejects_long_name willing_kernel empty_kernel long_named_device H).
Defined.

Example create_short_name :
  match create willing_kernel empty_kernel {| name := "hvpp"; impl_ := None |} with
  | Created e k d =>
      e = errc_success /\
      device_objects k = [(0xa000, "\Device\hvpp"%string)] /\
      symbolic_links k
        = [("\DosDevices\hvpp"%string, "\Device\hvpp"%string)] /\
      impl_ d = Some {| DeviceObject := 0xa000;
                        DeviceLink := "\DosDevices\hvpp" |}
  | Crashed _ _ => False
  end.
Proof. vm_compute. repeat split. Qed.

(** ** terminate *)

Lemma terminate_legal P w :
  state_ (self w) <> off -> state_ (self w) <> terminated ->
  terminate P w =
    Ret tt
      {| self :=
           set_state_
             (set_exit_context_ (self w)
                (ctx_set_rip (exit_context_ (self w))
                   (wrap64 (rip (exit_context_ (self w))
                            + vmcs (cpu w) f_exit_instruction_length))))
             terminated;
         cpu :=
           {| regs :=
                upd (upd (upd (upd (upd (upd (regs (cpu w))
                  GDTR_BASE (vmcs (cpu w) f_guest_gdtr_base))
                  GDTR_LIMIT (vmcs (cpu w) f_guest_gdtr_limit))
                  IDTR_BASE (vmcs (cpu w) f_guest_idtr_base))
                  IDTR_LIMIT (vmcs (cpu w) f_guest_idtr_limit))
                  CR3 (vmcs (cpu w) f_guest_cr3))
                  CR4 (Z.clearbit (regs (cpu w) CR4) cr4_vmx_enable_bit);
              vmcs := vmcs (cpu w);
              caps := caps (cpu w);
              trace :=
                trace (cpu w) ++
                [ev_write GDTR_BASE (vmcs (cpu w) f_guest_gdtr_base);
                 ev_write GDTR_LIMIT (vmcs (cpu w) f_guest_gdtr_limit);
                 ev_write IDTR_BASE (vmcs (cpu w) f_guest_idtr_base);
                 ev_write IDTR_LIMIT (vmcs (cpu w) f_guest_idtr_limit);
                 ev_write CR3 (vmcs (cpu w) f_guest_cr3);
                 ev_invvpid_all_contexts;
                 ev_invept_all_contexts;
                 ev_vmxoff;
                 ev_write CR4 (Z.clearbit (regs (cpu w) CR4) cr4_vmx_enable_bit);
                 ev_state terminated] |} |}.
Proof.
  intros Hoff Hterm. open_world w.
  unfold terminate. rewrite bind_get. fields.
  assert (Hpass : negb (vcpu_state_eqb state_0 off)
                  && negb (vcpu_state_eqb state_0 terminated) = true).
  { destruct state_0; try reflexivity; congruence. }
  rewrite Hpass.
  unfold bind at 1. rewrite hvpp_assert_true.
  exec. upd_simpl. repeat rewrite <- app_assoc. reflexivity.
Qed.

Lemma terminate_illegal P w :
  state_ (self w) = off \/ state_ (self w) = terminated ->
  assertions_fatal P = true ->
  terminate P w = Fault w.
Proof.
  intros Hst Hfatal. unfold terminate. rewrite bind_get.
  assert (Hfail : negb (vcpu_state_eqb (state_ (self w)) off)
                  && negb (vcpu_state_eqb (state_ (self w)) terminated) = false).
  { destruct Hst as [-> | ->]; reflexivity. }
  rewrite Hfail. unfold bind at 1.
  rewrite hvpp_assert_false_fatal by assumption. reflexivity.
Qed.

(** C5: from a state other than [off] and [terminated], [terminate()]
    returns after, in this order: advancing the exit context's RIP by the
    exit instruction length (modulo 2^64), loading GDTR and IDTR with the
    guest's base and limit, loading CR3 with the guest's, INVVPID
    all-contexts, INVEPT all-contexts, VMXOFF, clearing CR4.VMXE, and
    setting the state to [terminated].  From [off] or [terminated] the
    assertion fails and nothing is done. *)
Theorem terminate_spec (P : platform) (w : world) :
  (state_ (self w) <> off -> state_ (self w) <> terminated ->
   exists w',
     terminate P w = Ret tt w' /\
     rip (exit_context_ (self w'))
       = wrap64 (rip (exit_context_ (self w))
                 + vmcs (cpu w) f_exit_instruction_length) /\
     regs (cpu w') GDTR_BASE = vmcs (cpu w) f_guest_gdtr_base /\
     regs (cpu w') GDTR_LIMIT = vmcs (cpu w) f_guest_gdtr_limit /\
     regs (cpu w') IDTR_BASE = vmcs (cpu w) f_guest_idtr_base /\
     regs (cpu w') IDTR_LIMIT = vmcs (cpu w) f_guest_idtr_limit /\
     regs (cpu w') CR3 = vmcs (cpu w) f_guest_cr3 /\
     regs (cpu w') CR4 = Z.clearbit (regs (cpu w) CR4) cr4_vmx_enable_bit /\
     Z.testbit (regs (cpu w') CR4) cr4_vmx_enable_bit = false /\
     state_ (self w') = terminated /\
     trace (cpu w') =
       trace (cpu w) ++
       [ev_write GDTR_BASE (vmcs (cpu w) f_guest_gdtr_base);
        ev_write GDTR_LIMIT (vmcs (cpu w) f_guest_gdtr_limit);
        ev_write IDTR_BASE (vmcs (cpu w) f_guest_idtr_base);
        ev_write IDTR_LIMIT (vmcs (cpu w) f_guest_idtr_limit);
        ev_write CR3 (vmcs (cpu w) f_guest_cr3);
        ev_invvpid_all_contexts;
        ev_invept_all_contexts;
        ev_vmxoff;
        ev_write CR4 (Z.clearbit (regs (cpu w) CR4) cr4_vmx_enable_bit);
        ev_state terminated]) /\
  (state_ (self w) = off \/ state_ (self w) = terminated ->
   assertions_fatal P = true ->
   terminate P w = Fault w).
Proof.
  split.
  - intros Hoff Hterm. eexists. split.
    + apply terminate_legal; assumption.
    + fields. upd_simpl. repeat split; try reflexivity.
      apply Z.clearbit_eq.
  - apply terminate_illegal.
Qed.

Lemma terminate_spec_witness :
  exists w',
    terminate debug_platform running_world = Ret tt w' /\
    state_ (self w') = terminated /\
    rip (exit_context_ (self w')) = 3 /\
    terminate debug_platform w' = Fault w'.
Proof.
  destruct (terminate_spec debug_platform running_world) as [Hlegal _].
  destruct Hlegal as (w' & Hrun & Hrip & _ & _ & _ & _ & _ & _ & _ & Hst & _).
  - vm_compute. discriminate.
  - vm_compute. discriminate.
  - exists w'. repeat split; try assumption.
    apply (proj2 (terminate_spec debug_platform w')).
    + right. exact Hst.
    + reflexivity.
Defined.

(** ** ept_index *)

Lemma ept_index_rejected P w i :
  (ept_count_ (self w) <= i)%nat ->
  assertions_fatal P = true ->
  ept_index P i w = Fault w.
Proof.
  intros Hi Hfatal. unfold ept_index. rewrite bind_get.
  rewrite bool_decide_eq_false_2 by lia.
  unfold bind at 1. rewrite hvpp_assert_false_fatal by assumption.
  reflexivity.
Qed.

Lemma ept_index_selects P w i l :
  ept_ (self w) = Some l ->
  length l = ept_count_ (self w) ->
  (i < ept_count_ (self w))%nat ->
  exists e,
    l !! i = Some e /\
    ept_index P i w =
      Ret tt
        {| self := set_ept_index_ (self w) i;
           cpu := cpu_log (cpu_set_vmcs (cpu w)
                             (upd (vmcs (cpu w)) f_ept_pointer (ept_pointer_of e)))
                          (ev_vmwrite f_ept_pointer (ept_pointer_of e)) |}.
Proof.
  intros Harr Hlen Hi.
  destruct (lookup_lt_is_Some_2 l i) as [e He]; [lia|].
  exists e. split; [exact He|].
  unfold ept_index. rewrite bind_get.
  rewrite bool_decide_eq_true_2 by lia.
  unfold bind at 1. rewrite hvpp_assert_true.
  rewrite bind_get, Harr, He. reflexivity.
Qed.

(** What [ept_index] does on a virtual CPU whose translation contexts
    are enabled: where assertions are fatal, an index at or beyond
    [ept_count_] stops on the assertion and changes nothing; while the
    instance array is allocated and holds [ept_count_] instances, an
    index below [ept_count_] writes that instance's pointer into the
    EPT-pointer field and becomes the active index, which is then below
    the count. *)
Theorem ept_index_spec (P : platform) (w : world) (i : nat) :
  ((ept_count_ (self w) <= i)%nat ->
   assertions_fatal P = true ->
   ept_index P i w = Fault w) /\
  (forall l,
     ept_ (self w) = Some l ->
     length l = ept_count_ (self w) ->
     (i < ept_count_ (self w))%nat ->
     exists e w',
       l !! i = Some e /\
       ept_index P i w = Ret tt w' /\
       vmcs (cpu w') f_ept_pointer = ept_pointer_of e /\
       ept_index_ (self w') = i /\
       ept_ (self w') = Some l /\
       ept_count_ (self w') = ept_count_ (self w) /\
       (ept_index_ (self w') < ept_count_ (self w'))%nat).
Proof.
  split.
  - apply ept_index_rejected.
  - intros l Harr Hlen Hi.
    destruct (ept_index_selects P w i l Harr Hlen Hi) as (e & He & Hrun).
    exists e. eexists. split; [exact He|]. split; [exact Hrun|].
    fields. repeat split; try assumption; try apply upd_same.
Qed.

Lemma ept_index_spec_witness :
  ept_index debug_platform 2 enabled_world = Fault enabled_world /\
  exists w',
    ept_index debug_platform 1 enabled_world = Ret tt w' /\
    vmcs (cpu w') f_ept_pointer = 0x101000 /\
    ept_index_ (self w') = 1%nat.
Proof.
  destruct (ept_index_spec debug_platform enabled_world 2) as [Hrej _].
  destruct (ept_index_spec debug_platform enabled_world 1) as [_ Hsel].
  split.
  - apply Hrej; [vm_compute; lia | reflexivity].
  - destruct (Hsel (new_ept_array debug_platform 2))
      as (e & w' & He & Hrun & Hptr & Hidx & _).
    + reflexivity.
    + reflexivity.
    + vm_compute; lia.
    + exists w'. split; [exact Hrun|]. split; [|exact Hidx].
      rewrite Hptr. vm_compute in He. injection He as <-. reflexivity.
Defined.

Lemma ept_index_null P i w :
  (i < ept_count_ (self w))%nat ->
  ept_ (self w) = None ->
  ept_index P i w = Undef w.
Proof.
  intros Hi Hnull. unfold ept_index. rewrite bind_get.
  rewrite bool_decide_eq_true_2 by exact Hi.
  unfold bind at 1. rewrite hvpp_assert_true.
  rewrite bind_get, Hnull. reflexivity.
Qed.

(** C8: after [ept_enable(2)] and [ept_disable()] the array pointer is
    null while [ept_count_] still reads 2 and the EPT-pointer field still
    holds the released instance's pointer; index 0 then passes the
    assertion of [ept_index], which reads through the null pointer
    instead of rejecting the index or selecting an instance. *)
Theorem ept_index_after_disable :
  ept_disable enabled_world = Ret tt disabled_world /\
  ept_ (self disabled_world) = None /\
  ept_count_ (self disabled_world) = 2%nat /\
  vmcs (cpu disabled_world) f_ept_pointer = 0x100000 /\
  ept_index debug_platform 0 disabled_world = Undef disabled_world /\
  ept_index release_platform 0 disabled_world = Undef disabled_world.
Proof.
  assert (Hnull : ept_ (self disabled_world) = None)
    by (vm_compute; reflexivity).
  assert (Hcount : ept_count_ (self disabled_world) = 2%nat)
    by (vm_compute; reflexivity).
  split; [apply returned_world_of; vm_compute; reflexivity|].
  split; [exact Hnull|]. split; [exact Hcount|].
  split; [vm_compute; reflexivity|].
  split; apply ept_index_null; try exact Hnull; rewrite Hcount; lia.
Qed.

(** ** entry_host *)

Lemma entry_host_to_handler P w :
  entry_host P w =
    match h_handle (handler_at P (handler_ (self w))) (entry_host_at_handler w) with
    | Ret _ wh =>
        (if vcpu_state_eqb (state_ (self wh)) terminated then
          allocator_guard_leave >> ia32_asm_fx_restore
        else
          (let* suppress := get (fun w => suppress_rip_adjust_ (self w)) in
            if suppress then ret tt else advance_exit_rip) >>
           (let* x := get (fun w => rsp (exit_context_ (self w))) in
            vmwrite f_guest_rsp x) >>
           (let* x := get (fun w => rip (exit_context_ (self w))) in
            vmwrite f_guest_rip x) >>
           (let* x := get (fun w => rflags (exit_context_ (self w))) in
            vmwrite f_guest_rflags x) >>
           set_exit_rflags (rflags (exit_context_ (self w))) >>
           set_exit_rsp (rsp (exit_context_ (self w))) >>
           set_exit_rip (va_vmresume P) >>
           allocator_guard_leave >>
           ia32_asm_fx_restore) wh
    | Fault wh => Fault wh
    | Undef wh => Undef wh
    | Guest wh => Guest wh
    end.
Proof.
  destruct w as [v c]. destruct v, c. reflexivity.
Qed.

Lemma entry_host_terminated P w wh :
  h_handle (handler_at P (handler_ (self w))) (entry_host_at_handler w)
    = Ret tt wh ->
  state_ (self wh) = terminated ->
  entry_host P w =
    Ret tt
      {| self := self wh;
         cpu := {| regs := upd (regs (cpu wh)) FX (fxsave_area_ (self wh));
                   vmcs := vmcs (cpu wh);
                   caps := caps (cpu wh);
                   trace := trace (cpu wh)
                            ++ [ev_allocator_guard_leave; ev_fx_restore] |} |}.
Proof.
  intros Hh Hst. rewrite entry_host_to_handler, Hh, Hst. simpl.
  unfold allocator_guard_leave, ia32_asm_fx_restore.
  run_step. unfold cpu_log, cpu_set_regs. simpl.
  repeat rewrite <- app_assoc. reflexivity.
Qed.

Lemma entry_host_resumes P w wh :
  h_handle (handler_at P (handler_ (self w))) (entry_host_at_handler w)
    = Ret tt wh ->
  state_ (self wh) <> terminated ->
  entry_host P w =
    Ret tt
      {| self :=
           set_exit_context_ (self wh)
             {| rax := rax (exit_context_ (self wh));
                rsp := rsp (exit_context_ (self w));
                rip := va_vmresume P;
                rflags := rflags (exit_context_ (self w)) |};
         cpu :=
           {| regs := upd (regs (cpu wh)) FX (fxsave_area_ (self wh));
              vmcs :=
                upd (upd (upd (vmcs (cpu wh))
                  f_guest_rsp (rsp (exit_context_ (self wh))))
                  f_guest_rip (resume_rip wh))
                  f_guest_rflags (rflags (exit_context_ (self wh)));
              caps := caps (cpu wh);
              trace :=
                trace (cpu wh) ++
                [ev_vmwrite f_guest_rsp (rsp (exit_context_ (self wh)));
                 ev_vmwrite f_guest_rip (resume_rip wh);
                 ev_vmwrite f_guest_rflags (rflags (exit_context_ (self wh)));
                 ev_allocator_guard_leave;
                 ev_fx_restore] |} |}.
Proof.
  intros Hh Hst. rewrite entry_host_to_handler, Hh.
  apply vcpu_state_eqb_neq in Hst. rewrite Hst.
  unfold resume_rip.
  destruct wh as [vh ch]. simpl.
  unfold allocator_guard_leave, ia32_asm_fx_restore, advance_exit_rip,
    exit_instruction_length, vmread, vmwrite, set_exit_rflags, set_exit_rsp,
    set_exit_rip.
  unfold bind at 1. unfold bind at 1. unfold get at 1. simpl.
  destruct (suppress_rip_adjust_ vh) eqn:Hs;
    run_step; unfold cpu_log, cpu_set_regs, cpu_set_vmcs; simpl;
    repeat rewrite <- app_assoc; reflexivity.
Qed.

(** C3: [entry_host()] hands the handler a world in which the
    suppress-advance flag is false and the FX state has been saved.  If
    the handler returns with the state [terminated], nothing further is
    written to the virtual CPU or the VMCS: the guard is left and the FX
    state restored.  Otherwise guest RSP, RIP and RFLAGS are written back
    from the exit context, RIP having been advanced by the exit
    instruction length exactly when the flag is still false.  On both
    paths the last effect is the restore of the FX state from the save
    area, which gives back the value saved on entry when the handler has
    left the area alone. *)
Theorem entry_host_spec (P : platform) (w wh : world) :
  h_handle (handler_at P (handler_ (self w))) (entry_host_at_handler w)
    = Ret tt wh ->
  suppress_rip_adjust_ (self (entry_host_at_handler w)) = false /\
  fxsave_area_ (self (entry_host_at_handler w)) = regs (cpu w) FX /\
  (exists w',
     entry_host P w = Ret tt w' /\
     (state_ (self wh) = terminated ->
        self w' = self wh /\
        vmcs (cpu w') = vmcs (cpu wh) /\
        trace (cpu w') =
          trace (cpu wh) ++ [ev_allocator_guard_leave; ev_fx_restore]) /\
     (state_ (self wh) <> terminated ->
        vmcs (cpu w') f_guest_rsp = rsp (exit_context_ (self wh)) /\
        vmcs (cpu w') f_guest_rip = resume_rip wh /\
        vmcs (cpu w') f_guest_rflags = rflags (exit_context_ (self wh)) /\
        (suppress_rip_adjust_ (self wh) = false ->
           resume_rip wh = wrap64 (rip (exit_context_ (self wh))
                                   + vmcs (cpu wh) f_exit_instruction_length)) /\
        (suppress_rip_adjust_ (self wh) = true ->
           resume_rip wh = rip (exit_context_ (self wh))) /\
        trace (cpu w') =
          trace (cpu wh) ++
          [ev_vmwrite f_guest_rsp (rsp (exit_context_ (self wh)));
           ev_vmwrite f_guest_rip (resume_rip wh);
           ev_vmwrite f_guest_rflags (rflags (exit_context_ (self wh)));
           ev_allocator_guard_leave;
           ev_fx_restore]) /\
     regs (cpu w') FX = fxsave_area_ (self wh) /\
     (fxsave_area_ (self wh) = fxsave_area_ (self (entry_host_at_handler w)) ->
        regs (cpu w') FX = regs (cpu w) FX)).
Proof.
  intros Hh. split; [reflexivity|]. split; [reflexivity|].
  destruct (decide (state_ (self wh) = terminated)) as [Hst|Hst].
  - eexists. split; [apply entry_host_terminated; eassumption|].
    simpl. split; [intros _; repeat split|]. split; [intros Hne; contradiction|].
    split; [apply upd_same|].
    intros Hsame. rewrite upd_same. exact Hsame.
  - eexists. split; [apply entry_host_resumes; eassumption|].
    simpl. split; [intros Heq; contradiction|].
    split.
    + intros _. repeat split; try reflexivity.
      * unfold resume_rip. intros ->. reflexivity.
      * unfold resume_rip. intros ->. reflexivity.
    + split; [apply upd_same|].
      intros Hsame. rewrite upd_same. exact Hsame.
Qed.

Lemma entry_host_spec_witness :
  exists w',
    entry_host debug_platform running_world = Ret tt w' /\
    self w' = self handled_world /\
    regs (cpu w') FX = regs (cpu running_world) FX.
Proof.
  assert (Hh : h_handle (handler_at debug_platform (handler_ (self running_world)))
                        (entry_host_at_handler running_world)
               = Ret tt handled_world).
  { unfold handled_world. apply returned_world_of. vm_compute. reflexivity. }
  destruct (entry_host_spec debug_platform running_world handled_world Hh)
    as (_ & _ & w' & Hrun & Hterm & _ & _ & Hfx).
  exists w'. split; [exact Hrun|]. split.
  - apply Hterm. vm_compute. reflexivity.
  - apply Hfx. vm_compute. reflexivity.
Defined.

(** The two ways back into the guest, run on the sample machine: the
    exit instruction is 3 bytes long and the guest stands at 0x402000. *)
Example entry_host_advances :
  vmcs (cpu (world_of (entry_host idle_platform running_world))) f_guest_rip
    = 0x402003.
Proof. vm_compute. reflexivity. Qed.

Example entry_host_suppressed :
  vmcs (cpu (world_of (entry_host suppressing_platform running_world)))
       f_guest_rip
    = 0x402000.
Proof. vm_compute. reflexivity. Qed.

(** ** launch *)

Lemma assign_state_returns s w w' :
  assign_state s w = Ret tt w' -> state_ (self w') = s.
Proof.
  unfold assign_state. exec. intros H. injection H as <-.
  reflexivity.
Qed.

Lemma terminate_returns_terminated P w w' :
  terminate P w = Ret tt w' -> state_ (self w') = terminated.
Proof.
  unfold terminate. intros H.
  do 10 (apply bind_Ret_inv in H; destruct H as (? & ? & _ & H)).
  eapply assign_state_returns. exact H.
Qed.

Lemma error_returns_terminated P w w' :
  error P w = Ret tt w' -> state_ (self w') = terminated.
Proof.
  unfold error. intros H.
  do 3 (apply bind_Ret_inv in H; destruct H as (? & ? & _ & H)).
  eapply terminate_returns_terminated. exact H.
Qed.

Lemma setup_returns_terminated P w w' :
  setup P w = Ret tt w' -> state_ (self w') = terminated.
Proof.
  unfold setup. intros H.
  do 6 (apply bind_Ret_inv in H; destruct H as (? & ? & _ & H)).
  eapply error_returns_terminated. exact H.
Qed.

Lemma setup_before_handler_succeeds P w :
  vmxon_succeeds (caps (cpu w)) = true ->
  vmclear_succeeds (caps (cpu w)) = true ->
  vmptrld_succeeds (caps (cpu w)) = true ->
  exists w1,
    setup_before_handler P w = Ret tt w1 /\
    handler_ (self w1) = handler_ (self w) /\
    state_ (self w1) = initializing /\
    assigned_states (trace (cpu w1))
      = assigned_states (trace (cpu w)) ++ [initializing].
Proof.
  intros Hon Hclear Hload.
  open_world w. destruct caps0. fields. subst.
  unfold setup_before_handler, load_vmxon, load_vmcs, setup_host, setup_guest.
  exec.
  change (vcpu_state_eqb initializing initializing) with true.
  rewrite hvpp_assert_true. exec.
  eexists. split; [reflexivity|]. fields. split; [reflexivity|].
  split; [reflexivity|].
  unfold assigned_states. repeat rewrite omap_app. cbn [omap].
  repeat rewrite app_nil_r. reflexivity.
Qed.

Lemma setup_enters_guest P w w1 w2 :
  setup_before_handler P w = Ret tt w1 ->
  h_setup (handler_at P (handler_ (self w1))) w1 = Ret tt w2 ->
  vmlaunch_succeeds (caps (cpu w2)) = true ->
  setup P w = Guest {| self := self w2;
                       cpu := cpu_log (cpu w2) (ev_vmlaunch true) |}.
Proof.
  intros Hpre Hh Hlaunch.
  unfold setup_before_handler in Hpre.
  apply bind_Ret_inv in Hpre. destruct Hpre as (u1 & a & H1 & Hpre).
  apply bind_Ret_inv in Hpre. destruct Hpre as (u2 & b & H2 & Hpre).
  apply bind_Ret_inv in Hpre. destruct Hpre as (u3 & c & H3 & H4).
  unfold setup.
  rewrite (bind_Ret _ _ _ _ _ H1), (bind_Ret _ _ _ _ _ H2),
    (bind_Ret _ _ _ _ _ H3), (bind_Ret _ _ _ _ _ H4).
  unfold bind at 1. unfold call_handler. rewrite Hh.
  unfold bind, vmx_vmlaunch. rewrite Hlaunch. reflexivity.
Qed.

Lemma launch_from_off P w : launch_from P (vcpu_state_to_Z off) w = setup P w.
Proof. reflexivity. Qed.

Lemma launch_from_launching P w :
  launch_from P (vcpu_state_to_Z launching) w =
    Ret tt {| self := set_state_ (self w) running;
              cpu := cpu_log (cpu w) (ev_state running) |}.
Proof. reflexivity. Qed.

Lemma vcpu_state_of_Z_to_Z c s :
  vcpu_state_of_Z c = Some s -> c = vcpu_state_to_Z s.
Proof.
  unfold vcpu_state_of_Z.
  destruct c as [|p|p]; try discriminate.
  - intros [= <-]. reflexivity.
  - destruct p as [[[]|[]|]|[[]|[]|]|]; try discriminate;
      intros [= <-]; reflexivity.
Qed.

Lemma launch_from_other P w c :
  c <> vcpu_state_to_Z off ->
  c <> vcpu_state_to_Z launching ->
  launch_from P c w = hvpp_assert P false w.
Proof.
  intros Hoff Hlaunching. unfold launch_from.
  destruct (vcpu_state_of_Z c) as [s|] eqn:E; [|reflexivity].
  apply vcpu_state_of_Z_to_Z in E. subst c.
  destruct s; try reflexivity; congruence.
Qed.

Lemma entry_guest_sets_sentinel w :
  entry_guest w =
    Ret tt {| self := set_guest_context_ (self w)
                        (ctx_set_rax (guest_context_ (self w))
                                     (vcpu_state_to_Z launching));
              cpu := cpu w |}.
Proof. reflexivity. Qed.

Lemma launch_returns_running P w w1 w2 :
  setup_before_handler P w = Ret tt w1 ->
  h_setup (handler_at P (handler_ (self w1))) w1 = Ret tt w2 ->
  vmlaunch_succeeds (caps (cpu w2)) = true ->
  launch P w =
    Ret tt
      {| self :=
           set_state_
             (set_guest_context_ (self w2)
                (ctx_set_rax (guest_context_ (self w2))
                             (vcpu_state_to_Z launching)))
             running;
         cpu := cpu_log (cpu_log (cpu w2) (ev_vmlaunch true))
                        (ev_state running) |}.
Proof.
  intros Hpre Hh Hlaunch.
  unfold launch.
  rewrite launch_from_off, (setup_enters_guest P w w1 w2 Hpre Hh Hlaunch).
  rewrite entry_guest_sets_sentinel. cbn [self cpu].
  replace (rax (guest_context_
                  (set_guest_context_ (self w2)
                     (ctx_set_rax (guest_context_ (self w2))
                                  (vcpu_state_to_Z launching)))))
    with (vcpu_state_to_Z launching) by reflexivity.
  rewrite launch_from_launching. reflexivity.
Qed.

(** C2: [launch()] switches on the value [capture()] returns.  With the
    value of [off] it runs [setup()], which on success leaves for the
    guest and returns only through [error()], with the state
    [terminated].  With the value of [launching], which [entry_guest()]
    stores in the saved [rax], it sets the state to [running] and
    returns.  Any other value fails the assertion.  So a return with a
    state other than [terminated] comes from the sentinel alone, and the
    call as a whole, once the guest has been entered, returns to its
    caller with the state [running]. *)
Theorem launch_spec (P : platform) (w : world) :
  launch_from P (vcpu_state_to_Z off) w = setup P w /\
  (forall w1 w2,
     setup_before_handler P w = Ret tt w1 ->
     h_setup (handler_at P (handler_ (self w1))) w1 = Ret tt w2 ->
     vmlaunch_succeeds (caps (cpu w2)) = true ->
     (exists wg,
        launch_from P (vcpu_state_to_Z off) w = Guest wg /\
        trace (cpu wg) = trace (cpu w2) ++ [ev_vmlaunch true]) /\
     (exists w',
        launch P w = Ret tt w' /\
        state_ (self w') = running /\
        rax (guest_context_ (self w')) = vcpu_state_to_Z launching /\
        trace (cpu w') = trace (cpu w2) ++ [ev_vmlaunch true; ev_state running])) /\
  (forall w',
     launch_from P (vcpu_state_to_Z off) w = Ret tt w' ->
     state_ (self w') = terminated) /\
  (exists w',
     launch_from P (vcpu_state_to_Z launching) w = Ret tt w' /\
     state_ (self w') = running) /\
  (forall c,
     c <> vcpu_state_to_Z off ->
     c <> vcpu_state_to_Z launching ->
     assertions_fatal P = true ->
     launch_from P c w = Fault w) /\
  (forall c w',
     assertions_fatal P = true ->
     launch_from P c w = Ret tt w' ->
     state_ (self w') <> terminated ->
     c = vcpu_state_to_Z launching).
Proof.
  split; [apply launch_from_off|].
  split.
  { intros w1 w2 Hpre Hh Hlaunch.
    pose proof (setup_enters_guest P w w1 w2 Hpre Hh Hlaunch) as Hsetup.
    split.
    - eexists. split; [rewrite launch_from_off; exact Hsetup|reflexivity].
    - eexists. split; [apply (launch_returns_running P w w1 w2); assumption|].
      fields. repeat split. rewrite <- app_assoc. reflexivity. }
  split.
  { intros w' H. rewrite launch_from_off in H.
    eapply setup_returns_terminated. exact H. }
  split.
  { eexists. split; [apply launch_from_launching|reflexivity]. }
  split.
  { intros c Hoff Hlaunching Hfatal.
    rewrite launch_from_other by assumption.
    apply hvpp_assert_false_fatal. exact Hfatal. }
  intros c w' Hfatal Hret Hst.
  destruct (decide (c = vcpu_state_to_Z launching)) as [|Hne]; [assumption|].
  exfalso.
  destruct (decide (c = vcpu_state_to_Z off)) as [->|Hne0].
  - apply Hst. rewrite launch_from_off in Hret.
    eapply setup_returns_terminated. exact Hret.
  - rewrite launch_from_other in Hret by assumption.
    rewrite hvpp_assert_false_fatal in Hret by assumption. discriminate.
Qed.

Lemma launch_spec_witness :
  (exists w',
     launch debug_platform (fresh_world good_cpu) = Ret tt w' /\
     state_ (self w') = running) /\
  launch_from debug_platform 7 (fresh_world good_cpu)
    = Fault (fresh_world good_cpu).
Proof.
  destruct (launch_spec debug_platform (fresh_world good_cpu))
    as (_ & Hgo & _ & _ & Hother & _).
  split.
  - destruct (Hgo (world_of (setup_before_handler debug_platform
                                                   (fresh_world good_cpu)))
                  (world_of (setup_before_handler debug_platform
                                                   (fresh_world good_cpu))))
      as (_ & w' & Hrun & Hst & _).
    + apply returned_world_of. vm_compute. reflexivity.
    + reflexivity.
    + vm_compute. reflexivity.
    + exists w'. split; assumption.
  - apply Hother.
    + vm_compute. discriminate.
    + vm_compute. discriminate.
    + reflexivity.
Defined.

(** ** The pending-interrupt queue *)

Ltac ring16 :=
  unfold pending_interrupt_queue_size in *;
  zify; Z.to_euclidean_division_equations; lia.

Lemma nth_insert_eq {A} (l : list A) (i : nat) (x d : A) :
  (i < length l)%nat -> nth i (<[i := x]> l) d = x.
Proof.
  intros Hi. rewrite nth_lookup, list_lookup_insert_eq by assumption.
  reflexivity.
Qed.

Lemma nth_insert_ne {A} (l : list A) (i j : nat) (x d : A) :
  i <> j -> nth j (<[i := x]> l) d = nth j l d.
Proof.
  intros Hij. rewrite !nth_lookup, list_lookup_insert_ne by assumption.
  reflexivity.
Qed.

Lemma queue_full_rejected x first v :
  (pending_interrupt_queue_size <= pending_interrupt_count_ v)%nat ->
  interrupt_inject x first v = (false, v).
Proof.
  intros Hfull. unfold interrupt_inject.
  rewrite bool_decide_eq_true_2 by assumption. reflexivity.
Qed.

Lemma queue_inject_tail x v :
  queue_wf v ->
  (pending_interrupt_count_ v < pending_interrupt_queue_size)%nat ->
  exists v',
    interrupt_inject x false v = (true, v') /\
    queue_wf v' /\
    pending_interrupt_first_ v' = pending_interrupt_first_ v /\
    pending_interrupt_count_ v' = S (pending_interrupt_count_ v) /\
    queue_contents v' = queue_contents v ++ [x].
Proof.
  intros (Hlen & Hfirst & Hcount) Hroom.
  unfold interrupt_inject.
  rewrite bool_decide_eq_false_2 by lia.
  cbv beta iota zeta.
  eexists. split; [reflexivity|].
  split.
  { unfold queue_wf. fields. rewrite length_insert. repeat split; lia. }
  split; [reflexivity|]. split; [reflexivity|].
  unfold queue_contents. fields.
  rewrite seq_S, map_app. cbn [map]. rewrite Nat.add_0_l. f_equal.
  - apply map_ext_in. intros k Hk. apply in_seq in Hk.
    unfold queue_slot. fields. apply nth_insert_ne. ring16.
  - unfold queue_slot. fields. f_equal. apply nth_insert_eq. ring16.
Qed.

Lemma queue_inject_front x v :
  queue_wf v ->
  (pending_interrupt_count_ v < pending_interrupt_queue_size)%nat ->
  exists v',
    interrupt_inject x true v = (true, v') /\
    queue_wf v' /\
    pending_interrupt_count_ v' = S (pending_interrupt_count_ v) /\
    queue_contents v' = x :: queue_contents v.
Proof.
  intros (Hlen & Hfirst & Hcount) Hroom.
  unfold interrupt_inject.
  rewrite bool_decide_eq_false_2 by lia.
  cbv beta iota zeta.
  eexists. split; [reflexivity|].
  split.
  { unfold queue_wf. fields. rewrite length_insert. repeat split; ring16. }
  split; [reflexivity|].
  unfold queue_contents. fields. cbn [seq map]. f_equal.
  - unfold queue_slot. fields.
    replace ((((pending_interrupt_first_ v + pending_interrupt_queue_size - 1)
                 mod pending_interrupt_queue_size) + 0)
               mod pending_interrupt_queue_size)%nat
      with ((pending_interrupt_first_ v + pending_interrupt_queue_size - 1)
              mod pending_interrupt_queue_size)%nat by ring16.
    apply nth_insert_eq. ring16.
  - rewrite <- seq_shift, map_map.
    apply map_ext_in. intros k Hk. apply in_seq in Hk.
    unfold queue_slot. fields.
    replace ((((pending_interrupt_first_ v + pending_interrupt_queue_size - 1)
                 mod pending_interrupt_queue_size) + S k)
               mod pending_interrupt_queue_size)%nat
      with ((pending_interrupt_first_ v + k)
              mod pending_interrupt_queue_size)%nat by ring16.
    apply nth_insert_ne. ring16.
Qed.

Lemma queue_dequeue_head x rest v :
  queue_wf v ->
  queue_contents v = x :: rest ->
  exists v',
    interrupt_dequeue v = Some (x, v') /\
    queue_wf v' /\
    pending_interrupt_ v' = pending_interrupt_ v /\
    S (pending_interrupt_count_ v') = pending_interrupt_count_ v /\
    queue_contents v' = rest.
Proof.
  intros (Hlen & Hfirst & Hcount) Hq.
  unfold queue_contents in Hq.
  destruct (pending_interrupt_count_ v) as [|n] eqn:Hn; [discriminate|].
  cbn [seq map] in Hq. injection Hq as Hx Hrest.
  unfold interrupt_dequeue. rewrite Hn.
  destruct (lookup_lt_is_Some_2 (pending_interrupt_ v)
              (pending_interrupt_first_ v)) as [y Hy]; [lia|].
  rewrite Hy.
  assert (y = x) as ->.
  { rewrite <- Hx. unfold queue_slot.
    replace ((pending_interrupt_first_ v + 0)
               mod pending_interrupt_queue_size)%nat
      with (pending_interrupt_first_ v) by ring16.
    rewrite nth_lookup, Hy. reflexivity. }
  eexists. split; [reflexivity|].
  split.
  { unfold queue_wf. fields. repeat split; ring16. }
  split; [reflexivity|]. split; [reflexivity|].
  unfold queue_contents. fields. rewrite <- Hrest.
  rewrite <- seq_shift, map_map.
  apply map_ext_in. intros k Hk.
  unfold queue_slot. fields. f_equal. ring16.
Qed.

Lemma queue_dequeue_empty v :
  pending_interrupt_count_ v = 0%nat -> interrupt_dequeue v = None.
Proof. intros H. unfold interrupt_dequeue. rewrite H. reflexivity. Qed.

Lemma queue_contents_length v :
  length (queue_contents v) = pending_interrupt_count_ v.
Proof. unfold queue_contents. rewrite length_map, length_seq. reflexivity. Qed.

Lemma queue_wf_ctor this handler raw_fx raw_msr_bitmap :
  queue_wf (vcpu_t_ctor this handler raw_fx raw_msr_bitmap) /\
  queue_contents (vcpu_t_ctor this handler raw_fx raw_msr_bitmap) = [].
Proof.
  split; [|reflexivity].
  unfold queue_wf, vcpu_t_ctor. fields. rewrite length_replicate.
  unfold pending_interrupt_queue_size. lia.
Qed.

Lemma queue_step_wf o v : queue_wf v -> queue_wf (queue_step o v).
Proof.
  intros Hwf. destruct o as [x first|]; simpl.
  - destruct (decide (pending_interrupt_count_ v < pending_interrupt_queue_size)%nat)
      as [Hroom|Hfull].
    + destruct first.
      * destruct (queue_inject_front x v Hwf Hroom) as (v' & -> & Hwf' & _).
        exact Hwf'.
      * destruct (queue_inject_tail x v Hwf Hroom) as (v' & -> & Hwf' & _).
        exact Hwf'.
    + rewrite queue_full_rejected by lia. exact Hwf.
  - destruct (queue_contents v) as [|y rest] eqn:Hq.
    + rewrite queue_dequeue_empty; [exact Hwf|].
      rewrite <- queue_contents_length, Hq. reflexivity.
    + destruct (queue_dequeue_head y rest v Hwf Hq) as (v' & -> & Hwf' & _).
      exact Hwf'.
Qed.

Lemma queue_run_wf ops v : queue_wf v -> queue_wf (queue_run ops v).
Proof.
  unfold queue_run. revert v.
  induction ops as [|o ops IH]; intros v Hwf; simpl; [exact Hwf|].
  apply IH, queue_step_wf, Hwf.
Qed.

Lemma inject_all_appends xs v :
  queue_wf v ->
  (pending_interrupt_count_ v + length xs <= pending_interrupt_queue_size)%nat ->
  exists v',
    inject_all xs v = Some v' /\
    queue_wf v' /\
    queue_contents v' = queue_contents v ++ xs.
Proof.
  revert v. induction xs as [|x xs IH]; intros v Hwf Hroom; simpl in *.
  - exists v. rewrite app_nil_r. auto.
  - destruct (queue_inject_tail x v Hwf) as (v1 & -> & Hwf1 & _ & Hc1 & Hq1);
      [lia|].
    destruct (IH v1 Hwf1) as (v' & Hrun & Hwf' & Hq'); [lia|].
    exists v'. split; [exact Hrun|]. split; [exact Hwf'|].
    rewrite Hq', Hq1, <- app_assoc. reflexivity.
Qed.

Lemma drain_in_order fuel v :
  queue_wf v ->
  (pending_interrupt_count_ v <= fuel)%nat ->
  fst (drain fuel v) = queue_contents v /\
  pending_interrupt_count_ (snd (drain fuel v)) = 0%nat.
Proof.
  revert v. induction fuel as [|fuel IH]; intros v Hwf Hfuel; simpl.
  - split; [|lia].
    unfold queue_contents. replace (pending_interrupt_count_ v) with 0%nat by lia.
    reflexivity.
  - destruct (queue_contents v) as [|y rest] eqn:Hq.
    + assert (Hc : pending_interrupt_count_ v = 0%nat)
        by (rewrite <- queue_contents_length, Hq; reflexivity).
      rewrite queue_dequeue_empty by exact Hc. simpl. auto.
    + destruct (queue_dequeue_head y rest v Hwf Hq)
        as (v' & -> & Hwf' & _ & Hc' & Hq').
      destruct (IH v' Hwf') as [Hfst Hsnd]; [lia|].
      destruct (drain fuel v') as [ys v''] eqn:Hd. simpl in *.
      rewrite Hfst, Hq'. auto.
Qed.

(** C4: on a well-formed queue (16 slots, head index below 16, count at
    most 16; the constructor builds one, empty): [interrupt_inject] on a
    full queue returns false and returns the virtual CPU unchanged; with
    [first] set it puts the descriptor ahead of all queued ones; tail
    insertions come out in the order they went in; the head is what a
    dequeue hands out; no run of injections and dequeues takes the count
    above 16; and A (tail), B (tail), C (front) on an empty queue drain
    as C, A, B. *)
Theorem interrupt_queue_spec (v : vcpu_t) (x : interrupt_t) :
  queue_wf v ->
  (forall first,
     pending_interrupt_count_ v = pending_interrupt_queue_size ->
     interrupt_inject x first v = (false, v)) /\
  ((pending_interrupt_count_ v < pending_interrupt_queue_size)%nat ->
   exists v',
     interrupt_inject x true v = (true, v') /\
     queue_wf v' /\
     queue_contents v' = x :: queue_contents v) /\
  (forall xs,
     (pending_interrupt_count_ v + length xs <= pending_interrupt_queue_size)%nat ->
     exists v',
       inject_all xs v = Some v' /\
       queue_contents v' = queue_contents v ++ xs /\
       fst (drain pending_interrupt_queue_size v') = queue_contents v ++ xs) /\
  (forall y rest,
     queue_contents v = y :: rest ->
     exists v',
       interrupt_dequeue v = Some (y, v') /\ queue_contents v' = rest) /\
  (forall ops,
     queue_wf (queue_run ops v) /\
     (pending_interrupt_count_ (queue_run ops v)
        <= pending_interrupt_queue_size)%nat) /\
  (forall a b c,
     pending_interrupt_count_ v = 0%nat ->
     exists v1 v2 v3,
       interrupt_inject a false v = (true, v1) /\
       interrupt_inject b false v1 = (true, v2) /\
       interrupt_inject c true v2 = (true, v3) /\
       fst (drain pending_interrupt_queue_size v3) = [c; a; b]).
Proof.
  intros Hwf.
  split.
  { intros first Hfull. apply queue_full_rejected. lia. }
  split.
  { intros Hroom.
    destruct (queue_inject_front x v Hwf Hroom) as (v' & Hrun & Hwf' & _ & Hq).
    exists v'. auto. }
  split.
  { intros xs Hroom.
    destruct (inject_all_appends xs v Hwf Hroom) as (v' & Hrun & Hwf' & Hq).
    exists v'. split; [exact Hrun|]. split; [exact Hq|].
    rewrite <- Hq. apply drain_in_order; [exact Hwf'|].
    destruct Hwf' as (_ & _ & Hc). exact Hc. }
  split.
  { intros y rest Hq.
    destruct (queue_dequeue_head y rest v Hwf Hq) as (v' & Hrun & _ & _ & _ & Hq').
    exists v'. auto. }
  split.
  { intros ops. pose proof (queue_run_wf ops v Hwf) as Hwf'.
    split; [exact Hwf'|]. destruct Hwf' as (_ & _ & Hc). exact Hc. }
  intros a b c Hempty.
  assert (Hq0 : queue_contents v = []).
  { unfold queue_contents. rewrite Hempty. reflexivity. }
  destruct (queue_inject_tail a v Hwf) as (v1 & Hr1 & Hwf1 & _ & Hc1 & Hq1).
  { unfold pending_interrupt_queue_size. lia. }
  destruct (queue_inject_tail b v1 Hwf1) as (v2 & Hr2 & Hwf2 & _ & Hc2 & Hq2).
  { unfold pending_interrupt_queue_size. lia. }
  destruct (queue_inject_front c v2 Hwf2) as (v3 & Hr3 & Hwf3 & Hc3 & Hq3).
  { unfold pending_interrupt_queue_size. lia. }
  exists v1, v2, v3. repeat split; try assumption.
  destruct (drain_in_order pending_interrupt_queue_size v3 Hwf3) as [Hd _].
  { destruct Hwf3 as (_ & _ & Hc). exact Hc. }
  rewrite Hd, Hq3, Hq2, Hq1, Hq0. reflexivity.
Qed.

Lemma interrupt_queue_spec_witness :
  queue_wf fresh_vcpu /\
  exists v1 v2 v3,
    interrupt_inject (interrupt_make 0 14 2 true (-1)) false fresh_vcpu = (true, v1) /\
    interrupt_inject (interrupt_make 0 13 0 true (-1)) false v1 = (true, v2) /\
    interrupt_inject (interrupt_make 2 2 0 false (-1)) true v2 = (true, v3) /\
    fst (drain pending_interrupt_queue_size v3)
      = [interrupt_make 2 2 0 false (-1);
         interrupt_make 0 14 2 true (-1);
         interrupt_make 0 13 0 true (-1)].
Proof.
  assert (Hwf : queue_wf fresh_vcpu) by apply queue_wf_ctor.
  split; [exact Hwf|].
  destruct (interrupt_queue_spec fresh_vcpu interrupt_default Hwf)
    as (_ & _ & _ & _ & _ & Hscenario).
  apply Hscenario. reflexivity.
Defined.

(** ** The orchestrator *)

Ltac pick_disjunct :=
  repeat first [left; solve [reflexivity | assumption] | right];
  solve [reflexivity | assumption].

Lemma check_cpu_features_false_iff P c :
  check_cpu_features P c = false <->
  virtual_machine_extensions (caps c) = false \/
  Z.testbit (regs c CR4) cr4_vmx_enable_bit = true \/
  page_size P < vmcs_size_in_bytes (vmx_basic (caps c)) \/
  memory_type (vmx_basic (caps c)) <> memory_type_write_back_value \/
  true_controls (vmx_basic (caps c)) = false \/
  page_walk_length_4 (vmx_ept_vpid_cap (caps c)) = false \/
  memory_type_write_back (vmx_ept_vpid_cap (caps c)) = false \/
  invept (vmx_ept_vpid_cap (caps c)) = false \/
  invept_all_contexts (vmx_ept_vpid_cap (caps c)) = false \/
  execute_only_pages (vmx_ept_vpid_cap (caps c)) = false \/
  pde_2mb_pages (vmx_ept_vpid_cap (caps c)) = false.
Proof.
  assert (Hpick : forall Q : Prop, Q -> (false = false <-> Q))
    by (intros Q HQ; split; [intros _; exact HQ|reflexivity]).
  unfold check_cpu_features.
  destruct (virtual_machine_extensions (caps c)); cbn [negb];
    [|apply Hpick; pick_disjunct].
  destruct (Z.testbit (regs c CR4) cr4_vmx_enable_bit);
    [apply Hpick; pick_disjunct|].
  destruct (Z.ltb_spec (page_size P) (vmcs_size_in_bytes (vmx_basic (caps c))));
    cbn [orb]; [apply Hpick; pick_disjunct|].
  destruct (Z.eqb_spec (memory_type (vmx_basic (caps c)))
                       memory_type_write_back_value);
    cbn [negb orb]; [|apply Hpick; pick_disjunct].
  destruct (true_controls (vmx_basic (caps c))); cbn [negb orb];
    [|apply Hpick; pick_disjunct].
  destruct (page_walk_length_4 (vmx_ept_vpid_cap (caps c))); cbn [negb orb];
    [|apply Hpick; pick_disjunct].
  destruct (memory_type_write_back (vmx_ept_vpid_cap (caps c)));
    cbn [negb orb]; [|apply Hpick; pick_disjunct].
  destruct (invept (vmx_ept_vpid_cap (caps c))); cbn [negb orb];
    [|apply Hpick; pick_disjunct].
  destruct (invept_all_contexts (vmx_ept_vpid_cap (caps c))); cbn [negb orb];
    [|apply Hpick; pick_disjunct].
  destruct (execute_only_pages (vmx_ept_vpid_cap (caps c))); cbn [negb orb];
    [|apply Hpick; pick_disjunct].
  destruct (pde_2mb_pages (vmx_ept_vpid_cap (caps c))); cbn [negb orb];
    [|apply Hpick; pick_disjunct].
  split; [discriminate|].
  intros Hd.
  repeat (destruct Hd as [Hd|Hd]; [first [discriminate|lia|congruence]|]).
  discriminate.
Qed.

Lemma construct_vcpus_off P a handler n :
  length (construct_vcpus P a handler n) = n /\
  Forall (fun v => state_ v = off) (construct_vcpus P a handler n).
Proof.
  unfold construct_vcpus. split.
  - rewrite length_map, length_seq. reflexivity.
  - apply Forall_forall. intros v Hv. apply list_elem_of_In in Hv.
    apply in_map_iff in Hv. destruct Hv as (i & <- & _). reflexivity.
Qed.

(** C6: a processor fails the capability check exactly when one of the
    listed capabilities is missing; when the check fails on the calling
    processor of a stopped orchestrator whose allocation succeeded (the
    array pointer being null, or the assertion on it compiled out),
    [start()] returns [not_supported], the started flag is still false,
    no processor has executed anything (registers, VMCS and traces are
    the same), and every constructed virtual CPU is in state [off]. *)
Theorem start_not_supported (P : platform) (handler : Z) (cur : nat)
    (a : allocation) (s : system) (c : cpu_t) :
  (check_cpu_features P c = false <->
   virtual_machine_extensions (caps c) = false \/
   Z.testbit (regs c CR4) cr4_vmx_enable_bit = true \/
   page_size P < vmcs_size_in_bytes (vmx_basic (caps c)) \/
   memory_type (vmx_basic (caps c)) <> memory_type_write_back_value \/
   true_controls (vmx_basic (caps c)) = false \/
   page_walk_length_4 (vmx_ept_vpid_cap (caps c)) = false \/
   memory_type_write_back (vmx_ept_vpid_cap (caps c)) = false \/
   invept (vmx_ept_vpid_cap (caps c)) = false \/
   invept_all_contexts (vmx_ept_vpid_cap (caps c)) = false \/
   execute_only_pages (vmx_ept_vpid_cap (caps c)) = false \/
   pde_2mb_pages (vmx_ept_vpid_cap (caps c)) = false) /\
  (started (global s) = false ->
   vcpu_list (global s) = None \/ assertions_fatal P = false ->
   cpus s !! cur = Some c ->
   check_cpu_features P c = false ->
   exists s' l,
     start P handler cur (Some a) s = SRet not_supported s' /\
     is_started s' = false /\
     cpus s' = cpus s /\
     vcpu_list (global s') = Some l /\
     length l = length (cpus s) /\
     Forall (fun v => state_ v = off) l).
Proof.
  split; [apply check_cpu_features_false_iff|].
  intros Hstopped Hnull Hcur Hcheck.
  unfold start, assert_passes. rewrite Hstopped.
  assert (Hpass : bool_decide (vcpu_list (global s) = None)
                  || negb (assertions_fatal P) = true).
  { destruct Hnull as [Hnull|Hrelease].
    - rewrite bool_decide_eq_true_2 by exact Hnull. reflexivity.
    - rewrite Hrelease. apply orb_true_r. }
  rewrite Hpass. cbn [negb orb set_global cpus].
  rewrite Hcur, Hcheck. cbn [negb].
  eexists. eexists. split; [reflexivity|].
  split; [reflexivity|]. split; [reflexivity|]. split; [reflexivity|].
  apply construct_vcpus_off.
Qed.

Lemma start_not_supported_witness :
  exists s',
    start debug_platform 0 0 (Some sample_allocation) (idle_system no_vmx_cpu)
      = SRet not_supported s' /\
    is_started s' = false /\
    cpus s' = cpus (idle_system no_vmx_cpu).
Proof.
  destruct (start_not_supported debug_platform 0 0 sample_allocation
              (idle_system no_vmx_cpu) no_vmx_cpu) as [_ H].
  destruct H as (s' & l & Hrun & Hflag & Hcpus & _).
  - reflexivity.
  - left. reflexivity.
  - reflexivity.
  - vm_compute. reflexivity.
  - exists s'. auto.
Defined.

(** *** The started flag *)

Lemma run_vcpu_on_started idx onto f s :
  started (global (system_of (run_vcpu_on idx onto f s))) = started (global s).
Proof.
  unfold run_vcpu_on.
  destruct (vcpu_list (global s)) as [l|]; [|reflexivity].
  destruct (l !! idx) as [v|]; [|reflexivity].
  destruct (cpus s !! onto) as [c|]; [|reflexivity].
  destruct (f {| self := v; cpu := c |}); reflexivity.
Qed.

Lemma ipi_call_from_started f n idx s :
  started (global (system_of (ipi_call_from f idx n s))) = started (global s).
Proof.
  revert idx s. induction n as [|n IH]; intros idx s; [reflexivity|].
  cbn [ipi_call_from].
  pose proof (run_vcpu_on_started idx idx f s) as Hstep.
  destruct (run_vcpu_on idx idx f s) as [[] s1|s1|s1]; cbn [system_of] in *.
  - rewrite IH. exact Hstep.
  - exact Hstep.
  - exact Hstep.
Qed.

Lemma start_while_started P handler cur alloc s :
  started (global s) = true ->
  start P handler cur alloc s =
    if assertions_fatal P then SFault s else SRet operation_not_permitted s.
Proof.
  intros Hs. unfold start, assert_passes. rewrite Hs.
  destruct (assertions_fatal P); reflexivity.
Qed.

Lemma stop_while_stopped P cur s :
  started (global s) = false ->
  stop P cur s = if assertions_fatal P then SFault s else SRet tt s.
Proof.
  intros Hs. unfold stop, assert_passes. rewrite Hs.
  destruct (assertions_fatal P); reflexivity.
Qed.

(** A successful [start()] is the one that went through the broadcast. *)
Lemma start_flag P handler cur alloc s :
  started (global s) = false ->
  (is_started (system_of (start P handler cur alloc s)) = true <->
   exists s', start P handler cur alloc s = SRet errc_success s') /\
  (forall s',
     start P handler cur alloc s = SRet errc_success s' ->
     exists a s2,
       alloc = Some a /\
       ipi_call (launch_closure P)
         (set_global s
            {| vcpu_list := Some (construct_vcpus P a handler (length (cpus s)));
               started := false |})
         = SRet tt s2 /\
       is_started s2 = false /\
       s' = set_global s2 {| vcpu_list := vcpu_list (global s2);
                             started := true |}).
Proof.
  intros Hs. unfold start, assert_passes, is_started. rewrite Hs.
  cbn [negb orb].
  destruct (bool_decide (vcpu_list (global s) = None) || negb (assertions_fatal P));
    cbn [negb].
  2:{ cbn [system_of]. rewrite Hs. split.
      - split; [discriminate|]. intros [s' H]. discriminate.
      - intros s' H. discriminate. }
  destruct alloc as [a|].
  2:{ cbn [system_of set_global global started]. split.
      - split; [discriminate|]. intros [s' H]. discriminate.
      - intros s' H. discriminate. }
  set (s1 := set_global s
               {| vcpu_list := Some (construct_vcpus P a handler (length (cpus s)));
                  started := false |}).
  destruct (cpus s1 !! cur) as [c|].
  2:{ cbn [system_of]. split.
      - split; [discriminate|]. intros [s' H]. discriminate.
      - intros s' H. discriminate. }
  destruct (check_cpu_features P c); cbn [negb].
  2:{ cbn [system_of]. split.
      - split; [discriminate|]. intros [s' H]. discriminate.
      - intros s' H. discriminate. }
  pose proof (ipi_call_from_started (launch_closure P) (length (cpus s1)) 0 s1)
    as Hflag.
  fold (ipi_call (launch_closure P) s1) in Hflag.
  destruct (ipi_call (launch_closure P) s1) as [[] s2|s2|s2] eqn:Hipi;
    cbn [system_of] in *; cbn [s1 set_global global started] in Hflag.
  - split.
    + split; [intros _; eexists; reflexivity|reflexivity].
    + intros s' H. injection H as <-. exists a, s2.
      split; [reflexivity|]. split; [exact Hipi|]. split; [exact Hflag|].
      reflexivity.
  - rewrite Hflag. split.
    + split; [discriminate|]. intros [s' H]. discriminate.
    + intros s' H. discriminate.
  - rewrite Hflag. split.
    + split; [discriminate|]. intros [s' H]. discriminate.
    + intros s' H. discriminate.
Qed.

(** The flag is cleared exactly when [stop()] runs to its end. *)
Lemma stop_flag P cur s :
  started (global s) = true ->
  (is_started (system_of (stop P cur s)) = false <->
   exists s', stop P cur s = SRet tt s') /\
  (forall s',
     stop P cur s = SRet tt s' ->
     vcpu_list (global s') = None /\
     exists s1, ipi_call (terminate_closure P) s = SRet tt s1).
Proof.
  intros Hs. unfold stop, assert_passes, is_started. rewrite Hs.
  cbn [negb orb].
  pose proof (ipi_call_from_started (terminate_closure P) (length (cpus s)) 0 s)
    as Hflag.
  fold (ipi_call (terminate_closure P) s) in Hflag.
  destruct (ipi_call (terminate_closure P) s) as [[] s1|s1|s1];
    cbn [system_of] in *.
  - unfold delete_vcpu_list.
    destruct (vcpu_list (global s1)) as [l|]; cbn [system_of].
    + rewrite Hflag, Hs. split.
      * split; [discriminate|]. intros [s' H]. discriminate.
      * intros s' H. discriminate.
    + split.
      * split; [intros _; eexists; reflexivity|reflexivity].
      * intros s' H. injection H as <-. split; [reflexivity|].
        eexists. reflexivity.
  - rewrite Hflag, Hs. split.
    + split; [discriminate|]. intros [s' H]. discriminate.
    + intros s' H. discriminate.
  - rewrite Hflag, Hs. split.
    + split; [discriminate|]. intros [s' H]. discriminate.
    + intros s' H. discriminate.
Qed.

Lemma hv_run_snoc P calls c s :
  hv_run P (calls ++ [c]) s = snd (hv_step P c (hv_run P calls s)).
Proof. unfold hv_run. rewrite foldl_app. reflexivity. Qed.

Lemma hv_step_system P c s :
  snd (hv_step P c s) =
    match c with
    | call_start handler cur alloc => system_of (start P handler cur alloc s)
    | call_stop cur => system_of (stop P cur s)
    end.
Proof.
  destruct c as [handler cur alloc|cur]; cbn [hv_step].
  - destruct (start P handler cur alloc s); reflexivity.
  - destruct (stop P cur s) as [[] ?|?|?]; reflexivity.
Qed.

Lemma started_needs_successful_start P calls s :
  is_started s = false ->
  is_started (hv_run P calls s) = true ->
  exists pre handler cur alloc post s',
    calls = pre ++ call_start handler cur alloc :: post /\
    start P handler cur alloc (hv_run P pre s) = SRet errc_success s'.
Proof.
  intros Hs. induction calls as [|c calls IH] using rev_ind.
  - cbn. intros H. congruence.
  - rewrite hv_run_snoc, hv_step_system. intros Hon.
    assert (Hprev : is_started (hv_run P calls s) = true ->
                    exists pre handler cur alloc post s',
                      calls ++ [c] = pre ++ call_start handler cur alloc :: post /\
                      start P handler cur alloc (hv_run P pre s)
                        = SRet errc_success s').
    { intros Hp. destruct (IH Hp) as (pre & h & cu & al & post & s' & -> & Hrun).
      exists pre, h, cu, al, (post ++ [c]), s'. split; [|exact Hrun].
      rewrite <- app_assoc. reflexivity. }
    destruct (is_started (hv_run P calls s)) eqn:Hst; [apply Hprev; reflexivity|].
    destruct c as [handler cur alloc|cur].
    + destruct (start_flag P handler cur alloc (hv_run P calls s) Hst)
        as [[Hto _] _].
      destruct (Hto Hon) as [s' Hrun].
      exists calls, handler, cur, alloc, [], s'. split; [reflexivity|exact Hrun].
    + rewrite stop_while_stopped in Hon by exact Hst.
      destruct (assertions_fatal P); cbn [system_of] in Hon; congruence.
Qed.

(** C7: while the orchestrator is started, [start()] changes nothing (it
    returns [operation_not_permitted], or stops on its assertion where
    assertions are fatal); while it is stopped, [stop()] changes nothing.
    From the stopped state the flag is true after [start()] exactly when
    [start()] returned success, and then the launch broadcast had
    returned with the flag still false.  From the started state the flag
    is false after [stop()] exactly when [stop()] returned.  So in any
    run of calls from a stopped orchestrator, a true flag means some
    [start()] of the run returned success. *)
Theorem started_flag_spec (P : platform) (s : system) :
  (forall handler cur alloc,
     is_started s = true ->
     system_of (start P handler cur alloc s) = s /\
     (assertions_fatal P = false ->
        start P handler cur alloc s = SRet operation_not_permitted s) /\
     (assertions_fatal P = true ->
        start P handler cur alloc s = SFault s)) /\
  (forall cur,
     is_started s = false ->
     system_of (stop P cur s) = s /\
     (assertions_fatal P = false -> stop P cur s = SRet tt s) /\
     (assertions_fatal P = true -> stop P cur s = SFault s)) /\
  (forall handler cur alloc,
     is_started s = false ->
     (is_started (system_of (start P handler cur alloc s)) = true <->
      exists s', start P handler cur alloc s = SRet errc_success s') /\
     (forall s',
        start P handler cur alloc s = SRet errc_success s' ->
        exists a s2,
          alloc = Some a /\
          ipi_call (launch_closure P)
            (set_global s
               {| vcpu_list :=
                    Some (construct_vcpus P a handler (length (cpus s)));
                  started := false |})
            = SRet tt s2 /\
          is_started s2 = false /\
          s' = set_global s2 {| vcpu_list := vcpu_list (global s2);
                                started := true |})) /\
  (forall cur,
     is_started s = true ->
     (is_started (system_of (stop P cur s)) = false <->
      exists s', stop P cur s = SRet tt s') /\
     (forall s',
        stop P cur s = SRet tt s' ->
        vcpu_list (global s') = None /\
        exists s1, ipi_call (terminate_closure P) s = SRet tt s1)) /\
  (forall calls,
     is_started s = false ->
     is_started (hv_run P calls s) = true ->
     exists pre handler cur alloc post s',
       calls = pre ++ call_start handler cur alloc :: post /\
       start P handler cur alloc (hv_run P pre s) = SRet errc_success s').
Proof.
  split.
  { intros handler cur alloc Hs.
    rewrite (start_while_started P handler cur alloc s Hs).
    destruct (assertions_fatal P); repeat split; try reflexivity; discriminate. }
  split.
  { intros cur Hs.
    rewrite (stop_while_stopped P cur s Hs).
    destruct (assertions_fatal P); repeat split; try reflexivity; discriminate. }
  split.
  { intros handler cur alloc Hs. apply start_flag. exact Hs. }
  split.
  { intros cur Hs. apply stop_flag. exact Hs. }
  intros calls. apply started_needs_successful_start.
Qed.

Lemma started_flag_spec_witness :
  (exists s',
     start release_platform 0 0 (Some sample_allocation) (idle_system good_cpu)
       = SRet errc_success s' /\
     is_started s' = true /\
     start release_platform 0 0 (Some sample_allocation) s'
       = SRet operation_not_permitted s') /\
  stop release_platform 0 (idle_system good_cpu)
    = SRet tt (idle_system good_cpu).
Proof.
  destruct (started_flag_spec release_platform (idle_system good_cpu))
    as (_ & Hstop & Hstart & _).
  split.
  - destruct (Hstart 0 0%nat (Some sample_allocation)) as [[_ Hfrom] _];
      [reflexivity|].
    assert (Hrun : start release_platform 0 0 (Some sample_allocation)
                         (idle_system good_cpu)
                   = SRet errc_success (started_system release_platform)).
    { unfold started_system. apply start_succeeded_system_of.
      vm_compute. reflexivity. }
    exists (started_system release_platform). split; [exact Hrun|].
    assert (Hon : is_started (started_system release_platform) = true).
    { unfold started_system at 1. apply Hfrom.
      exists (started_system release_platform). exact Hrun. }
    split; [exact Hon|].
    destruct (started_flag_spec release_platform
                (started_system release_platform)) as (Hagain & _).
    destruct (Hagain 0 0%nat (Some sample_allocation) Hon) as (_ & Hret & _).
    apply Hret. reflexivity.
  - destruct (Hstop 0%nat) as (_ & Hret & _); [reflexivity|].
    apply Hret. reflexivity.
Defined.

(** Cold boot and shutdown on the sample machine of four processors:
    [stop()] terminates the four virtual CPUs and then reaches the
    delete-expression with the flag still set. *)
Example cold_boot :
  is_started (started_system debug_platform) = true /\
  option_map (map state_) (vcpu_list (global (started_system debug_platform)))
    = Some [running; running; running; running].
Proof. split; vm_compute; reflexivity. Qed.

Example shutdown :
  let s := system_of (stop debug_platform 0 (started_system debug_platform)) in
  is_started s = true /\
  option_map (map state_) (vcpu_list (global s))
    = Some [terminated; terminated; terminated; terminated].
Proof. split; vm_compute; reflexivity. Qed.

(** ** The lifecycle state *)

Lemma avoids_unchanged {A} (m : M A) :
  (forall w, world_of (m w) = w) -> avoids_launching m.
Proof.
  intros Hm w. rewrite Hm. split; [|auto].
  exists []. split; [symmetry; apply app_nil_r|constructor].
Qed.

Lemma avoids_ret {A} (a : A) : avoids_launching (ret a).
Proof. apply avoids_unchanged. reflexivity. Qed.

Lemma avoids_get {A} (f : world -> A) : avoids_launching (get f).
Proof. apply avoids_unchanged. reflexivity. Qed.

Lemma avoids_undefined {A} : avoids_launching (@undefined A).
Proof. apply avoids_unchanged. reflexivity. Qed.

Lemma avoids_hvpp_assert P b : avoids_launching (hvpp_assert P b).
Proof.
  apply avoids_unchanged. intros w. unfold hvpp_assert.
  destruct b, (assertions_fatal P); reflexivity.
Qed.

Lemma avoids_modify_self f :
  (forall v, state_ v <> launching -> state_ (f v) <> launching) ->
  avoids_launching (modify_self f).
Proof.
  intros Hf w. split.
  - exists []. split; [symmetry; apply app_nil_r|constructor].
  - apply Hf.
Qed.

Lemma avoids_modify_cpu_log f e :
  (forall c, trace (f c) = trace c) ->
  e <> ev_state launching ->
  avoids_launching (modify_cpu (fun c => cpu_log (f c) e)).
Proof.
  intros Hf He w. split; [|auto].
  exists [e]. split.
  - cbn. rewrite Hf. reflexivity.
  - constructor; [exact He|constructor].
Qed.

Lemma avoids_log e : e <> ev_state launching -> avoids_launching (log e).
Proof.
  intros He. apply (avoids_modify_cpu_log (fun c => c));
    [reflexivity|exact He].
Qed.

Lemma avoids_bind {A B} (m : M A) (k : A -> M B) :
  avoids_launching m -> (forall a, avoids_launching (k a)) ->
  avoids_launching (bind m k).
Proof.
  intros Hm Hk w. destruct (Hm w) as ((new1 & H1 & Hq1) & Hs1).
  unfold bind. destruct (m w) as [a w1|w1|w1|w1]; cbn [world_of] in H1, Hs1.
  - destruct (Hk a w1) as ((new2 & H2 & Hq2) & Hs2). split.
    + exists (new1 ++ new2). split.
      * rewrite H2, H1, app_assoc. reflexivity.
      * apply Forall_app. split; assumption.
    + auto.
  - split; [exists new1; split; assumption|exact Hs1].
  - split; [exists new1; split; assumption|exact Hs1].
  - split; [exists new1; split; assumption|exact Hs1].
Qed.

Lemma avoids_write r v : avoids_launching (write r v).
Proof. apply avoids_modify_cpu_log; [reflexivity|discriminate]. Qed.

Lemma avoids_vmwrite f v : avoids_launching (vmwrite f v).
Proof. apply avoids_modify_cpu_log; [reflexivity|discriminate]. Qed.

Lemma avoids_assign_state s :
  s <> launching -> avoids_launching (assign_state s).
Proof.
  intros Hs. unfold assign_state.
  apply avoids_bind; [|intros _; apply avoids_log; congruence].
  apply avoids_modify_self. intros v _. exact Hs.
Qed.

Lemma avoids_vmx_vmlaunch : avoids_launching vmx_vmlaunch.
Proof.
  intros w. unfold vmx_vmlaunch.
  destruct (vmlaunch_succeeds (caps (cpu w))); cbn; (split; [|auto]).
  - exists [ev_vmlaunch true]. split; [reflexivity|].
    constructor; [discriminate|constructor].
  - exists [ev_vmlaunch false]. split; [reflexivity|].
    constructor; [discriminate|constructor].
Qed.

Lemma avoids_call_handler P (f : vmexit_handler -> M unit) :
  (forall id, avoids_launching (f (handler_at P id))) ->
  avoids_launching (call_handler P f).
Proof. intros H w. unfold call_handler. apply H. Qed.

Lemma avoids_read r : avoids_launching (read r).
Proof. apply avoids_get. Qed.

Lemma avoids_vmread f : avoids_launching (vmread f).
Proof. apply avoids_get. Qed.

Lemma avoids_vmx_off : avoids_launching vmx_off.
Proof. apply avoids_log. discriminate. Qed.

Lemma avoids_invvpid : avoids_launching vmx_invvpid_all_contexts.
Proof. apply avoids_log. discriminate. Qed.

Lemma avoids_invept : avoids_launching vmx_invept_all_contexts.
Proof. apply avoids_log. discriminate. Qed.

Lemma avoids_int3 : avoids_launching ia32_asm_int3.
Proof. apply avoids_log. discriminate. Qed.

Lemma avoids_guard_enter : avoids_launching allocator_guard_enter.
Proof. apply avoids_log. discriminate. Qed.

Lemma avoids_guard_leave : avoids_launching allocator_guard_leave.
Proof. apply avoids_log. discriminate. Qed.

Lemma avoids_log_other e :
  match e with ev_state _ => False | _ => True end ->
  avoids_launching (log e).
Proof.
  intros He. apply avoids_log. destruct e; try discriminate. contradiction.
Qed.

Create HintDb avoids_db.

#[local] Hint Resolve avoids_ret avoids_get avoids_undefined
  avoids_hvpp_assert avoids_write avoids_vmwrite avoids_read avoids_vmread
  avoids_vmx_off avoids_invvpid avoids_invept avoids_int3 avoids_guard_enter
  avoids_guard_leave avoids_vmx_vmlaunch avoids_bind : avoids_db.

#[local] Hint Extern 1 (avoids_launching (assign_state _)) =>
  apply avoids_assign_state; discriminate : avoids_db.
#[local] Hint Extern 1 (avoids_launching (log _)) =>
  apply avoids_log_other; exact I : avoids_db.
#[local] Hint Extern 1 (avoids_launching (modify_self _)) =>
  apply avoids_modify_self; intros ? ?; assumption : avoids_db.
#[local] Hint Extern 2 (avoids_launching (if ?b then _ else _)) =>
  destruct b : avoids_db.
#[local] Hint Extern 2 (avoids_launching (match ?x with _ => _ end)) =>
  destruct x : avoids_db.

Ltac avoids_walk := intros; auto 60 with avoids_db nocore.

Lemma avoids_advance_exit_rip : avoids_launching advance_exit_rip.
Proof.
  unfold advance_exit_rip, exit_instruction_length, set_exit_rip.
  avoids_walk.
Qed.

#[local] Hint Resolve avoids_advance_exit_rip : avoids_db.

Lemma avoids_terminate P : avoids_launching (terminate P).
Proof.
  unfold terminate, guest_gdtr, guest_idtr, guest_cr3, write_gdtr, write_idtr.
  avoids_walk.
Qed.

#[local] Hint Resolve avoids_terminate : avoids_db.

Lemma avoids_error P : avoids_launching (error P).
Proof. unfold error, exit_instruction_error. avoids_walk. Qed.

#[local] Hint Resolve avoids_error : avoids_db.

Lemma avoids_ept_disable : avoids_launching ept_disable.
Proof. unfold ept_disable. avoids_walk. Qed.

#[local] Hint Resolve avoids_ept_disable : avoids_db.

Lemma avoids_vmx_on pa : avoids_launching (vmx_on pa).
Proof. unfold vmx_on. avoids_walk. Qed.

Lemma avoids_vmx_vmclear pa : avoids_launching (vmx_vmclear pa).
Proof. unfold vmx_vmclear. avoids_walk. Qed.

Lemma avoids_vmx_vmptrld pa : avoids_launching (vmx_vmptrld pa).
Proof. unfold vmx_vmptrld. avoids_walk. Qed.

#[local] Hint Resolve avoids_vmx_on avoids_vmx_vmclear avoids_vmx_vmptrld
  : avoids_db.

Lemma avoids_load_vmxon P : avoids_launching (load_vmxon P).
Proof. unfold load_vmxon. avoids_walk. Qed.

Lemma avoids_load_vmcs P : avoids_launching (load_vmcs P).
Proof. unfold load_vmcs. avoids_walk. Qed.

Lemma avoids_setup_host P : avoids_launching (setup_host P).
Proof. unfold setup_host, read_gdtr, read_idtr. avoids_walk. Qed.

Lemma avoids_setup_guest P : avoids_launching (setup_guest P).
Proof. unfold setup_guest. avoids_walk. Qed.

#[local] Hint Resolve avoids_load_vmxon avoids_load_vmcs avoids_setup_host
  avoids_setup_guest : avoids_db.

Lemma avoids_fx_save : avoids_launching ia32_asm_fx_save.
Proof. unfold ia32_asm_fx_save. avoids_walk. Qed.

Lemma avoids_fx_restore : avoids_launching ia32_asm_fx_restore.
Proof.
  unfold ia32_asm_fx_restore.
  apply avoids_bind; [apply avoids_get|intros area].
  apply avoids_modify_cpu_log; [reflexivity|discriminate].
Qed.

#[local] Hint Resolve avoids_fx_save avoids_fx_restore : avoids_db.

Section Lifecycle.

Variable P : platform.
Hypothesis handlers_avoid :
  forall id, handler_avoids_launching (handler_at P id).

Lemma avoids_handler_setup : avoids_launching (call_handler P h_setup).
Proof. apply avoids_call_handler. intros id. apply handlers_avoid. Qed.

Lemma avoids_handler_handle : avoids_launching (call_handler P h_handle).
Proof. apply avoids_call_handler. intros id. apply handlers_avoid. Qed.

Lemma avoids_handler_termination :
  avoids_launching (call_handler P h_invoke_termination).
Proof. apply avoids_call_handler. intros id. apply handlers_avoid. Qed.

#[local] Hint Resolve avoids_handler_setup avoids_handler_handle
  avoids_handler_termination : avoids_db.

Lemma avoids_setup : avoids_launching (setup P).
Proof. unfold setup. avoids_walk. Qed.

Lemma avoids_launch_from c : avoids_launching (launch_from P c).
Proof.
  pose proof avoids_setup.
  unfold launch_from.
  destruct (vcpu_state_of_Z c) as [[]|]; avoids_walk.
Qed.

Lemma avoids_launch : avoids_launching (launch P).
Proof.
  intros w. unfold launch.
  destruct (avoids_launch_from 0 w) as ((new1 & H1 & Hq1) & Hs1).
  destruct (launch_from P 0 w) as [a w1|w1|w1|w1]; cbn [world_of] in H1, Hs1;
    try (split; [exists new1; split; assumption|exact Hs1]).
  rewrite entry_guest_sets_sentinel.
  set (w2 := {| self := _; cpu := cpu w1 |}).
  destruct (avoids_launch_from (rax (guest_context_ (self w2))) w2)
    as ((new2 & H2 & Hq2) & Hs2).
  split.
  - exists (new1 ++ new2). split.
    + rewrite H2. unfold w2. cbn [cpu]. rewrite H1, app_assoc. reflexivity.
    + apply Forall_app. split; assumption.
  - intros Hw. apply Hs2. unfold w2. fields. apply Hs1. exact Hw.
Qed.

Lemma avoids_entry_host : avoids_launching (entry_host P).
Proof.
  unfold entry_host, guest_rsp, guest_rip, guest_rflags,
    exit_instruction_length, set_exit_rsp, set_exit_rip, set_exit_rflags.
  avoids_walk.
Qed.

Lemma avoids_vcpu_t_dtor : avoids_launching (vcpu_t_dtor P).
Proof. unfold vcpu_t_dtor. avoids_walk. Qed.

End Lifecycle.

Lemma assigned_states_app t1 t2 :
  assigned_states (t1 ++ t2) = assigned_states t1 ++ assigned_states t2.
Proof. unfold assigned_states. apply omap_app. Qed.

Lemma vmcall_handler_avoids fatal :
  handler_avoids_launching (vmcall_handler fatal).
Proof.
  unfold vmcall_handler.
  split; [|split]; cbn [h_setup h_handle h_invoke_termination].
  - apply avoids_ret.
  - apply avoids_terminate.
  - apply avoids_entry_host. intros id. cbn [handler_at sample_platform].
    split; [|split]; cbn [h_setup h_handle h_invoke_termination];
      first [apply avoids_ret | apply avoids_terminate].
Qed.

Lemma launch_history P w w1 w2 :
  setup_before_handler P w = Ret tt w1 ->
  h_setup (handler_at P (handler_ (self w1))) w1 = Ret tt w2 ->
  vmlaunch_succeeds (caps (cpu w2)) = true ->
  exists w',
    launch P w = Ret tt w' /\
    state_ (self w') = running /\
    assigned_states (trace (cpu w'))
      = assigned_states (trace (cpu w2)) ++ [running].
Proof.
  intros Hpre Hh Hlaunch.
  eexists. split; [apply (launch_returns_running P w w1 w2); assumption|].
  fields. split; [reflexivity|].
  rewrite !assigned_states_app. cbn [assigned_states omap].
  rewrite app_nil_r. reflexivity.
Qed.

Lemma terminate_history P w :
  state_ (self w) <> off -> state_ (self w) <> terminated ->
  exists w',
    terminate P w = Ret tt w' /\
    state_ (self w') = terminated /\
    assigned_states (trace (cpu w'))
      = assigned_states (trace (cpu w)) ++ [terminated].
Proof.
  intros Hoff Hterm. eexists. split; [apply terminate_legal; assumption|].
  fields. split; [reflexivity|].
  rewrite assigned_states_app. reflexivity.
Qed.

Lemma vcpu_t_dtor_to_handler P w :
  vcpu_t_dtor P w =
    match h_invoke_termination (handler_at P (handler_ (self w)))
            {| self := set_state_ (self w) terminating;
               cpu := cpu_log (cpu w) (ev_state terminating) |} with
    | Ret _ wh => ept_disable wh
    | Fault wh => Fault wh
    | Undef wh => Undef wh
    | Guest wh => Guest wh
    end.
Proof. destruct w as [v c]. destruct v, c. reflexivity. Qed.

Lemma ept_disable_history w :
  exists w1,
    ept_disable w = Ret tt w1 /\
    state_ (self w1) = state_ (self w) /\
    assigned_states (trace (cpu w1)) = assigned_states (trace (cpu w)).
Proof.
  unfold ept_disable. rewrite bind_get.
  destruct (ept_ (self w)) as [l|].
  - eexists. split; [reflexivity|]. split; [reflexivity|].
    cbn [cpu cpu_log trace]. rewrite assigned_states_app.
    cbn [assigned_states omap]. apply app_nil_r.
  - exists w. repeat split.
Qed.

(** The destructor from any state: the callback is handed the state
    [terminating], and what follows the callback assigns nothing. *)
Lemma vcpu_t_dtor_history P w wh :
  h_invoke_termination (handler_at P (handler_ (self w)))
    (vcpu_t_dtor_at_handler w) = Ret tt wh ->
  state_ (self (vcpu_t_dtor_at_handler w)) = terminating /\
  assigned_states (trace (cpu (vcpu_t_dtor_at_handler w)))
    = assigned_states (trace (cpu w)) ++ [terminating] /\
  exists w',
    vcpu_t_dtor P w = Ret tt w' /\
    state_ (self w') = state_ (self wh) /\
    assigned_states (trace (cpu w')) = assigned_states (trace (cpu wh)).
Proof.
  intros Hh. split; [reflexivity|]. split.
  - unfold vcpu_t_dtor_at_handler. cbn [cpu cpu_log trace].
    rewrite assigned_states_app. reflexivity.
  - rewrite vcpu_t_dtor_to_handler.
    unfold vcpu_t_dtor_at_handler in Hh. rewrite Hh.
    apply ept_disable_history.
Qed.

(** The destructor with a handler whose termination notice raises an
    exit, dispatched by [entry_host()] of the build [Q], whose exit
    callback calls [terminate()]. *)
Lemma vcpu_t_dtor_through_exit P Q w :
  (forall id u, h_invoke_termination (handler_at P id) u = entry_host Q u) ->
  (forall id u, h_handle (handler_at Q id) u = terminate Q u) ->
  exists w',
    vcpu_t_dtor P w = Ret tt w' /\
    state_ (self w') = terminated /\
    assigned_states (trace (cpu w'))
      = assigned_states (trace (cpu w)) ++ [terminating; terminated].
Proof.
  intros Hnotice Hexit.
  set (wt := vcpu_t_dtor_at_handler w).
  destruct (terminate_history Q (entry_host_at_handler wt))
    as (wh & Hterm & Hst & Hhist).
  { destruct w as [v c]. destruct v, c. discriminate. }
  { destruct w as [v c]. destruct v, c. discriminate. }
  assert (Hhandle : h_handle (handler_at Q (handler_ (self wt)))
                             (entry_host_at_handler wt) = Ret tt wh)
    by (rewrite Hexit; exact Hterm).
  pose proof (entry_host_terminated Q wt wh Hhandle Hst) as Hdispatch.
  rewrite <- Hnotice with (id := handler_ (self w)) in Hdispatch.
  destruct (vcpu_t_dtor_history P w _ Hdispatch)
    as (_ & Hgiven & w' & Hrun & Hst' & Hhist').
  exists w'. split; [exact Hrun|]. split; [rewrite Hst'; exact Hst|].
  rewrite Hhist'. cbn [cpu trace].
  rewrite assigned_states_app, Hhist.
  assert (Hsame : assigned_states (trace (cpu (entry_host_at_handler wt)))
                  = assigned_states (trace (cpu wt))).
  { unfold entry_host_at_handler. cbn [cpu cpu_log trace].
    rewrite !assigned_states_app. cbn [assigned_states omap].
    rewrite !app_nil_r. reflexivity. }
  rewrite Hsame. fold wt in Hgiven. rewrite Hgiven.
  cbn [assigned_states omap]. rewrite app_nil_r, <- app_assoc. reflexivity.
Qed.




(** * Further properties of the code *)

(** ** The translation contexts *)

Lemma map_seq_lookup {A} (f : nat -> A) s n i :
  (i < n)%nat -> map f (seq s n) !! i = Some (f (s + i)%nat).
Proof.
  revert s i. induction n as [|n IH]; intros s i Hi; [lia|].
  destruct i as [|i]; cbn [seq map].
  - rewrite Nat.add_0_r. reflexivity.
  - change ((f s :: map f (seq (S s) n)) !! S i)
      with (map f (seq (S s) n) !! i).
    rewrite IH by lia. f_equal. f_equal. lia.
Qed.

Lemma new_ept_array_length P count : length (new_ept_array P count) = count.
Proof. unfold new_ept_array. rewrite length_map, length_seq. reflexivity. Qed.

Lemma new_ept_array_lookup P count i :
  (i < count)%nat ->
  new_ept_array P count !! i = Some {| ept_pointer_of := new_ept_pointer P i |}.
Proof. intros Hi. unfold new_ept_array. rewrite map_seq_lookup by exact Hi. reflexivity. Qed.

Lemma uint16_small n : Z.of_nat n < 2 ^ 16 -> uint16 n = n.
Proof.
  intros H. unfold uint16. rewrite Z.mod_small by lia. apply Nat2Z.id.
Qed.

Lemma ept_enable_runs P w count :
  ept_ (self w) = None ->
  (0 < count)%nat ->
  Z.of_nat count < 2 ^ 16 ->
  ept_enable P count true w =
    Ret tt
      {| self :=
           set_ept_index_
             (set_ept_count_
                (set_ept_ (self w) (Some (new_ept_array P count))) count) 0;
         cpu :=
           {| regs := regs (cpu w);
              vmcs :=
                upd (upd (vmcs (cpu w)) f_processor_based_controls2
                       (Z.setbit (vmcs (cpu w) f_processor_based_controls2)
                                 procbased2_enable_ept_bit))
                    f_ept_pointer (new_ept_pointer P 0);
              caps := caps (cpu w);
              trace :=
                trace (cpu w) ++
                [ev_new_ept count;
                 ev_vmwrite f_processor_based_controls2
                   (Z.setbit (vmcs (cpu w) f_processor_based_controls2)
                             procbased2_enable_ept_bit);
                 ev_vmwrite f_ept_pointer (new_ept_pointer P 0)] |} |}.
Proof.
  intros Hnull Hcount Hfits. open_world w. subst.
  unfold ept_enable. cbv zeta. rewrite !uint16_small by exact Hfits.
  rewrite bind_get. fields.
  rewrite bool_decide_eq_true_2 by reflexivity.
  rewrite bool_decide_eq_true_2 by exact Hcount.
  cbn [andb]. unfold bind at 1. rewrite hvpp_assert_true.
  exec.
  match goal with
  | |- ept_index P 0 ?W = _ =>
      destruct (ept_index_selects P W 0 (new_ept_array P count))
        as (e & He & Hrun);
        [reflexivity | apply new_ept_array_length | exact Hcount |]
  end.
  rewrite new_ept_array_lookup in He by exact Hcount.
  injection He as <-. rewrite Hrun. cbn [ept_pointer_of]. exec.
  repeat rewrite <- app_assoc. reflexivity.
Qed.

(** The allocation fails: the null pointer and the count are stored, the
    control bit is set, and [ept_index(0)] reads through the null
    pointer. *)
Lemma ept_enable_unallocated P w count :
  ept_ (self w) = None ->
  (0 < count)%nat ->
  Z.of_nat count < 2 ^ 16 ->
  ept_enable P count false w =
    Undef
      {| self := set_ept_count_ (set_ept_ (self w) None) count;
         cpu :=
           {| regs := regs (cpu w);
              vmcs :=
                upd (vmcs (cpu w)) f_processor_based_controls2
                    (Z.setbit (vmcs (cpu w) f_processor_based_controls2)
                              procbased2_enable_ept_bit);
              caps := caps (cpu w);
              trace :=
                trace (cpu w) ++
                [ev_vmwrite f_processor_based_controls2
                   (Z.setbit (vmcs (cpu w) f_processor_based_controls2)
                             procbased2_enable_ept_bit)] |} |}.
Proof.
  intros Hnull Hcount Hfits. open_world w. subst.
  unfold ept_enable. cbv zeta. rewrite !uint16_small by exact Hfits.
  rewrite bind_get. fields.
  rewrite bool_decide_eq_true_2 by reflexivity.
  rewrite bool_decide_eq_true_2 by exact Hcount.
  cbn [andb]. unfold bind at 1. rewrite hvpp_assert_true.
  exec.
  rewrite ept_index_null by (fields; first [exact Hcount | reflexivity]).
  reflexivity.
Qed.

Lemma ept_enable_rejected P w count allocated :
  ept_ (self w) <> None \/ uint16 count = 0%nat ->
  assertions_fatal P = true ->
  ept_enable P count allocated w = Fault w.
Proof.
  intros Hbad Hfatal. unfold ept_enable. cbv zeta. rewrite bind_get.
  assert (Hfail : bool_decide (ept_ (self w) = None)
                  && bool_decide (0 < uint16 count)%nat = false).
  { destruct Hbad as [Hset|Hzero].
    - rewrite bool_decide_eq_false_2 by exact Hset. reflexivity.
    - rewrite (bool_decide_eq_false_2 (0 < uint16 count)%nat) by lia.
      apply andb_false_r. }
  rewrite Hfail. unfold bind at 1.
  rewrite hvpp_assert_false_fatal by exact Hfatal. reflexivity.
Qed.

Lemma ept_selects P w i l :
  ept_ (self w) = Some l ->
  length l = ept_count_ (self w) ->
  (i < ept_count_ (self w))%nat ->
  exists e, l !! i = Some e /\ ept P i w = Ret e w.
Proof.
  intros Harr Hlen Hi.
  destruct (lookup_lt_is_Some_2 l i) as [e He]; [lia|].
  exists e. split; [exact He|].
  unfold ept. rewrite bind_get.
  rewrite bool_decide_eq_true_2 by lia.
  unfold bind at 1. rewrite hvpp_assert_true.
  rewrite bind_get, Harr, He. reflexivity.
Qed.

(** X1: [ept_enable(count)] on a virtual CPU whose translation contexts
    are disabled, for a count from 1 to 65535.  When [new ept_t[count]]
    succeeds, the call returns after allocating [count] instances,
    recording the count, setting the enable-EPT bit of the secondary
    processor-based controls (all other bits kept) and selecting
    instance 0, whose pointer is written to the EPT-pointer field; the
    array then holds exactly [ept_count_] instances and the lifecycle
    state is untouched.  When the allocation yields null, the result is
    not checked: the null pointer and the count are stored, the control
    bit is set, and the selection of instance 0 reads through the null
    pointer, so the call does not return.  Where assertions are fatal, a
    call on an enabled virtual CPU or with a count of 0 stops on the
    assertion and changes nothing, whatever the allocation would have
    done. *)
Theorem ept_enable_spec (P : platform) (w : world) (count : nat) :
  (ept_ (self w) = None ->
   (0 < count)%nat ->
   Z.of_nat count < 2 ^ 16 ->
   (exists w',
      ept_enable P count true w = Ret tt w' /\
      ept_ (self w') = Some (new_ept_array P count) /\
      length (new_ept_array P count) = ept_count_ (self w') /\
      ept_count_ (self w') = count /\
      ept_index_ (self w') = 0%nat /\
      vmcs (cpu w') f_ept_pointer = new_ept_pointer P 0 /\
      Z.testbit (vmcs (cpu w') f_processor_based_controls2)
                procbased2_enable_ept_bit = true /\
      (forall n, 0 <= n -> n <> procbased2_enable_ept_bit ->
         Z.testbit (vmcs (cpu w') f_processor_based_controls2) n
           = Z.testbit (vmcs (cpu w) f_processor_based_controls2) n) /\
      state_ (self w') = state_ (self w) /\
      regs (cpu w') = regs (cpu w) /\
      trace (cpu w') =
        trace (cpu w) ++
        [ev_new_ept count;
         ev_vmwrite f_processor_based_controls2
           (Z.setbit (vmcs (cpu w) f_processor_based_controls2)
                     procbased2_enable_ept_bit);
         ev_vmwrite f_ept_pointer (new_ept_pointer P 0)]) /\
   (exists w',
      ept_enable P count false w = Undef w' /\
      ept_ (self w') = None /\
      ept_count_ (self w') = count /\
      ept_index_ (self w') = ept_index_ (self w) /\
      Z.testbit (vmcs (cpu w') f_processor_based_controls2)
                procbased2_enable_ept_bit = true /\
      vmcs (cpu w') f_ept_pointer = vmcs (cpu w) f_ept_pointer /\
      trace (cpu w') =
        trace (cpu w) ++
        [ev_vmwrite f_processor_based_controls2
           (Z.setbit (vmcs (cpu w) f_processor_based_controls2)
                     procbased2_enable_ept_bit)])) /\
  (forall allocated,
     ept_ (self w) <> None \/ uint16 count = 0%nat ->
     assertions_fatal P = true ->
     ept_enable P count allocated w = Fault w).
Proof.
  split; [|intros allocated; apply ept_enable_rejected].
  intros Hnull Hcount Hfits. split.
  - eexists.
    split; [apply ept_enable_runs; assumption|].
    fields. upd_simpl.
    split; [reflexivity|]. split; [apply new_ept_array_length|].
    split; [reflexivity|]. split; [reflexivity|]. split; [reflexivity|].
    split; [apply Z.setbit_eq; unfold procbased2_enable_ept_bit; lia|].
    split; [intros n Hn Hne; apply Z.setbit_neq;
            [unfold procbased2_enable_ept_bit; lia | congruence]|].
    repeat split.
  - eexists.
    split; [apply ept_enable_unallocated; assumption|].
    fields. upd_simpl.
    split; [reflexivity|]. split; [reflexivity|]. split; [reflexivity|].
    split; [apply Z.setbit_eq; unfold procbased2_enable_ept_bit; lia|].
    split; reflexivity.
Qed.

Lemma ept_enable_spec_witness :
  (exists w',
     ept_enable debug_platform 2 true (fresh_world good_cpu) = Ret tt w' /\
     ept_count_ (self w') = 2%nat /\
     vmcs (cpu w') f_ept_pointer = 0x100000) /\
  (exists w',
     ept_enable debug_platform 2 false (fresh_world good_cpu) = Undef w' /\
     ept_ (self w') = None /\
     ept_count_ (self w') = 2%nat) /\
  ept_enable debug_platform 2 true enabled_world = Fault enabled_world.
Proof.
  destruct (proj1 (ept_enable_spec debug_platform (fresh_world good_cpu) 2))
    as [(w1 & Hrun1 & _ & _ & Hcount1 & _ & Hptr & _)
        (w2 & Hrun2 & Hnull & Hcount2 & _)].
  - reflexivity.
  - lia.
  - lia.
  - split; [exists w1; split; [exact Hrun1|]; split; [exact Hcount1|exact Hptr]|].
    split; [exists w2; split; [exact Hrun2|]; split; [exact Hnull|exact Hcount2]|].
    apply (proj2 (ept_enable_spec debug_platform enabled_world 2)).
    + left. vm_compute. discriminate.
    + reflexivity.
Defined.

(** X2: once [ept_enable(count)] has returned, its allocation having
    succeeded, every index below the count designates an instance:
    [ept(i)] returns it without changing anything, and [ept_index(i)]
    makes it the active one, writing the pointer of that very instance to
    the EPT-pointer field. *)
Theorem ept_enable_then_select (P : platform) (w : world) (count i : nat) :
  ept_ (self w) = None ->
  (i < count)%nat ->
  Z.of_nat count < 2 ^ 16 ->
  exists w1 w2 e,
    ept_enable P count true w = Ret tt w1 /\
    ept P i w1 = Ret e w1 /\
    ept_pointer_of e = new_ept_pointer P i /\
    ept_index P i w1 = Ret tt w2 /\
    vmcs (cpu w2) f_ept_pointer = ept_pointer_of e /\
    ept_index_ (self w2) = i /\
    ept_ (self w2) = ept_ (self w1) /\
    ept_count_ (self w2) = count.
Proof.
  intros Hnull Hi Hfits.
  assert (Hcount : (0 < count)%nat) by lia.
  pose proof (ept_enable_runs P w count Hnull Hcount Hfits) as Hrun.
  match type of Hrun with _ = Ret tt ?W => set (w1 := W) in * end.
  assert (Harr : ept_ (self w1) = Some (new_ept_array P count)) by reflexivity.
  assert (Hlen : length (new_ept_array P count) = ept_count_ (self w1))
    by apply new_ept_array_length.
  assert (Hlt : (i < ept_count_ (self w1))%nat) by exact Hi.
  destruct (ept_selects P w1 i _ Harr Hlen Hlt) as (e & He & Hept).
  destruct (ept_index_selects P w1 i _ Harr Hlen Hlt) as (e' & He' & Hsel).
  assert (e' = e) by congruence. subst e'.
  rewrite new_ept_array_lookup in He by exact Hi. injection He as <-.
  exists w1. eexists. eexists.
  split; [exact Hrun|]. split; [exact Hept|]. split; [reflexivity|].
  split; [exact Hsel|].
  fields. upd_simpl. repeat split.
Qed.

Lemma ept_enable_then_select_witness :
  exists w1 w2,
    ept_enable debug_platform 2 true (fresh_world good_cpu) = Ret tt w1 /\
    ept_index debug_platform 1 w1 = Ret tt w2 /\
    vmcs (cpu w2) f_ept_pointer = 0x101000.
Proof.
  destruct (ept_enable_then_select debug_platform (fresh_world good_cpu) 2 1)
    as (w1 & w2 & e & Hrun & _ & He & Hsel & Hptr & _).
  - reflexivity.
  - lia.
  - lia.
  - exists w1, w2. split; [exact Hrun|]. split; [exact Hsel|].
    rewrite Hptr, He. reflexivity.
Defined.

(** X3: [ept_disable()] followed by [ept_enable(count)], for a count
    from 1 to 65535, from every state of the translation contexts: the
    old array, if any, is released first.  When the new allocation
    succeeds the call returns, and array and count agree again, with
    instance 0 active.  When it yields null, the virtual CPU is left with
    the null pointer and the new count, and the call does not return. *)
Theorem ept_disable_then_enable (P : platform) (w : world) (count : nat) :
  (0 < count)%nat ->
  Z.of_nat count < 2 ^ 16 ->
  exists w1,
    ept_disable w = Ret tt w1 /\
    trace (cpu w1) =
      trace (cpu w)
      ++ match ept_ (self w) with Some _ => [ev_delete_ept] | None => [] end /\
    (exists w2,
       ept_enable P count true w1 = Ret tt w2 /\
       ept_ (self w2) = Some (new_ept_array P count) /\
       length (new_ept_array P count) = ept_count_ (self w2) /\
       ept_index_ (self w2) = 0%nat /\
       vmcs (cpu w2) f_ept_pointer = new_ept_pointer P 0 /\
       trace (cpu w2) =
         trace (cpu w1)
         ++ [ev_new_ept count;
             ev_vmwrite f_processor_based_controls2
               (Z.setbit (vmcs (cpu w) f_processor_based_controls2)
                         procbased2_enable_ept_bit);
             ev_vmwrite f_ept_pointer (new_ept_pointer P 0)]) /\
    (exists w2,
       ept_enable P count false w1 = Undef w2 /\
       ept_ (self w2) = None /\
       ept_count_ (self w2) = count).
Proof.
  intros Hcount Hfits.
  assert (Hdis : exists w1,
            ept_disable w = Ret tt w1 /\ ept_ (self w1) = None /\
            vmcs (cpu w1) = vmcs (cpu w) /\
            trace (cpu w1) =
              trace (cpu w)
              ++ match ept_ (self w) with
                 | Some _ => [ev_delete_ept]
                 | None => []
                 end).
  { unfold ept_disable. rewrite bind_get.
    destruct (ept_ (self w)) as [l|] eqn:E.
    - eexists. split; [reflexivity|]. repeat split.
    - exists w. split; [reflexivity|]. split; [exact E|].
      split; [reflexivity|]. rewrite app_nil_r. reflexivity. }
  destruct Hdis as (w1 & Hrun1 & Hnull & Hvmcs & Htrace).
  exists w1. split; [exact Hrun1|]. split; [exact Htrace|]. split.
  - eexists. split; [apply ept_enable_runs; assumption|].
    fields. upd_simpl.
    split; [reflexivity|]. split; [apply new_ept_array_length|].
    split; [reflexivity|]. split; [reflexivity|].
    rewrite Hvmcs. reflexivity.
  - eexists. split; [apply ept_enable_unallocated; assumption|].
    fields. split; reflexivity.
Qed.

Lemma ept_disable_then_enable_witness :
  exists w1 w2,
    ept_disable enabled_world = Ret tt w1 /\
    ept_enable debug_platform 3 true w1 = Ret tt w2 /\
    ept_ (self w2) = Some (new_ept_array debug_platform 3) /\
    ept_index debug_platform 2 w2
      = Ret tt (world_of (ept_index debug_platform 2 w2)).
Proof.
  destruct (ept_disable_then_enable debug_platform enabled_world 3)
    as (w1 & Hdis & _ & (w2 & Hen & Harr & Hlen & _) & _); [lia|lia|].
  exists w1, w2. split; [exact Hdis|]. split; [exact Hen|].
  split; [exact Harr|].
  destruct (ept_index_selects debug_platform w2 2 _ Harr Hlen)
    as (e & _ & Hsel).
  - rewrite <- Hlen. vm_compute. lia.
  - rewrite Hsel. reflexivity.
Defined.

(** ** The destructor *)

(** X4: the destructor first records the state [terminating], then
    gives the virtual CPU to the handler's termination callback; when the
    callback returns, the only thing the destructor still does is release
    the translation contexts, so it returns with the array pointer null
    and everything else as the callback left it.  It executes no VMX
    instruction of its own: leaving VMX operation is the callback's
    business. *)
Theorem vcpu_t_dtor_spec (P : platform) (w wh : world) :
  h_invoke_termination (handler_at P (handler_ (self w)))
    {| self := set_state_ (self w) terminating;
       cpu := cpu_log (cpu w) (ev_state terminating) |} = Ret tt wh ->
  exists w',
    vcpu_t_dtor P w = Ret tt w' /\
    ept_ (self w') = None /\
    state_ (self w') = state_ (self wh) /\
    ept_count_ (self w') = ept_count_ (self wh) /\
    regs (cpu w') = regs (cpu wh) /\
    vmcs (cpu w') = vmcs (cpu wh) /\
    trace (cpu w') =
      trace (cpu wh)
      ++ match ept_ (self wh) with Some _ => [ev_delete_ept] | None => [] end.
Proof.
  intros Hh. rewrite vcpu_t_dtor_to_handler, Hh.
  unfold ept_disable. rewrite bind_get.
  destruct (ept_ (self wh)) as [l|] eqn:E.
  - eexists. split; [reflexivity|]. repeat split.
  - exists wh. split; [reflexivity|]. split; [exact E|].
    rewrite app_nil_r. repeat split.
Qed.

Lemma vcpu_t_dtor_spec_witness :
  exists w',
    vcpu_t_dtor idle_platform enabled_world = Ret tt w' /\
    ept_ (self w') = None /\
    state_ (self w') = terminating /\
    trace (cpu w') = trace (cpu enabled_world)
                     ++ [ev_state terminating; ev_delete_ept].
Proof.
  destruct (vcpu_t_dtor_spec idle_platform enabled_world
              {| self := set_state_ (self enabled_world) terminating;
                 cpu := cpu_log (cpu enabled_world) (ev_state terminating) |})
    as (w' & Hrun & Hnull & Hst & _ & _ & _ & Htrace).
  - reflexivity.
  - exists w'. split; [exact Hrun|]. split; [exact Hnull|].
    split; [exact Hst|]. rewrite Htrace. vm_compute. reflexivity.
Defined.

(** ** Failures of the bring-up *)

Lemma error_runs P w :
  state_ (self w) <> off -> state_ (self w) <> terminated ->
  error P w =
    Ret tt
      {| self :=
           set_state_
             (set_exit_context_ (self w)
                (ctx_set_rip (exit_context_ (self w))
                   (wrap64 (rip (exit_context_ (self w))
                            + vmcs (cpu w) f_exit_instruction_length))))
             terminated;
         cpu :=
           {| regs :=
                upd (upd (upd (upd (upd (upd (regs (cpu w))
                  GDTR_BASE (vmcs (cpu w) f_guest_gdtr_base))
                  GDTR_LIMIT (vmcs (cpu w) f_guest_gdtr_limit))
                  IDTR_BASE (vmcs (cpu w) f_guest_idtr_base))
                  IDTR_LIMIT (vmcs (cpu w) f_guest_idtr_limit))
                  CR3 (vmcs (cpu w) f_guest_cr3))
                  CR4 (Z.clearbit (regs (cpu w) CR4) cr4_vmx_enable_bit);
              vmcs := vmcs (cpu w);
              caps := caps (cpu w);
              trace := trace (cpu w) ++ error_events (cpu w) |} |}.
Proof.
  intros Hoff Hterm. open_world w. unfold error. exec.
  rewrite terminate_legal by (fields; assumption).
  exec. unfold error_events, terminate_events. exec.
  repeat rewrite <- app_assoc. reflexivity.
Qed.

Lemma error_legal P w :
  state_ (self w) <> off -> state_ (self w) <> terminated ->
  exists w',
    error P w = Ret tt w' /\
    state_ (self w') = terminated /\
    Z.testbit (regs (cpu w') CR4) cr4_vmx_enable_bit = false /\
    caps (cpu w') = caps (cpu w) /\
    trace (cpu w') = trace (cpu w) ++ error_events (cpu w).
Proof.
  intros Hoff Hterm. open_world w. unfold error. exec.
  rewrite terminate_legal by (fields; assumption).
  eexists. split; [reflexivity|]. fields. upd_simpl.
  split; [reflexivity|]. split; [apply Z.clearbit_eq|].
  split; [reflexivity|].
  unfold error_events, terminate_events. fields.
  repeat rewrite <- app_assoc. reflexivity.
Qed.

Lemma error_illegal P w :
  state_ (self w) = off \/ state_ (self w) = terminated ->
  assertions_fatal P = true ->
  error P w =
    Fault {| self := self w;
             cpu := cpu_log (cpu_log (cpu w)
                       (ev_hvpp_error (vmcs (cpu w) f_exit_instruction_error)))
                     ev_int3 |}.
Proof.
  intros Hst Hfatal. open_world w. unfold error. exec.
  rewrite terminate_illegal by (fields; assumption). reflexivity.
Qed.

Lemma setup_reaches_error P w w1 w2 :
  setup_before_handler P w = Ret tt w1 ->
  h_setup (handler_at P (handler_ (self w1))) w1 = Ret tt w2 ->
  vmlaunch_succeeds (caps (cpu w2)) = false ->
  setup P w =
    error P {| self := self w2; cpu := cpu_log (cpu w2) (ev_vmlaunch false) |}.
Proof.
  intros Hpre Hh Hlaunch.
  unfold setup_before_handler in Hpre.
  apply bind_Ret_inv in Hpre. destruct Hpre as (u1 & a & H1 & Hpre).
  apply bind_Ret_inv in Hpre. destruct Hpre as (u2 & b & H2 & Hpre).
  apply bind_Ret_inv in Hpre. destruct Hpre as (u3 & c & H3 & H4).
  unfold setup.
  rewrite (bind_Ret _ _ _ _ _ H1), (bind_Ret _ _ _ _ _ H2),
    (bind_Ret _ _ _ _ _ H3), (bind_Ret _ _ _ _ _ H4).
  unfold bind at 1. unfold call_handler. rewrite Hh.
  unfold bind, vmx_vmlaunch. rewrite Hlaunch. reflexivity.
Qed.

Lemma launch_of_returning_setup P w w' :
  setup P w = Ret tt w' -> launch P w = Ret tt w'.
Proof. intros H. unfold launch. rewrite launch_from_off, H. reflexivity. Qed.

Lemma launch_of_faulting_setup P w w' :
  setup P w = Fault w' -> launch P w = Fault w'.
Proof. intros H. unfold launch. rewrite launch_from_off, H. reflexivity. Qed.

Lemma launch_vmlaunch_fails P w w1 w2 :
  setup_before_handler P w = Ret tt w1 ->
  h_setup (handler_at P (handler_ (self w1))) w1 = Ret tt w2 ->
  vmlaunch_succeeds (caps (cpu w2)) = false ->
  state_ (self w2) <> off ->
  state_ (self w2) <> terminated ->
  exists w',
    launch P w = Ret tt w' /\
    state_ (self w') = terminated /\
    Z.testbit (regs (cpu w') CR4) cr4_vmx_enable_bit = false /\
    caps (cpu w') = caps (cpu w2) /\
    trace (cpu w') =
      trace (cpu w2) ++ ev_vmlaunch false :: error_events (cpu w2).
Proof.
  intros Hpre Hh Hlaunch Hoff Hterm.
  pose proof (setup_reaches_error P w w1 w2 Hpre Hh Hlaunch) as Hsetup.
  destruct (error_legal P {| self := self w2;
                             cpu := cpu_log (cpu w2) (ev_vmlaunch false) |})
    as (w' & Hrun & Hst & Hcr4 & Hcaps & Htrace); [exact Hoff|exact Hterm|].
  exists w'. split.
  - apply launch_of_returning_setup. rewrite Hsetup. exact Hrun.
  - split; [exact Hst|]. split; [exact Hcr4|]. split; [exact Hcaps|].
    rewrite Htrace. destruct w2 as [v2 c2]. destruct c2.
    cbn [self cpu cpu_log trace]. rewrite <- app_assoc. reflexivity.
Qed.

(** X5: when VMLAUNCH fails, [launch()] does not reach the guest but
    comes back to its caller: [setup()] runs [error()], which reports the
    instruction error, raises the breakpoint and calls [terminate()].  The
    virtual CPU is then [terminated], VMXOFF has been executed and
    CR4.VMXE is clear; the state [running] has never been assigned. *)
Theorem launch_vmlaunch_failure (P : platform) (w w1 w2 : world) :
  setup_before_handler P w = Ret tt w1 ->
  h_setup (handler_at P (handler_ (self w1))) w1 = Ret tt w2 ->
  vmlaunch_succeeds (caps (cpu w2)) = false ->
  state_ (self w2) <> off ->
  state_ (self w2) <> terminated ->
  exists w',
    launch P w = Ret tt w' /\
    state_ (self w') = terminated /\
    Z.testbit (regs (cpu w') CR4) cr4_vmx_enable_bit = false /\
    trace (cpu w') =
      trace (cpu w2) ++ ev_vmlaunch false :: error_events (cpu w2) /\
    In ev_vmxoff (error_events (cpu w2)) /\
    ~ In (ev_state running) (ev_vmlaunch false :: error_events (cpu w2)).
Proof.
  intros Hpre Hh Hlaunch Hoff Hterm.
  destruct (launch_vmlaunch_fails P w w1 w2 Hpre Hh Hlaunch Hoff Hterm)
    as (w' & Hrun & Hst & Hcr4 & _ & Htrace).
  exists w'. split; [exact Hrun|]. split; [exact Hst|].
  split; [exact Hcr4|]. split; [exact Htrace|].
  unfold error_events, terminate_events. split.
  - cbn [In]. tauto.
  - cbn [In]. intros H.
    repeat (destruct H as [H|H]; [discriminate H|]). exact H.
Qed.

Lemma launch_vmlaunch_failure_witness :
  exists w',
    launch idle_platform (fresh_world vmlaunch_failing_cpu) = Ret tt w' /\
    state_ (self w') = terminated /\
    Z.testbit (regs (cpu w') CR4) cr4_vmx_enable_bit = false.
Proof.
  destruct (launch_vmlaunch_failure idle_platform
              (fresh_world vmlaunch_failing_cpu)
              (world_of (setup_before_handler idle_platform
                           (fresh_world vmlaunch_failing_cpu)))
              (world_of (setup_before_handler idle_platform
                           (fresh_world vmlaunch_failing_cpu))))
    as (w' & Hrun & Hst & Hcr4 & _).
  - apply returned_world_of. vm_compute. reflexivity.
  - reflexivity.
  - vm_compute. reflexivity.
  - vm_compute. discriminate.
  - vm_compute. discriminate.
  - exists w'. split; [exact Hrun|]. split; [exact Hst|exact Hcr4].
Defined.

Lemma load_vmxon_failure P w :
  vmxon_succeeds (caps (cpu w)) = false ->
  load_vmxon P w =
    error P
      {| self := set_state_
                   (set_vmxon_ (self w)
                      (vmcs_revision_id (vmx_basic (caps (cpu w)))))
                   terminated;
         cpu :=
           {| regs := upd (upd (regs (cpu w)) CR0
                             (vmx_adjust_cr0 P (regs (cpu w) CR0)))
                          CR4 (vmx_adjust_cr4 P (regs (cpu w) CR4));
              vmcs := vmcs (cpu w);
              caps := caps (cpu w);
              trace :=
                trace (cpu w) ++
                [ev_write CR0 (vmx_adjust_cr0 P (regs (cpu w) CR0));
                 ev_write CR4 (vmx_adjust_cr4 P (regs (cpu w) CR4));
                 ev_vmxon (pa_from_va P (this_va (self w) + offsetof_vmxon_ P))
                          false;
                 ev_state terminated] |} |}.
Proof.
  intros Hon. open_world w. destruct caps0. fields. subst.
  unfold load_vmxon. exec. upd_simpl.
  repeat rewrite <- app_assoc. reflexivity.
Qed.

(** X6: when VMXON fails, [load_vmxon()] sets the state to [terminated]
    and then calls [error()], whose [terminate()] asserts that the state
    is not [terminated].  Where assertions are fatal, [launch()] therefore
    stops on that assertion: the instruction error has been reported and
    the breakpoint raised, nothing of [terminate()] has run (no VMXOFF),
    and no VMCS has been touched. *)
Theorem launch_vmxon_failure (P : platform) (w : world) :
  vmxon_succeeds (caps (cpu w)) = false ->
  assertions_fatal P = true ->
  exists w',
    launch P w = Fault w' /\
    state_ (self w') = terminated /\
    vmcs (cpu w') = vmcs (cpu w) /\
    trace (cpu w') =
      trace (cpu w) ++
      [ev_write CR0 (vmx_adjust_cr0 P (regs (cpu w) CR0));
       ev_write CR4 (vmx_adjust_cr4 P (regs (cpu w) CR4));
       ev_vmxon (pa_from_va P (this_va (self w) + offsetof_vmxon_ P)) false;
       ev_state terminated;
       ev_hvpp_error (vmcs (cpu w) f_exit_instruction_error);
       ev_int3].
Proof.
  intros Hon Hfatal. eexists. split.
  - apply launch_of_faulting_setup. unfold setup.
    unfold bind at 1. rewrite (load_vmxon_failure P w Hon).
    rewrite error_illegal by (try exact Hfatal; right; reflexivity).
    reflexivity.
  - destruct w as [v c]. destruct v, c. fields.
    split; [reflexivity|]. split; [reflexivity|].
    repeat rewrite <- app_assoc. reflexivity.
Qed.

Lemma launch_vmxon_failure_witness :
  exists w',
    launch idle_platform (fresh_world vmxon_failing_cpu) = Fault w' /\
    state_ (self w') = terminated.
Proof.
  destruct (launch_vmxon_failure idle_platform (fresh_world vmxon_failing_cpu))
    as (w' & Hrun & Hst & _).
  - reflexivity.
  - reflexivity.
  - exists w'. split; [exact Hrun|exact Hst].
Defined.

(** *** load_vmcs *)

Lemma load_vmcs_to_vmclear P w :
  state_ (self w) = initializing ->
  load_vmcs P w =
    (if vmclear_succeeds (caps (cpu w)) then
       if vmptrld_succeeds (caps (cpu w)) then
         Ret tt
           {| self := set_vmcs_ (self w)
                        (vmcs_revision_id (vmx_basic (caps (cpu w))));
              cpu := cpu_log
                       (cpu_log (cpu w)
                          (ev_vmclear (pa_from_va P (this_va (self w)
                                                     + offsetof_vmcs_ P)) true))
                       (ev_vmptrld (pa_from_va P (this_va (self w)
                                                  + offsetof_vmcs_ P)) true) |}
       else
         error P
           {| self := set_vmcs_ (self w)
                        (vmcs_revision_id (vmx_basic (caps (cpu w))));
              cpu := cpu_log
                       (cpu_log (cpu w)
                          (ev_vmclear (pa_from_va P (this_va (self w)
                                                     + offsetof_vmcs_ P)) true))
                       (ev_vmptrld (pa_from_va P (this_va (self w)
                                                  + offsetof_vmcs_ P)) false) |}
     else
       error P
         {| self := set_vmcs_ (self w)
                      (vmcs_revision_id (vmx_basic (caps (cpu w))));
            cpu := cpu_log (cpu w)
                     (ev_vmclear (pa_from_va P (this_va (self w)
                                                + offsetof_vmcs_ P)) false) |}).
Proof.
  intros Hst. open_world w. destruct caps0. fields. subst.
  unfold load_vmcs. rewrite bind_get. fields.
  change (vcpu_state_eqb initializing initializing) with true.
  unfold bind at 1. rewrite hvpp_assert_true.
  destruct vmclear_succeeds0, vmptrld_succeeds0; exec; reflexivity.
Qed.

Lemma load_vmcs_rejected P w :
  state_ (self w) <> initializing ->
  assertions_fatal P = true ->
  load_vmcs P w = Fault w.
Proof.
  intros Hst Hfatal. unfold load_vmcs. rewrite bind_get.
  apply vcpu_state_eqb_neq in Hst. rewrite Hst.
  unfold bind at 1. rewrite hvpp_assert_false_fatal by exact Hfatal.
  reflexivity.
Qed.

(** X7: [load_vmcs()] on an [initializing] virtual CPU stores the
    revision identifier and runs VMCLEAR and then VMPTRLD on the physical
    address of the VMCS region.  If both succeed it returns with the state
    unchanged.  If VMCLEAR fails, VMPTRLD is not attempted; after either
    failure [error()] runs, so the call returns with the state
    [terminated], VMXOFF executed and CR4.VMXE clear.  In any other state,
    where assertions are fatal, the call stops at once and changes
    nothing. *)
Theorem load_vmcs_spec (P : platform) (w : world) :
  let pa := pa_from_va P (this_va (self w) + offsetof_vmcs_ P) in
  (state_ (self w) = initializing ->
   exists w',
     load_vmcs P w = Ret tt w' /\
     vmcs_ (self w') = vmcs_revision_id (vmx_basic (caps (cpu w))) /\
     (vmclear_succeeds (caps (cpu w)) = true ->
      vmptrld_succeeds (caps (cpu w)) = true ->
        state_ (self w') = initializing /\
        regs (cpu w') = regs (cpu w) /\
        trace (cpu w') = trace (cpu w) ++ [ev_vmclear pa true; ev_vmptrld pa true]) /\
     (vmclear_succeeds (caps (cpu w)) = true ->
      vmptrld_succeeds (caps (cpu w)) = false ->
        state_ (self w') = terminated /\
        Z.testbit (regs (cpu w') CR4) cr4_vmx_enable_bit = false /\
        trace (cpu w') =
          trace (cpu w) ++ ev_vmclear pa true :: ev_vmptrld pa false
                           :: error_events (cpu w)) /\
     (vmclear_succeeds (caps (cpu w)) = false ->
        state_ (self w') = terminated /\
        Z.testbit (regs (cpu w') CR4) cr4_vmx_enable_bit = false /\
        trace (cpu w') =
          trace (cpu w) ++ ev_vmclear pa false :: error_events (cpu w))) /\
  (state_ (self w) <> initializing ->
   assertions_fatal P = true ->
   load_vmcs P w = Fault w).
Proof.
  intros pa. split; [|apply load_vmcs_rejected].
  intros Hst. rewrite (load_vmcs_to_vmclear P w Hst). fold pa.
  assert (Hbit : forall z, Z.testbit (Z.clearbit z cr4_vmx_enable_bit)
                                     cr4_vmx_enable_bit = false)
    by (intros z; apply Z.clearbit_eq).
  destruct w as [v c]. destruct v, c. fields. subst.
  destruct (vmclear_succeeds caps0) eqn:Hclear;
    [destruct (vmptrld_succeeds caps0) eqn:Hload|].
  - eexists. split; [reflexivity|]. fields.
    split; [reflexivity|].
    split; [intros _ _; repeat split; rewrite <- app_assoc; reflexivity|].
    split; intros; discriminate.
  - rewrite error_runs by (fields; discriminate).
    eexists. split; [reflexivity|]. fields. upd_simpl.
    split; [reflexivity|]. split; [intros; discriminate|].
    split; [|intros; discriminate].
    intros _ _. split; [reflexivity|]. split; [apply Hbit|].
    repeat rewrite <- app_assoc. reflexivity.
  - rewrite error_runs by (fields; discriminate).
    eexists. split; [reflexivity|]. fields. upd_simpl.
    split; [reflexivity|]. split; [intros; discriminate|].
    split; [intros; discriminate|].
    intros _. split; [reflexivity|]. split; [apply Hbit|].
    repeat rewrite <- app_assoc. reflexivity.
Qed.

Lemma load_vmcs_spec_witness :
  let w := world_of (load_vmxon idle_platform (fresh_world vmclear_failing_cpu)) in
  (exists w',
     load_vmcs idle_platform w = Ret tt w' /\
     state_ (self w') = terminated /\
     trace (cpu w') =
       trace (cpu w) ++ ev_vmclear 0x80a000 false :: error_events (cpu w)) /\
  load_vmcs idle_platform (fresh_world good_cpu) = Fault (fresh_world good_cpu).
Proof.
  intros w. split.
  - destruct (proj1 (load_vmcs_spec idle_platform w))
      as (w' & Hrun & _ & _ & _ & Hfail); [vm_compute; reflexivity|].
    destruct Hfail as (Hst & _ & Htrace); [vm_compute; reflexivity|].
    exists w'. split; [exact Hrun|]. split; [exact Hst|exact Htrace].
  - apply (proj2 (load_vmcs_spec idle_platform (fresh_world good_cpu))).
    + vm_compute. discriminate.
    + reflexivity.
Defined.

(** *** setup_host and setup_guest *)

(** X8: [setup_host()] followed by [setup_guest()] always returns.  The
    host-state fields mirror the processor as it is (control registers,
    descriptor-table bases, segment selectors); host and guest get the
    same stack pointer, the end of the virtual CPU's own stack, and the
    two entry points as instruction pointers; the VPID is 1, the link
    pointer all ones, no pin-based control is set, VPID is enabled and
    EPT is not; the MSR bitmap is zeroed and its physical address
    written.  Registers, lifecycle state and translation contexts are
    left alone. *)
Theorem setup_host_guest_fields (P : platform) (w : world) :
  exists w',
    (setup_host P >> setup_guest P) w = Ret tt w' /\
    vmcs (cpu w') f_host_cr0 = regs (cpu w) CR0 /\
    vmcs (cpu w') f_host_cr3 = regs (cpu w) CR3 /\
    vmcs (cpu w') f_host_cr4 = regs (cpu w) CR4 /\
    vmcs (cpu w') f_host_gdtr_base = regs (cpu w) GDTR_BASE /\
    vmcs (cpu w') f_host_idtr_base = regs (cpu w) IDTR_BASE /\
    vmcs (cpu w') f_host_cs = regs (cpu w) CS /\
    vmcs (cpu w') f_host_ss = regs (cpu w) SS /\
    vmcs (cpu w') f_host_tr = regs (cpu w) TR /\
    vmcs (cpu w') f_host_rsp = stack_end (self w) /\
    vmcs (cpu w') f_guest_rsp = vmcs (cpu w') f_host_rsp /\
    vmcs (cpu w') f_host_rip = va_entry_host_ P /\
    vmcs (cpu w') f_guest_rip = va_entry_guest_ P /\
    vmcs (cpu w') f_vcpu_id = 1 /\
    vmcs (cpu w') f_vmcs_link_pointer = 2 ^ 64 - 1 /\
    vmcs (cpu w') f_pin_based_controls = 0 /\
    Z.testbit (vmcs (cpu w') f_processor_based_controls2)
              procbased2_enable_vpid_bit = true /\
    Z.testbit (vmcs (cpu w') f_processor_based_controls2)
              procbased2_enable_ept_bit = false /\
    vmcs (cpu w') f_msr_bitmap
      = pa_from_va P (this_va (self w) + offsetof_msr_bitmap_ P) /\
    msr_bitmap_ (self w') = 0 /\
    regs (cpu w') = regs (cpu w) /\
    state_ (self w') = state_ (self w) /\
    ept_ (self w') = ept_ (self w).
Proof.
  open_world w. unfold setup_host, setup_guest.
  eexists. split; [exec; reflexivity|].
  fields. upd_simpl.
  repeat (split; [reflexivity|]). reflexivity.
Qed.

(** *** load_vmxon *)

(** X9: when VMXON succeeds, [load_vmxon()] has, in this order, written
    the adjusted CR0 and CR4, executed VMXON on the physical address of
    the VMXON region (whose revision identifier it has stored), set the
    state to [initializing] and invalidated all VPID and EPT contexts;
    nothing else is executed and no VMCS field is written. *)
Theorem load_vmxon_success (P : platform) (w : world) :
  vmxon_succeeds (caps (cpu w)) = true ->
  exists w',
    load_vmxon P w = Ret tt w' /\
    state_ (self w') = initializing /\
    vmxon_ (self w') = vmcs_revision_id (vmx_basic (caps (cpu w))) /\
    regs (cpu w') CR0 = vmx_adjust_cr0 P (regs (cpu w) CR0) /\
    regs (cpu w') CR4 = vmx_adjust_cr4 P (regs (cpu w) CR4) /\
    vmcs (cpu w') = vmcs (cpu w) /\
    trace (cpu w') =
      trace (cpu w) ++
      [ev_write CR0 (vmx_adjust_cr0 P (regs (cpu w) CR0));
       ev_write CR4 (vmx_adjust_cr4 P (regs (cpu w) CR4));
       ev_vmxon (pa_from_va P (this_va (self w) + offsetof_vmxon_ P)) true;
       ev_state initializing;
       ev_invvpid_all_contexts;
       ev_invept_all_contexts].
Proof.
  intros Hon. open_world w. destruct caps0. fields. subst.
  unfold load_vmxon. eexists. split; [exec; reflexivity|].
  fields. upd_simpl.
  repeat (split; [reflexivity|]).
  repeat rewrite <- app_assoc. reflexivity.
Qed.

Lemma load_vmxon_success_witness :
  exists w',
    load_vmxon idle_platform (fresh_world good_cpu) = Ret tt w' /\
    state_ (self w') = initializing /\
    Z.testbit (regs (cpu w') CR4) cr4_vmx_enable_bit = true.
Proof.
  destruct (load_vmxon_success idle_platform (fresh_world good_cpu))
    as (w' & Hrun & Hst & _ & _ & Hcr4 & _); [reflexivity|].
  exists w'. split; [exact Hrun|]. split; [exact Hst|].
  rewrite Hcr4. vm_compute. reflexivity.
Defined.

(** ** The exit dispatch: the exit context *)

(** X10: [entry_host()] calls the handler with the guest's RSP, RIP and
    RFLAGS in the exit context, and with the machine frame holding the
    address after the exiting instruction and the guest's stack pointer.
    When the handler returns with a state other than [terminated], the
    exit context is made ready for the resume: RSP and RFLAGS get back
    the values captured on entry and RIP is the address of the VMRESUME
    stub; everything else of the virtual CPU is as the handler left
    it. *)
Theorem entry_host_exit_context (P : platform) (w wh : world) :
  h_handle (handler_at P (handler_ (self w))) (entry_host_at_handler w)
    = Ret tt wh ->
  state_ (self wh) <> terminated ->
  exit_context_ (self (entry_host_at_handler w)) =
    {| rax := rax (exit_context_ (self w));
       rsp := vmcs (cpu w) f_guest_rsp;
       rip := vmcs (cpu w) f_guest_rip;
       rflags := vmcs (cpu w) f_guest_rflags |} /\
  stack_ (self (entry_host_at_handler w)) =
    {| mf_rip := wrap64 (vmcs (cpu w) f_guest_rip
                         + vmcs (cpu w) f_exit_instruction_length);
       mf_rsp := vmcs (cpu w) f_guest_rsp |} /\
  exists w',
    entry_host P w = Ret tt w' /\
    exit_context_ (self w') =
      {| rax := rax (exit_context_ (self wh));
         rsp := rsp (exit_context_ (self w));
         rip := va_vmresume P;
         rflags := rflags (exit_context_ (self w)) |} /\
    stack_ (self w') = stack_ (self wh) /\
    state_ (self w') = state_ (self wh) /\
    guest_context_ (self w') = guest_context_ (self wh) /\
    suppress_rip_adjust_ (self w') = suppress_rip_adjust_ (self wh) /\
    fxsave_area_ (self w') = fxsave_area_ (self wh).
Proof.
  intros Hh Hst.
  split; [destruct w as [v c]; destruct v, c; reflexivity|].
  split; [destruct w as [v c]; destruct v, c; reflexivity|].
  eexists. split; [apply (entry_host_resumes P w wh Hh Hst)|].
  destruct wh as [vh ch]. destruct vh. fields. repeat split.
Qed.

Lemma entry_host_exit_context_witness :
  exists w',
    entry_host idle_platform running_world = Ret tt w' /\
    rip (exit_context_ (self w')) = 0x403000 /\
    rsp (exit_context_ (self w')) = rsp (exit_context_ (self running_world)).
Proof.
  destruct (entry_host_exit_context idle_platform running_world
              (entry_host_at_handler running_world))
    as (_ & _ & w' & Hrun & Hctx & _).
  - reflexivity.
  - vm_compute. discriminate.
  - exists w'. split; [exact Hrun|]. rewrite Hctx. split; reflexivity.
Defined.

(** ** The orchestrator: the broadcasts *)

Lemma run_vcpu_on_returns idx onto f s l v c w' :
  vcpu_list (global s) = Some l ->
  l !! idx = Some v ->
  cpus s !! onto = Some c ->
  f {| self := v; cpu := c |} = Ret tt w' ->
  run_vcpu_on idx onto f s =
    SRet tt {| global := {| vcpu_list := Some (<[idx := self w']> l);
                            started := started (global s) |};
               cpus := <[onto := cpu w']> (cpus s) |}.
Proof.
  intros Hl Hv Hc Hf. unfold run_vcpu_on. rewrite Hl, Hv, Hc, Hf. reflexivity.
Qed.

(** A broadcast of a closure that returns on every processor: each
    virtual CPU and its processor end as the closure leaves them, the
    others are not touched. *)
Lemma ipi_call_from_each (f : M unit) (Pre : vcpu_t -> cpu_t -> Prop)
    (Post : cpu_t -> world -> Prop) :
  (forall v c, Pre v c ->
     exists w', f {| self := v; cpu := c |} = Ret tt w' /\ Post c w') ->
  forall n idx s l,
    vcpu_list (global s) = Some l ->
    (idx + n <= length l)%nat ->
    (idx + n <= length (cpus s))%nat ->
    (forall j v c, (idx <= j < idx + n)%nat ->
       l !! j = Some v -> cpus s !! j = Some c -> Pre v c) ->
    exists s' l',
      ipi_call_from f idx n s = SRet tt s' /\
      vcpu_list (global s') = Some l' /\
      started (global s') = started (global s) /\
      length l' = length l /\
      length (cpus s') = length (cpus s) /\
      (forall j c, (idx <= j < idx + n)%nat -> cpus s !! j = Some c ->
         exists v' c',
           l' !! j = Some v' /\ cpus s' !! j = Some c' /\
           Post c {| self := v'; cpu := c' |}) /\
      (forall j, ~ (idx <= j < idx + n)%nat ->
         l' !! j = l !! j /\ cpus s' !! j = cpus s !! j).
Proof.
  intros Hf. induction n as [|n IH]; intros idx s l Hl Hlen Hlenc Hpre.
  - exists s, l. cbn [ipi_call_from].
    split; [reflexivity|]. split; [exact Hl|].
    split; [reflexivity|]. split; [reflexivity|]. split; [reflexivity|].
    split; [intros j c Hj; lia|]. intros j _. split; reflexivity.
  - destruct (lookup_lt_is_Some_2 l idx) as [v Hv]; [lia|].
    destruct (lookup_lt_is_Some_2 (cpus s) idx) as [c Hc]; [lia|].
    destruct (Hf v c) as (w' & Hrun & Hpost).
    { apply (Hpre idx); [lia|exact Hv|exact Hc]. }
    cbn [ipi_call_from].
    rewrite (run_vcpu_on_returns idx idx f s l v c w' Hl Hv Hc Hrun).
    match goal with
    | |- context [ipi_call_from f (S idx) n ?S1] => set (s1 := S1)
    end.
    destruct (IH (S idx) s1 (<[idx := self w']> l))
      as (s' & l' & Hcall & Hl' & Hst & Hlen' & Hlenc' & Hin & Hout).
    + reflexivity.
    + rewrite length_insert. lia.
    + subst s1. cbn [cpus]. rewrite length_insert. lia.
    + intros j v0 c0 Hj Hv0 Hc0. subst s1. cbn [cpus] in Hc0.
      rewrite list_lookup_insert_ne in Hv0 by lia.
      rewrite list_lookup_insert_ne in Hc0 by lia.
      apply (Hpre j); [lia|exact Hv0|exact Hc0].
    + exists s', l'. split; [exact Hcall|]. split; [exact Hl'|].
      split; [rewrite Hst; reflexivity|].
      split; [rewrite Hlen'; apply length_insert|].
      split; [rewrite Hlenc'; subst s1; cbn [cpus]; apply length_insert|].
      split.
      * intros j c0 Hj Hc0. destruct (decide (j = idx)) as [->|Hne].
        -- destruct (Hout idx) as [Hv' Hc']; [lia|].
           subst s1. cbn [cpus] in Hc'.
           rewrite list_lookup_insert_eq in Hv' by lia.
           rewrite list_lookup_insert_eq in Hc' by lia.
           exists (self w'), (cpu w').
           split; [exact Hv'|]. split; [exact Hc'|].
           assert (c0 = c) by congruence. subst c0.
           destruct w'. exact Hpost.
        -- apply Hin; [lia|]. subst s1. cbn [cpus].
           rewrite list_lookup_insert_ne by lia. exact Hc0.
      * intros j Hj. destruct (Hout j) as [Hv' Hc']; [lia|].
        rewrite Hv', Hc'. subst s1. cbn [cpus].
        rewrite !list_lookup_insert_ne by lia. split; reflexivity.
Qed.

Lemma setup_before_handler_keeps P w :
  vmxon_succeeds (caps (cpu w)) = true ->
  vmclear_succeeds (caps (cpu w)) = true ->
  vmptrld_succeeds (caps (cpu w)) = true ->
  exists w1,
    setup_before_handler P w = Ret tt w1 /\
    handler_ (self w1) = handler_ (self w) /\
    state_ (self w1) = initializing /\
    caps (cpu w1) = caps (cpu w).
Proof.
  intros Hon Hclear Hload.
  open_world w. destruct caps0. fields. subst.
  unfold setup_before_handler, load_vmxon, load_vmcs, setup_host, setup_guest.
  exec.
  change (vcpu_state_eqb initializing initializing) with true.
  rewrite hvpp_assert_true. exec.
  eexists. split; [reflexivity|]. fields. repeat split.
Qed.

(** What the launch closure of [start()] leaves on one processor. *)
Lemma launch_closure_outcome P w :
  vmx_entry_succeeds (cpu w) = true ->
  setup_callback_returns P (handler_ (self w)) ->
  exists w',
    launch_closure P w = Ret tt w' /\
    state_ (self w') =
      (if vmlaunch_succeeds (caps (cpu w)) then running else terminated).
Proof.
  intros Hvmx Hcb. unfold vmx_entry_succeeds in Hvmx.
  apply andb_true_iff in Hvmx. destruct Hvmx as [Hvmx Hload].
  apply andb_true_iff in Hvmx. destruct Hvmx as [Hon Hclear].
  destruct w as [v c]. destruct c as [r m k t]. cbn [self cpu caps] in *.
  set (w0 := {| self := v;
                cpu := cpu_log {| regs := r; vmcs := m; caps := k; trace := t |}
                               ev_allocator_guard_enter |}).
  assert (H0 : allocator_guard_enter
                 {| self := v;
                    cpu := {| regs := r; vmcs := m; caps := k; trace := t |} |}
               = Ret tt w0) by reflexivity.
  destruct (setup_before_handler_keeps P w0) as (w1 & Hpre & Hh1 & Hst1 & Hcaps1);
    [exact Hon|exact Hclear|exact Hload|].
  change (handler_ (self w0)) with (handler_ v) in Hh1.
  change (caps (cpu w0)) with k in Hcaps1.
  destruct (Hcb w1) as (w2 & Hsetup & Hcaps2 & Hst2).
  rewrite <- Hh1 in Hsetup.
  unfold launch_closure. rewrite (bind_Ret _ _ _ _ _ H0).
  destruct (vmlaunch_succeeds k) eqn:Hl.
  - assert (Hl2 : vmlaunch_succeeds (caps (cpu w2)) = true)
      by (rewrite Hcaps2, Hcaps1; exact Hl).
    rewrite (bind_Ret _ _ _ _ _ (launch_returns_running P w0 w1 w2 Hpre Hsetup Hl2)).
    eexists. split; reflexivity.
  - assert (Hl2 : vmlaunch_succeeds (caps (cpu w2)) = false)
      by (rewrite Hcaps2, Hcaps1; exact Hl).
    destruct (launch_vmlaunch_fails P w0 w1 w2 Hpre Hsetup Hl2)
      as (w' & Hrun & Hst & _).
    + rewrite Hst2, Hst1. discriminate.
    + rewrite Hst2, Hst1. discriminate.
    + rewrite (bind_Ret _ _ _ _ _ Hrun).
      eexists. split; [reflexivity|]. exact Hst.
Qed.

Lemma construct_vcpus_handler P a handler n :
  Forall (fun v => handler_ v = handler) (construct_vcpus P a handler n).
Proof.
  unfold construct_vcpus.
  apply Forall_forall. intros v Hv. apply list_elem_of_In in Hv.
  apply in_map_iff in Hv. destruct Hv as (i & <- & _). reflexivity.
Qed.

Lemma start_reaches_broadcast P handler cur a s c :
  started (global s) = false ->
  vcpu_list (global s) = None ->
  cpus s !! cur = Some c ->
  check_cpu_features P c = true ->
  start P handler cur (Some a) s =
    match ipi_call_from (launch_closure P) 0 (length (cpus s))
            {| global :=
                 {| vcpu_list :=
                      Some (construct_vcpus P a handler (length (cpus s)));
                    started := false |};
               cpus := cpus s |} with
    | SRet _ s2 =>
        SRet errc_success
             {| global := {| vcpu_list := vcpu_list (global s2);
                             started := true |};
                cpus := cpus s2 |}
    | SFault s2 => SFault s2
    | SUndef s2 => SUndef s2
    end.
Proof.
  intros Hstopped Hnull Hcur Hcheck.
  unfold start, assert_passes. rewrite Hstopped.
  rewrite bool_decide_eq_true_2 by exact Hnull.
  cbn [negb orb set_global cpus].
  rewrite Hcur, Hcheck. cbn [negb]. reflexivity.
Qed.

Lemma start_launches P handler cur a s c :
  started (global s) = false ->
  vcpu_list (global s) = None ->
  cpus s !! cur = Some c ->
  check_cpu_features P c = true ->
  Forall (fun c => vmx_entry_succeeds c = true) (cpus s) ->
  setup_callback_returns P handler ->
  exists s' l,
    start P handler cur (Some a) s = SRet errc_success s' /\
    is_started s' = true /\
    vcpu_list (global s') = Some l /\
    length l = length (cpus s) /\
    length (cpus s') = length (cpus s) /\
    (forall j c0, cpus s !! j = Some c0 ->
       exists v, l !! j = Some v /\
         state_ v = if vmlaunch_succeeds (caps c0) then running else terminated).
Proof.
  intros Hstopped Hnull Hcur Hcheck Hvmx Hcb.
  rewrite (start_reaches_broadcast P handler cur a s c Hstopped Hnull Hcur Hcheck).
  pose proof (construct_vcpus_off P a handler (length (cpus s))) as [Hlen _].
  pose proof (construct_vcpus_handler P a handler (length (cpus s))) as Hhandler.
  destruct (ipi_call_from_each (launch_closure P)
              (fun v c0 => handler_ v = handler /\ vmx_entry_succeeds c0 = true)
              (fun c0 w' =>
                 state_ (self w') =
                   if vmlaunch_succeeds (caps c0) then running else terminated))
    with (n := length (cpus s)) (idx := 0%nat)
         (s := {| global :=
                    {| vcpu_list :=
                         Some (construct_vcpus P a handler (length (cpus s)));
                       started := false |};
                  cpus := cpus s |})
         (l := construct_vcpus P a handler (length (cpus s)))
    as (s2 & l2 & Hcall & Hl2 & _ & Hlen2 & Hlenc2 & Hin & _).
  - intros v c0 [Hv Hc0]. apply (launch_closure_outcome P {| self := v; cpu := c0 |}).
    + exact Hc0.
    + cbn [self]. rewrite Hv. exact Hcb.
  - reflexivity.
  - rewrite Hlen. cbn [cpus]. lia.
  - cbn [cpus]. lia.
  - intros j v c0 _ Hv Hc0. cbn [cpus] in Hc0. split.
    + rewrite Forall_lookup in Hhandler. exact (Hhandler j v Hv).
    + rewrite Forall_lookup in Hvmx. exact (Hvmx j c0 Hc0).
  - rewrite Hcall. exists {| global := {| vcpu_list := vcpu_list (global s2);
                                         started := true |};
                            cpus := cpus s2 |}, l2.
    split; [reflexivity|]. split; [reflexivity|]. split; [exact Hl2|].
    split; [rewrite Hlen2; exact Hlen|]. split; [exact Hlenc2|].
    intros j c0 Hc0.
    destruct (Hin j c0) as (v' & c' & Hv' & _ & Hpost).
    + apply lookup_lt_Some in Hc0. lia.
    + exact Hc0.
    + exists v'. split; [exact Hv'|exact Hpost].
Qed.

(** X11: on a stopped orchestrator with no array, when the calling
    processor passes the capability check, VMXON, VMCLEAR and VMPTRLD
    succeed on every processor and the handler's setup callback returns,
    [start()] returns success and sets the started flag, whatever VMLAUNCH
    does: there is one virtual CPU per processor, and the virtual CPU of a
    processor is [running] if VMLAUNCH succeeded there and [terminated] if
    it failed, so that all are [running] when VMLAUNCH succeeded
    everywhere.  A failed launch is not reported to the caller. *)
Theorem start_success (P : platform) (handler : Z) (cur : nat)
    (a : allocation) (s : system) (c : cpu_t) :
  started (global s) = false ->
  vcpu_list (global s) = None ->
  cpus s !! cur = Some c ->
  check_cpu_features P c = true ->
  Forall (fun c => vmx_entry_succeeds c = true) (cpus s) ->
  setup_callback_returns P handler ->
  exists s' l,
    start P handler cur (Some a) s = SRet errc_success s' /\
    is_started s' = true /\
    vcpu_list (global s') = Some l /\
    length l = length (cpus s) /\
    length (cpus s') = length (cpus s) /\
    (forall j c0, cpus s !! j = Some c0 ->
       exists v, l !! j = Some v /\
         state_ v = if vmlaunch_succeeds (caps c0) then running else terminated) /\
    (Forall (fun c0 => vmlaunch_succeeds (caps c0) = true) (cpus s) ->
     Forall (fun v => state_ v = running) l).
Proof.
  intros Hstopped Hnull Hcur Hcheck Hvmx Hcb.
  destruct (start_launches P handler cur a s c Hstopped Hnull Hcur Hcheck
              Hvmx Hcb)
    as (s' & l & Hstart & Hon & Hl & Hlen & Hlenc & Hstates).
  exists s', l. split; [exact Hstart|]. split; [exact Hon|].
  split; [exact Hl|]. split; [exact Hlen|]. split; [exact Hlenc|].
  split; [exact Hstates|].
  intros Hlaunch. apply Forall_lookup. intros j v Hv.
  destruct (lookup_lt_is_Some_2 (cpus s) j) as [c0 Hc0].
  { apply lookup_lt_Some in Hv. lia. }
  destruct (Hstates j c0 Hc0) as (v' & Hv' & Hst).
  assert (v' = v) by congruence. subst v'.
  rewrite Forall_lookup in Hlaunch. rewrite (Hlaunch j c0 Hc0) in Hst.
  exact Hst.
Qed.

Lemma idle_setup_callback_returns fatal id :
  setup_callback_returns (sample_platform fatal (fun _ => idle_handler)) id.
Proof. intros w. exists w. repeat split. Qed.

Lemma start_success_witness :
  exists s' l v0 v1,
    start idle_platform 0 0 (Some sample_allocation) uneven_system
      = SRet errc_success s' /\
    is_started s' = true /\
    vcpu_list (global s') = Some l /\
    l !! 0%nat = Some v0 /\ state_ v0 = running /\
    l !! 1%nat = Some v1 /\ state_ v1 = terminated.
Proof.
  destruct (start_success idle_platform 0 0 sample_allocation uneven_system
              good_cpu)
    as (s' & l & Hrun & Hon & Hl & _ & _ & Hstates & _).
  - reflexivity.
  - reflexivity.
  - reflexivity.
  - vm_compute. reflexivity.
  - repeat constructor.
  - apply idle_setup_callback_returns.
  - destruct (Hstates 0%nat good_cpu) as (v0 & Hv0 & Hs0); [reflexivity|].
    destruct (Hstates 1%nat vmlaunch_failing_cpu) as (v1 & Hv1 & Hs1);
      [reflexivity|].
    exists s', l, v0, v1. repeat split; assumption.
Defined.

(** X12: when [operator new[]] returns null, [start()] on a stopped
    orchestrator returns [not_enough_memory] and leaves the orchestrator
    exactly as it was: no virtual CPU is constructed, no processor is
    touched, and the array pointer is still null, so that a later
    [start()] passes the assertions again. *)
Theorem start_out_of_memory (P : platform) (handler : Z) (cur : nat)
    (s : system) :
  started (global s) = false ->
  vcpu_list (global s) = None ->
  start P handler cur None s = SRet not_enough_memory s.
Proof.
  intros Hstopped Hnull. destruct s as [[l b] cs]. cbn in Hstopped, Hnull.
  subst. unfold start, assert_passes. cbn [global started vcpu_list negb orb].
  rewrite bool_decide_eq_true_2 by reflexivity. reflexivity.
Qed.

Lemma start_out_of_memory_witness :
  start debug_platform 0 0 None (idle_system good_cpu)
    = SRet not_enough_memory (idle_system good_cpu).
Proof. apply start_out_of_memory; reflexivity. Defined.

(** X13: whenever [start()] returns [not_supported], the array of
    virtual CPUs it has allocated and constructed is still in place and
    the flag is false: the failed call releases nothing.  Where
    assertions are fatal, every later [start()] then stops on the
    assertion that the array pointer is null. *)
Theorem start_not_supported_keeps_array (P : platform) (handler : Z)
    (cur : nat) (alloc : option allocation) (s s' : system) :
  start P handler cur alloc s = SRet not_supported s' ->
  (exists a,
     alloc = Some a /\
     vcpu_list (global s')
       = Some (construct_vcpus P a handler (length (cpus s)))) /\
  is_started s' = false /\
  cpus s' = cpus s /\
  (assertions_fatal P = true ->
   forall handler' cur' alloc',
     start P handler' cur' alloc' s' = SFault s').
Proof.
  unfold start, assert_passes.
  destruct (started (global s)) eqn:Hstarted; cbn [negb orb].
  { destruct (assertions_fatal P); cbn [negb]; discriminate. }
  destruct (negb (bool_decide (vcpu_list (global s) = None)
                  || negb (assertions_fatal P))); [discriminate|].
  destruct alloc as [a|]; [|discriminate].
  cbn [set_global cpus].
  destruct (cpus s !! cur) as [c|]; [|discriminate].
  destruct (check_cpu_features P c); cbn [negb].
  { destruct (ipi_call (launch_closure P) _) as [[] ?|?|?]; discriminate. }
  intros H. injection H as <-. cbn [global vcpu_list started cpus is_started].
  split; [exists a; split; reflexivity|].
  split; [reflexivity|]. split; [reflexivity|].
  intros Hfatal handler' cur' alloc'.
  cbn [set_global global started vcpu_list]. rewrite Hfatal.
  rewrite bool_decide_eq_false_2 by discriminate. reflexivity.
Qed.

Lemma start_not_supported_keeps_array_witness :
  let s' := system_of (start debug_platform 0 0 (Some sample_allocation)
                             (idle_system no_vmx_cpu)) in
  is_started s' = false /\
  start debug_platform 0 0 (Some sample_allocation) s' = SFault s'.
Proof.
  intros s'.
  destruct (start_not_supported_keeps_array debug_platform 0 0
              (Some sample_allocation) (idle_system no_vmx_cpu) s')
    as (_ & Hoff & _ & Hagain).
  - vm_compute. reflexivity.
  - split; [exact Hoff|]. apply Hagain. reflexivity.
Defined.

(** *** stop *)

Lemma terminate_closure_runs P w :
  state_ (self w) <> off -> state_ (self w) <> terminated ->
  exists w',
    terminate_closure P w = Ret tt w' /\
    state_ (self w') = terminated /\
    Z.testbit (regs (cpu w') CR4) cr4_vmx_enable_bit = false /\
    trace (cpu w') =
      trace (cpu w) ++ ev_allocator_guard_enter
                       :: terminate_events (cpu w) ++ [ev_allocator_guard_leave].
Proof.
  intros Hoff Hterm. open_world w. unfold terminate_closure. exec.
  rewrite terminate_legal by (fields; assumption).
  eexists. split; [exec; reflexivity|]. fields. upd_simpl.
  split; [reflexivity|]. split; [apply Z.clearbit_eq|].
  unfold terminate_events. fields.
  repeat rewrite <- app_assoc. reflexivity.
Qed.

(** A broadcast never loses the array. *)
Lemma run_vcpu_on_keeps_list idx onto f s :
  is_Some (vcpu_list (global s)) ->
  is_Some (vcpu_list (global (system_of (run_vcpu_on idx onto f s)))).
Proof.
  intros Hl. unfold run_vcpu_on.
  destruct (vcpu_list (global s)) as [l|] eqn:E;
    [|destruct Hl as [? Hl]; discriminate Hl].
  destruct (l !! idx) as [v|];
    [|cbn [system_of]; rewrite E; eexists; reflexivity].
  destruct (cpus s !! onto) as [c|];
    [|cbn [system_of]; rewrite E; eexists; reflexivity].
  destruct (f {| self := v; cpu := c |}); cbn; eexists; reflexivity.
Qed.

Lemma ipi_call_from_keeps_list f n idx s :
  is_Some (vcpu_list (global s)) ->
  is_Some (vcpu_list (global (system_of (ipi_call_from f idx n s)))).
Proof.
  revert idx s. induction n as [|n IH]; intros idx s Hl; [exact Hl|].
  cbn [ipi_call_from].
  pose proof (run_vcpu_on_keeps_list idx idx f s Hl) as Hstep.
  destruct (run_vcpu_on idx idx f s) as [[] s1|s1|s1]; cbn [system_of] in *.
  - apply IH. exact Hstep.
  - exact Hstep.
  - exact Hstep.
Qed.

(** [stop()] on a started orchestrator that holds an array never
    returns: if the broadcast returns, the delete-expression is
    reached. *)
Lemma stop_does_not_return P cur s :
  started (global s) = true ->
  is_Some (vcpu_list (global s)) ->
  (forall s', stop P cur s <> SRet tt s') /\
  is_started (system_of (stop P cur s)) = true.
Proof.
  intros Hstarted Hl.
  assert (Hnever : forall s', stop P cur s <> SRet tt s').
  { intros s'. unfold stop, assert_passes. rewrite Hstarted. cbn [negb orb].
    pose proof (ipi_call_from_keeps_list (terminate_closure P)
                  (length (cpus s)) 0 s Hl) as Hkeep.
    fold (ipi_call (terminate_closure P) s) in Hkeep.
    destruct (ipi_call (terminate_closure P) s) as [[] s1|s1|s1];
      cbn [system_of] in Hkeep; try discriminate.
    unfold delete_vcpu_list. destruct Hkeep as [l1 Hl1]. rewrite Hl1.
    discriminate. }
  split; [exact Hnever|].
  destruct (stop_flag P cur s Hstarted) as [[Hto _] _].
  destruct (is_started (system_of (stop P cur s))); [reflexivity|].
  destruct (Hto eq_refl) as [s' Hs']. destruct (Hnever s' Hs').
Qed.

(** X14: on a started orchestrator with one virtual CPU per processor,
    none of them [off] or [terminated], the broadcast of [stop()] runs
    the guarded [terminate()] on every processor, the calling one
    included: each virtual CPU ends [terminated], VMXOFF has run and
    CR4.VMXE is clear everywhere.  Then [stop()] applies [delete[]] to
    storage that no new-expression produced, which is undefined: the
    call does not return, no destructor has run, the array pointer is
    still set and the started flag is still true. *)
Theorem stop_spec (P : platform) (cur : nat) (s : system) (l : list vcpu_t) :
  started (global s) = true ->
  vcpu_list (global s) = Some l ->
  length l = length (cpus s) ->
  Forall (fun v => state_ v <> off /\ state_ v <> terminated) l ->
  exists s1 l1,
    ipi_call (terminate_closure P) s = SRet tt s1 /\
    delete_vcpu_list s1 = SUndef s1 /\
    stop P cur s = SUndef s1 /\
    (forall s', stop P cur s <> SRet tt s') /\
    is_started s1 = true /\
    vcpu_list (global s1) = Some l1 /\
    length l1 = length l /\
    Forall (fun v => state_ v = terminated) l1 /\
    length (cpus s1) = length (cpus s) /\
    (forall j c, cpus s !! j = Some c ->
       exists c',
         cpus s1 !! j = Some c' /\
         Z.testbit (regs c' CR4) cr4_vmx_enable_bit = false /\
         trace c' =
           trace c ++ ev_allocator_guard_enter
                      :: terminate_events c ++ [ev_allocator_guard_leave]).
Proof.
  intros Hstarted Hl Hlen Hstates.
  destruct (ipi_call_from_each (terminate_closure P)
              (fun v _ => state_ v <> off /\ state_ v <> terminated)
              (fun c0 w' =>
                 state_ (self w') = terminated /\
                 Z.testbit (regs (cpu w') CR4) cr4_vmx_enable_bit = false /\
                 trace (cpu w') =
                   trace c0 ++ ev_allocator_guard_enter
                               :: terminate_events c0 ++ [ev_allocator_guard_leave]))
    with (n := length (cpus s)) (idx := 0%nat) (s := s) (l := l)
    as (s1 & l1 & Hcall & Hl1 & Hst1 & Hlen1 & Hlenc1 & Hin & _).
  - intros v c0 [Hoff Hterm].
    apply (terminate_closure_runs P {| self := v; cpu := c0 |} Hoff Hterm).
  - exact Hl.
  - lia.
  - lia.
  - intros j v c0 _ Hv _. rewrite Forall_lookup in Hstates.
    exact (Hstates j v Hv).
  - exists s1, l1.
    assert (Hdel : delete_vcpu_list s1 = SUndef s1)
      by (unfold delete_vcpu_list; rewrite Hl1; reflexivity).
    assert (Hstop : stop P cur s = SUndef s1).
    { unfold stop, assert_passes. rewrite Hstarted. cbn [negb orb].
      unfold ipi_call. rewrite Hcall, Hdel. reflexivity. }
    split; [unfold ipi_call; exact Hcall|]. split; [exact Hdel|]. split; [exact Hstop|].
    split; [intros s'; rewrite Hstop; discriminate|].
    split; [unfold is_started; rewrite Hst1; exact Hstarted|].
    split; [exact Hl1|]. split; [exact Hlen1|].
    split.
    { apply Forall_lookup. intros j v Hv.
      destruct (lookup_lt_is_Some_2 (cpus s) j) as [c0 Hc0].
      { apply lookup_lt_Some in Hv. lia. }
      destruct (Hin j c0) as (v' & c' & Hv' & _ & Hst & _).
      { apply lookup_lt_Some in Hc0. lia. }
      { exact Hc0. }
      assert (v' = v) by congruence. subst v'. exact Hst. }
    split; [exact Hlenc1|].
    intros j c0 Hc0.
    destruct (Hin j c0) as (v' & c' & _ & Hc' & _ & Hcr4 & Htrace).
    + apply lookup_lt_Some in Hc0. lia.
    + exact Hc0.
    + exists c'. cbn [cpu regs trace] in *.
      split; [exact Hc'|]. split; [exact Hcr4|exact Htrace].
Qed.

Lemma stop_spec_witness :
  exists s1 l1,
    stop idle_platform 0 (started_system idle_platform) = SUndef s1 /\
    is_started s1 = true /\
    vcpu_list (global s1) = Some l1 /\
    Forall (fun v => state_ v = terminated) l1.
Proof.
  destruct (stop_spec idle_platform 0 (started_system idle_platform)
              (default [] (vcpu_list (global (started_system idle_platform)))))
    as (s1 & l1 & _ & _ & Hstop & _ & Hon & Hl1 & _ & Hterm & _).
  - vm_compute. reflexivity.
  - vm_compute. reflexivity.
  - vm_compute. reflexivity.
  - vm_compute. repeat constructor; discriminate.
  - exists s1, l1. repeat split; assumption.
Defined.

(** X15: a start followed by a stop.  After any [start()] that returned
    success, the flag is set and the array exists, and no [stop()], from
    whatever processor, returns: when its broadcast completes, the
    delete-expression on the array is reached, whose behaviour is
    undefined.  The started flag is still true afterwards: the
    orchestrator does not get back to the state from which [start()] may
    be called. *)
Theorem start_then_stop (P : platform) (handler : Z) (cur cur' : nat)
    (alloc : option allocation) (s s1 : system) :
  started (global s) = false ->
  start P handler cur alloc s = SRet errc_success s1 ->
  is_started s1 = true /\
  is_Some (vcpu_list (global s1)) /\
  (forall s2, stop P cur' s1 <> SRet tt s2) /\
  is_started (system_of (stop P cur' s1)) = true.
Proof.
  intros Hstopped Hstart.
  destruct (start_flag P handler cur alloc s Hstopped) as [_ Hfrom].
  destruct (Hfrom s1 Hstart) as (a & s2 & -> & Hipi & _ & ->).
  assert (Hkeep : is_Some (vcpu_list (global s2))).
  { pose proof (ipi_call_from_keeps_list (launch_closure P)
                  (length (cpus s)) 0
                  (set_global s
                     {| vcpu_list :=
                          Some (construct_vcpus P a handler (length (cpus s)));
                        started := false |})) as H.
    unfold ipi_call in Hipi. cbn [set_global cpus] in Hipi, H.
    rewrite Hipi in H. apply H. eexists. reflexivity. }
  split; [reflexivity|]. split; [exact Hkeep|].
  apply stop_does_not_return; [reflexivity|exact Hkeep].
Qed.

Lemma start_then_stop_witness :
  is_started (started_system idle_platform) = true /\
  (forall s2,
     stop idle_platform 3 (started_system idle_platform) <> SRet tt s2) /\
  is_started (system_of (stop idle_platform 3 (started_system idle_platform)))
    = true.
Proof.
  destruct (start_then_stop idle_platform 0 0 3 (Some sample_allocation)
              (idle_system good_cpu) (started_system idle_platform))
    as (Hon & _ & Hnever & Hflag).
  - reflexivity.
  - unfold started_system. apply start_succeeded_system_of.
    vm_compute. reflexivity.
  - split; [exact Hon|]. split; [exact Hnever|exact Hflag].
Defined.

(** ** The device front end *)

Lemma string_length_append (a b : string) :
  String.length (a ++ b) = (String.length a + String.length b)%nat.
Proof.
  induction a as [|ch a IH]; cbn [String.append String.length];
    [reflexivity|].
  rewrite IH. reflexivity.
Qed.

Lemma rtl_append_fits capacity dst src :
  (String.length dst + String.length src <= capacity)%nat ->
  rtl_append capacity dst src = (dst ++ src)%string.
Proof.
  intros H. unfold rtl_append. apply Nat.leb_le in H. rewrite H. reflexivity.
Qed.

Lemma filter_all_pass {A} (Q : A -> Prop) `{forall x, Decision (Q x)}
    (l : list A) :
  Forall Q l -> filter Q l = l.
Proof.
  induction 1 as [|x l Hx Hl IH]; [reflexivity|].
  rewrite filter_cons_True by exact Hx. rewrite IH. reflexivity.
Qed.

(** The names [create()] builds for a name that passes the length test:
    neither buffer is too small. *)
Lemma create_names d :
  (String.length (name d) < MAX_BUFFER_SIZE)%nat ->
  rtl_append (MAX_BUFFER_SIZE + sizeof_device_prefix)
    (rtl_append (MAX_BUFFER_SIZE + sizeof_device_prefix) EmptyString "\Device\")
    (rtl_ansi_to_unicode MAX_BUFFER_SIZE (name d))
    = ("\Device\" ++ name d)%string /\
  rtl_append (MAX_BUFFER_SIZE + sizeof_dosdevices_prefix - 1)
    (rtl_append (MAX_BUFFER_SIZE + sizeof_dosdevices_prefix - 1)
                EmptyString "\DosDevices\")
    (rtl_ansi_to_unicode MAX_BUFFER_SIZE (name d))
    = ("\DosDevices\" ++ name d)%string.
Proof.
  intros Hlen. unfold MAX_BUFFER_SIZE in *.
  assert (Hconv : rtl_ansi_to_unicode 64 (name d) = name d).
  { unfold rtl_ansi_to_unicode.
    rewrite (proj2 (Nat.leb_le _ _)) by lia. reflexivity. }
  rewrite Hconv.
  change (rtl_append (64 + sizeof_device_prefix) EmptyString "\Device\")
    with "\Device\"%string.
  change (rtl_append (64 + sizeof_dosdevices_prefix - 1) EmptyString
                     "\DosDevices\")
    with "\DosDevices\"%string.
  split; apply rtl_append_fits;
    unfold sizeof_device_prefix, sizeof_dosdevices_prefix;
    cbn [String.length]; lia.
Qed.

(** X16: for a name shorter than 64 characters, when the kernel grants
    the pool block, the device object and the symbolic link, [create()]
    returns success.  The device is named [\Device\] followed by the
    name and the link [\DosDevices\] followed by the name, neither of
    them truncated; the kernel holds the block, the device object and the
    link pointing at the device; and [impl_] records the device object and
    the link name. *)
Theorem create_success (a : kernel_answers) (k : kernel) (d : device)
    (block raw obj : Z) :
  (String.length (name d) < MAX_BUFFER_SIZE)%nat ->
  answer_alloc a = Some (block, raw) ->
  answer_create_device a = Some obj ->
  answer_create_link a = true ->
  create a k d =
    Created errc_success
      {| pool := block :: pool k;
         device_objects :=
           (obj, ("\Device\" ++ name d)%string) :: device_objects k;
         symbolic_links :=
           (("\DosDevices\" ++ name d)%string, ("\Device\" ++ name d)%string)
           :: symbolic_links k |}
      {| name := name d;
         impl_ := Some {| DeviceObject := obj;
                          DeviceLink := ("\DosDevices\" ++ name d)%string |} |}.
Proof.
  intros Hlen Halloc Hdev Hlink.
  destruct (create_names d Hlen) as [Hname Hlinkname].
  unfold create. cbv zeta.
  rewrite (proj2 (Nat.leb_gt _ _)) by exact Hlen.
  rewrite Halloc, Hdev, Hlink, Hname, Hlinkname. reflexivity.
Qed.

Lemma create_success_witness :
  create willing_kernel empty_kernel short_named_device =
    Created errc_success
      {| pool := [0x9000];
         device_objects := [(0xa000, "\Device\hvpp"%string)];
         symbolic_links := [("\DosDevices\hvpp"%string, "\Device\hvpp"%string)] |}
      {| name := "hvpp";
         impl_ := Some {| DeviceObject := 0xa000;
                          DeviceLink := "\DosDevices\hvpp" |} |}.
Proof.
  apply (create_success willing_kernel empty_kernel short_named_device
           0x9000 0 0xa000).
  - vm_compute. lia.
  - reflexivity.
  - reflexivity.
  - reflexivity.
Defined.

(** X17: when the symbolic link cannot be created, [create()] undoes
    what it has done: the device object is deleted and the pool block
    freed, so that the kernel holds exactly what it held before the call;
    [impl_] is not assigned and the call returns [not_enough_memory]. *)
Theorem create_link_failure_rolls_back (a : kernel_answers) (k : kernel)
    (d : device) (block raw obj : Z) :
  (String.length (name d) < MAX_BUFFER_SIZE)%nat ->
  answer_alloc a = Some (block, raw) ->
  answer_create_device a = Some obj ->
  answer_create_link a = false ->
  obj <> 0 ->
  Forall (fun q => q <> block) (pool k) ->
  Forall (fun e => fst e <> obj) (device_objects k) ->
  create a k d = Created not_enough_memory k d.
Proof.
  intros Hlen Halloc Hdev Hlink Hobj Hfresh_block Hfresh_obj.
  unfold create. cbv zeta.
  rewrite (proj2 (Nat.leb_gt _ _)) by exact Hlen.
  rewrite Halloc, Hdev, Hlink.
  unfold create_error_path.
  rewrite bool_decide_eq_false_2 by exact Hobj.
  destruct k as [p ds ls].
  unfold kernel_free, kernel_delete_device, kernel_add_device, kernel_alloc,
    remove_block, remove_device.
  cbn [pool device_objects symbolic_links] in *.
  rewrite filter_cons_False by (cbn [fst]; congruence).
  rewrite filter_cons_False by (cbn [fst]; congruence).
  rewrite (filter_all_pass _ _ Hfresh_block).
  rewrite (filter_all_pass _ _ Hfresh_obj).
  reflexivity.
Qed.

Lemma create_link_failure_rolls_back_witness :
  create link_refusing_kernel empty_kernel short_named_device
    = Created not_enough_memory empty_kernel short_named_device.
Proof.
  apply (create_link_failure_rolls_back link_refusing_kernel empty_kernel
           short_named_device 0x9000 0 0xa000).
  - vm_compute. lia.
  - reflexivity.
  - reflexivity.
  - reflexivity.
  - discriminate.
  - constructor.
  - constructor.
Defined.

(** X18: when [ExAllocatePoolWithTag] returns null for a name that
    passes the length test, [create()] jumps to its error path, which
    reads the [DeviceObject] member through the null pointer: the call
    does not return an error code, whatever the other answers of the
    kernel would have been. *)
Theorem create_without_pool (a : kernel_answers) (k : kernel) (d : device) :
  (String.length (name d) < MAX_BUFFER_SIZE)%nat ->
  answer_alloc a = None ->
  create a k d = Crashed k d /\
  forall e k' d', create a k d <> Created e k' d'.
Proof.
  intros Hlen Halloc.
  assert (H : create a k d = Crashed k d).
  { unfold create. cbv zeta.
    rewrite (proj2 (Nat.leb_gt _ _)) by exact Hlen.
    rewrite Halloc. reflexivity. }
  split; [exact H|]. intros e k' d'. rewrite H. discriminate.
Qed.

Lemma create_without_pool_witness :
  create exhausted_kernel empty_kernel short_named_device
    = Crashed empty_kernel short_named_device.
Proof.
  apply (create_without_pool exhausted_kernel empty_kernel short_named_device).
  - vm_compute. lia.
  - reflexivity.
Defined.

(** ** The suppress-advance flag between exits *)

(** X19: the value the suppress-advance flag has when [entry_host()] is
    entered is of no consequence: the call behaves as on the same virtual
    CPU with the flag in any other position.  A suppression requested by
    the handler during one exit therefore never carries over to the
    next. *)
Theorem entry_host_forgets_flag (P : platform) (w : world) (b : bool) :
  entry_host P {| self := set_suppress_rip_adjust_ (self w) b; cpu := cpu w |}
    = entry_host P w.
Proof.
  rewrite !entry_host_to_handler.
  destruct w as [v c]. destruct v, c. reflexivity.
Qed.

(** ** A freshly constructed virtual CPU *)

Lemma ept_rejected P w i :
  (ept_count_ (self w) <= i)%nat ->
  assertions_fatal P = true ->
  ept P i w = Fault w.
Proof.
  intros Hi Hfatal. unfold ept. rewrite bind_get.
  rewrite bool_decide_eq_false_2 by lia.
  unfold bind at 1. rewrite hvpp_assert_false_fatal by assumption.
  reflexivity.
Qed.

(** X20: the object the constructor builds is switched off in every
    respect: the state is [off], no translation context exists and the
    pending-interrupt queue is empty.  Where assertions are fatal, it
    rejects [terminate()], [load_vmcs()] and, for every index,
    [ept_index()] and [ept()], each without any effect; [ept_disable()]
    returns without doing anything; and [ept_enable(count)] passes its
    assertion for every count from 1 to 65535: it returns with the count
    stored when its allocation succeeds, and reads through the null
    pointer when the allocation yields null. *)
Theorem vcpu_t_ctor_inert (P : platform) (this handler raw_fx raw_bitmap : Z)
    (c : cpu_t) :
  assertions_fatal P = true ->
  let w := {| self := vcpu_t_ctor this handler raw_fx raw_bitmap; cpu := c |} in
  state_ (self w) = off /\
  pending_interrupt_count_ (self w) = 0%nat /\
  terminate P w = Fault w /\
  load_vmcs P w = Fault w /\
  (forall i, ept_index P i w = Fault w) /\
  (forall i, ept P i w = Fault w) /\
  ept_disable w = Ret tt w /\
  (forall count, (0 < count)%nat -> Z.of_nat count < 2 ^ 16 ->
     (exists w', ept_enable P count true w = Ret tt w' /\
                 ept_ (self w') = Some (new_ept_array P count) /\
                 ept_count_ (self w') = count) /\
     (exists w', ept_enable P count false w = Undef w' /\
                 ept_ (self w') = None /\
                 ept_count_ (self w') = count)).
Proof.
  intros Hfatal w.
  split; [reflexivity|]. split; [reflexivity|].
  split; [apply terminate_illegal; [left; reflexivity|exact Hfatal]|].
  split; [apply load_vmcs_rejected; [discriminate|exact Hfatal]|].
  split; [intros i; apply ept_index_rejected; [cbn; lia|exact Hfatal]|].
  split; [intros i; apply ept_rejected; [cbn; lia|exact Hfatal]|].
  split; [apply ept_disable_not_enabled; reflexivity|].
  intros count Hcount Hfits. split.
  - eexists.
    split; [apply ept_enable_runs; [reflexivity|exact Hcount|exact Hfits]|].
    split; reflexivity.
  - eexists.
    split; [apply ept_enable_unallocated;
            [reflexivity|exact Hcount|exact Hfits]|].
    split; reflexivity.
Qed.

Lemma vcpu_t_ctor_inert_witness :
  terminate debug_platform (fresh_world good_cpu) = Fault (fresh_world good_cpu) /\
  ept_index debug_platform 0 (fresh_world good_cpu)
    = Fault (fresh_world good_cpu).
Proof.
  destruct (vcpu_t_ctor_inert debug_platform 0x800000 0 0 0 good_cpu)
    as (_ & _ & Hterm & _ & Hidx & _); [reflexivity|].
  split; [exact Hterm|exact (Hidx 0%nat)].
Defined.

(** ** Stopping after a launch has failed *)

Lemma terminate_closure_illegal P w :
  state_ (self w) = off \/ state_ (self w) = terminated ->
  assertions_fatal P = true ->
  exists w', terminate_closure P w = Fault w'.
Proof.
  intros Hst Hfatal. open_world w. unfold terminate_closure. exec.
  rewrite terminate_illegal by (fields; assumption).
  eexists. reflexivity.
Qed.

Lemma run_vcpu_on_faults idx onto f s l v c w' :
  vcpu_list (global s) = Some l ->
  l !! idx = Some v ->
  cpus s !! onto = Some c ->
  f {| self := v; cpu := c |} = Fault w' ->
  exists s', run_vcpu_on idx onto f s = SFault s'.
Proof.
  intros Hl Hv Hc Hf. unfold run_vcpu_on. rewrite Hl, Hv, Hc, Hf.
  eexists. reflexivity.
Qed.

Lemma ipi_call_from_terminate_faults P :
  assertions_fatal P = true ->
  forall n idx s l,
    vcpu_list (global s) = Some l ->
    (idx + n <= length l)%nat ->
    (idx + n <= length (cpus s))%nat ->
    (exists j v, (idx <= j < idx + n)%nat /\ l !! j = Some v /\
                 (state_ v = off \/ state_ v = terminated)) ->
    exists s', ipi_call_from (terminate_closure P) idx n s = SFault s'.
Proof.
  intros Hfatal. induction n as [|n IH]; intros idx s l Hl Hlen Hlenc Hbad.
  - destruct Hbad as (j & v & Hj & _). lia.
  - destruct (lookup_lt_is_Some_2 l idx) as [v0 Hv0]; [lia|].
    destruct (lookup_lt_is_Some_2 (cpus s) idx) as [c0 Hc0]; [lia|].
    cbn [ipi_call_from].
    destruct (decide (state_ v0 = off)) as [Hoff|Hoff];
      [|destruct (decide (state_ v0 = terminated)) as [Hterm|Hterm]].
    + destruct (terminate_closure_illegal P {| self := v0; cpu := c0 |})
        as (w' & Hrun); [left; exact Hoff|exact Hfatal|].
      destruct (run_vcpu_on_faults idx idx _ s l v0 c0 w' Hl Hv0 Hc0 Hrun)
        as (s' & Hs'). rewrite Hs'. exists s'. reflexivity.
    + destruct (terminate_closure_illegal P {| self := v0; cpu := c0 |})
        as (w' & Hrun); [right; exact Hterm|exact Hfatal|].
      destruct (run_vcpu_on_faults idx idx _ s l v0 c0 w' Hl Hv0 Hc0 Hrun)
        as (s' & Hs'). rewrite Hs'. exists s'. reflexivity.
    + destruct (terminate_closure_runs P {| self := v0; cpu := c0 |} Hoff Hterm)
        as (w' & Hrun & _).
      rewrite (run_vcpu_on_returns idx idx _ s l v0 c0 w' Hl Hv0 Hc0 Hrun).
      apply (IH (S idx) _ (<[idx := self w']> l)).
      * reflexivity.
      * rewrite length_insert. lia.
      * cbn [cpus]. rewrite length_insert. lia.
      * destruct Hbad as (j & v & Hj & Hv & Hst).
        assert (j <> idx).
        { intros ->. assert (v = v0) by congruence. subst v.
          destruct Hst; contradiction. }
        exists j, v. split; [lia|].
        split; [rewrite list_lookup_insert_ne by lia; exact Hv|exact Hst].
Qed.

(** X21: the consequence of the unreported launch failure.  If VMLAUNCH
    fails on some processor while everything else succeeds, [start()]
    still returns success with the flag set; where assertions are fatal,
    the [stop()] that follows cannot complete: its broadcast calls
    [terminate()] on the virtual CPU that is already [terminated] and
    stops on the assertion, leaving the flag set. *)
Theorem stop_after_failed_launch (P : platform) (handler : Z)
    (cur cur' : nat) (a : allocation) (s : system) (c : cpu_t) :
  started (global s) = false ->
  vcpu_list (global s) = None ->
  cpus s !! cur = Some c ->
  check_cpu_features P c = true ->
  Forall (fun c => vmx_entry_succeeds c = true) (cpus s) ->
  setup_callback_returns P handler ->
  Exists (fun c => vmlaunch_succeeds (caps c) = false) (cpus s) ->
  assertions_fatal P = true ->
  exists s1 s2,
    start P handler cur (Some a) s = SRet errc_success s1 /\
    is_started s1 = true /\
    stop P cur' s1 = SFault s2 /\
    is_started s2 = true.
Proof.
  intros Hstopped Hnull Hcur Hcheck Hvmx Hsetup Hfail Hfatal.
  destruct (start_launches P handler cur a s c Hstopped Hnull Hcur Hcheck
              Hvmx Hsetup)
    as (s1 & l & Hstart & Hon & Hl & Hlen & Hlenc & Hstates).
  apply Exists_exists in Hfail. destruct Hfail as (c0 & Hin & Hc0).
  apply list_elem_of_lookup in Hin. destruct Hin as (j & Hj).
  destruct (Hstates j c0 Hj) as (v & Hv & Hst). rewrite Hc0 in Hst.
  destruct (ipi_call_from_terminate_faults P Hfatal (length (cpus s1)) 0 s1 l)
    as (s2 & Hcall).
  - exact Hl.
  - lia.
  - lia.
  - exists j, v. split; [apply lookup_lt_Some in Hv; lia|].
    split; [exact Hv|right; exact Hst].
  - exists s1, s2. split; [exact Hstart|]. split; [exact Hon|].
    unfold is_started in Hon.
    assert (Hstop : stop P cur' s1 = SFault s2).
    { unfold stop, assert_passes. rewrite Hon. cbn [negb orb].
      unfold ipi_call. rewrite Hcall. reflexivity. }
    split; [exact Hstop|].
    pose proof (ipi_call_from_started (terminate_closure P)
                  (length (cpus s1)) 0 s1) as Hflag.
    rewrite Hcall in Hflag. cbn [system_of] in Hflag.
    unfold is_started. rewrite Hflag. exact Hon.
Qed.

Lemma stop_after_failed_launch_witness :
  exists s1 s2,
    start idle_platform 0 0 (Some sample_allocation) uneven_system
      = SRet errc_success s1 /\
    stop idle_platform 0 s1 = SFault s2 /\
    is_started s2 = true.
Proof.
  destruct (stop_after_failed_launch idle_platform 0 0 0 sample_allocation
              uneven_system good_cpu)
    as (s1 & s2 & Hstart & _ & Hstop & Hon).
  - reflexivity.
  - reflexivity.
  - reflexivity.
  - vm_compute. reflexivity.
  - repeat constructor.
  - apply idle_setup_callback_returns.
  - apply Exists_cons_tl. apply Exists_cons_hd. reflexivity.
  - reflexivity.
  - exists s1, s2. repeat split; assumption.
Defined.

(** ** The ways out of launch *)

(** X22: [launch()] never leaves its caller in the guest: whenever it
    returns, the state is [running] or [terminated], and it is [running]
    exactly when [setup()] has entered the guest, in which case the
    saved [rax] holds the sentinel and the assignment of [running] is the
    last effect, right after what the guest entry left. *)
Theorem launch_outcome (P : platform) (w : world) :
  (forall wg, launch P w <> Guest wg) /\
  (forall w',
     launch P w = Ret tt w' ->
     (state_ (self w') = terminated /\ setup P w = Ret tt w') \/
     (state_ (self w') = running /\
      rax (guest_context_ (self w')) = vcpu_state_to_Z launching /\
      exists wg,
        setup P w = Guest wg /\
        trace (cpu w') = trace (cpu wg) ++ [ev_state running])).
Proof.
  unfold launch. rewrite launch_from_off.
  destruct (setup P w) as [[] w1|w1|w1|w1] eqn:Hsetup.
  - split; [discriminate|].
    intros w' H. injection H as <-. left.
    split; [|reflexivity].
    apply (setup_returns_terminated P w w1 Hsetup).
  - split; discriminate.
  - split; discriminate.
  - rewrite entry_guest_sets_sentinel. cbn [self cpu].
    replace (rax (guest_context_
                    (set_guest_context_ (self w1)
                       (ctx_set_rax (guest_context_ (self w1))
                                    (vcpu_state_to_Z launching)))))
      with (vcpu_state_to_Z launching) by reflexivity.
    rewrite launch_from_launching.
    split; [discriminate|].
    intros w' H. injection H as <-. right.
    split; [reflexivity|]. split; [reflexivity|].
    exists w1. split; reflexivity.
Qed.
